(** * Streaming feature pipeline for card-fraud detection

    A shallow embedding of the Python pipeline under [kafka/src/pipeline]:
    - [preprocessor.py]      (module [Preprocessor]),
    - [feature_store.py]     (module [FeatureStore]),
    - [feature_extractor.py] (module [FeatureExtractor]),
    - [consumer.py]          (module [Consumer]),
    with the configuration constants of [kafka/src/utils/config.py] and the
    history check of [kafka/scripts/validate_features.py] (module
    [ValidateFeatures]).

    Python [float] is IEEE binary64 and is modelled by Rocq's primitive
    [float]; Python [int] is [Z]; [str] is [string]; a [dict] with string
    keys is a [gmap string _]; exceptions are an error monad. *)

From Stdlib Require Import ZArith Lia Ascii String Floats.
From stdpp Require Import gmap strings list pretty.

Set Warnings "-inexact-float".
Set Default Proof Using "Type".
Open Scope Z_scope.

(** ** Python values and exceptions *)

(** The values a decoded JSON message can hold. A list and a nested
    object are identified by the text [str] gives for them; [PyDeep] is
    a list or an object nested deeper than the interpreter recurses, for
    which [str] and [json.dumps] raise [RecursionError]. *)
Inductive py_value :=
  | PyNone
  | PyBool (b : bool)
  | PyInt (z : Z)
  | PyFloat (f : float)
  | PyStr (s : string)
  | PyList (text : string)
  | PyDict (text : string)
  | PyDeep.

Abbreviation dict := (gmap string py_value).

(** The [ValueError]s by message: those the preprocessor raises,
    [Conversion_failed] for the ones raised by [float] and [int],
    [JSONDecodeError], which is a subclass of [ValueError], and the
    [Year_out_of_range] of [datetime]. *)
Inductive value_error :=
  | Invalid_transaction (error_msg : string)
  | Conversion_failed
  | Type_casting_error
  | Unable_to_parse_timestamp (timestamp : string)
  | Invalid_timestamp_type
  | Amount_must_be_positive (amount : float)
  | Timestamp_out_of_range (timestamp : Z)
  | Invalid_latitude (lat : float)
  | Invalid_longitude (lon : float)
  | JSONDecodeError
  | Year_out_of_range.

Inductive exn :=
  | ValueError (why : value_error)
  | TypeError
  | KeyError (key : string)
  | OverflowError
  | RecursionError
  | OSError.

Inductive result (A : Type) :=
  | Return (a : A)
  | Raise (e : exn).
Arguments Return {A} a.
Arguments Raise {A} e.

#[global] Instance result_ret : MRet result := λ A a, Return a.
#[global] Instance result_bind : MBind result := λ A B k m,
  match m with
  | Return a => k a
  | Raise e => Raise e
  end.

(** [transaction[key]]: a missing key raises [KeyError]. *)
Definition getitem (d : dict) (key : string) : result py_value :=
  match d !! key with
  | Some v => Return v
  | None => Raise (KeyError key)
  end.

(** [transaction.get(key)], whose default is [None]. *)
Definition get (d : dict) (key : string) : py_value :=
  default PyNone (d !! key).

Definition is_None (v : py_value) : bool :=
  match v with
  | PyNone => true
  | _ => false
  end.

Definition is_deep (v : py_value) : bool :=
  match v with
  | PyDeep => true
  | _ => false
  end.

(** ** Binary64 arithmetic that Python adds to the machine operations *)

Module Float.

(** [a / b] rounded to the nearest integer, ties to the even one
    ([0 <= a], [0 < b]). *)
Definition rhe_div (a b : Z) : Z :=
  let q := a / b in
  let r := a mod b in
  match 2 * r ?= b with
  | Lt => q
  | Gt => q + 1
  | Eq => if Z.even q then q else q + 1
  end.

(** Doubles the numerator until [n / d] has reached [2^52]. *)
Fixpoint scale_up (fuel : nat) (n d p : Z) : Z * Z :=
  match fuel with
  | O => (n, p)
  | S fuel' =>
      if n <? d * 2 ^ 52 then scale_up fuel' (2 * n) d (p + 1) else (n, p)
  end.

(** The double nearest to [k / d] (ties to even), with sign [s], for
    [0 <= k], [0 < d] and [k / d <= 2^52]. *)
Definition nearest_ratio (s : bool) (k d : Z) : float :=
  let '(n, p) := scale_up 1200 k d 0 in
  let m := rhe_div n d in
  let '(m, e) := if m =? 2 ^ 53 then (2 ^ 52, 1 - p) else (m, - p) in
  match m with
  | Zpos m => SF2Prim (S754_finite s m e)
  | _ => if s then PrimFloat.neg_zero else PrimFloat.zero
  end.

(** [round(x, ndigits)] on a float, [ndigits >= 0]: the exact binary value
    is rounded to [ndigits] decimals, ties to even, and the decimal
    result is converted back to the nearest double. Values with no
    fractional bit, zeros, infinities and NaN are returned unchanged. *)
Definition round (x : float) (ndigits : nat) : float :=
  match Prim2SF x with
  | S754_finite s m e =>
      if 0 <=? e then x
      else
        let d := 10 ^ Z.of_nat ndigits in
        let k := rhe_div (Z.pos m * d) (2 ^ (- e)) in
        nearest_ratio s k d
  | _ => x
  end.

(** [float(z)] for an [int]: the nearest double, [None] on overflow. *)
Definition of_int (z : Z) : option float :=
  match binary_normalize prec emax z 0 false with
  | S754_infinity _ => None
  | sf => Some (SF2Prim sf)
  end.

(** [int(x)]: truncation toward zero; NaN raises [ValueError] and an
    infinity raises [OverflowError]. *)
Definition to_int (x : float) : result Z :=
  match Prim2SF x with
  | S754_zero _ => Return 0
  | S754_finite s m e =>
      let v := if 0 <=? e then Z.pos m * 2 ^ e else Z.pos m / 2 ^ (- e) in
      Return (if s then - v else v)
  | S754_nan => Raise (ValueError Conversion_failed)
  | S754_infinity _ => Raise OverflowError
  end.

End Float.

(** What the Python runtime supplies and this repository does not define:
    conversions between text and numbers, the natural logarithm and the
    local time zone of the process, whose offset from UTC is less than a
    day. *)
Record PyRuntime := {
  (** [str(x)] for a float *)
  repr_float : float → string;
  (** [float(s)] for a string, [None] when it raises [ValueError] *)
  float_of_string : string → option float;
  (** [int(datetime.fromisoformat(s).timestamp())], [None] on [ValueError] *)
  fromisoformat_timestamp : string → option Z;
  (** [int(datetime.strptime(s, fmt).timestamp())], [None] on [ValueError] *)
  strptime_timestamp : string → string → option Z;
  (** [math.log] *)
  math_log : float → float;
  (** offset of local time from UTC, in seconds, at a given epoch second *)
  utcoffset : Z → Z;
  utcoffset_within_a_day : ∀ t, -86400 < utcoffset t < 86400
}.

(** ** Conversions of dynamically typed values *)

Section Conversions.
Context (py : PyRuntime).

(** The text of [str(v)]; a value nested too deep has none. *)
Definition py_str (v : py_value) : string :=
  match v with
  | PyNone => "None"
  | PyBool true => "True"
  | PyBool false => "False"
  | PyInt z => pretty z
  | PyFloat f => repr_float py f
  | PyStr s => s
  | PyList text | PyDict text => text
  | PyDeep => ""
  end.

(** [str(v)], also when an f-string prints [v]. The integers of a
    message are of a size that [str] prints: [json.loads] decodes none
    with more digits than [int] converts. *)
Definition str (v : py_value) : result string :=
  match v with
  | PyDeep => Raise RecursionError
  | _ => Return (py_str v)
  end.

(** [float(v)] *)
Definition py_float (v : py_value) : result float :=
  match v with
  | PyNone => Raise TypeError
  | PyBool b => Return (if b then 1%float else 0%float)
  | PyInt z =>
      match Float.of_int z with
      | Some f => Return f
      | None => Raise OverflowError
      end
  | PyFloat f => Return f
  | PyStr s =>
      match float_of_string py s with
      | Some f => Return f
      | None => Raise (ValueError Conversion_failed)
      end
  | PyList _ | PyDict _ | PyDeep => Raise TypeError
  end.

End Conversions.

(** [isinstance(v, (int, float))]; [bool] is a subclass of [int]. *)
Definition is_number (v : py_value) : bool :=
  match v with
  | PyBool _ | PyInt _ | PyFloat _ => true
  | _ => false
  end.

(** [int(v)] for a value that passed [is_number]. *)
Definition py_int (v : py_value) : result Z :=
  match v with
  | PyBool b => Return (if b then 1 else 0)
  | PyInt z => Return z
  | PyFloat f => Float.to_int f
  | _ => Raise TypeError
  end.

(** Reading a value at the type the code uses it at. *)
Definition float_val (v : py_value) : result float :=
  match v with
  | PyFloat f => Return f
  | _ => Raise TypeError
  end.

Definition int_val (v : py_value) : result Z :=
  match v with
  | PyInt z => Return z
  | _ => Raise TypeError
  end.

Definition str_val (v : py_value) : result string :=
  match v with
  | PyStr s => Return s
  | _ => Raise TypeError
  end.

(** A number in float arithmetic: an [int] operand is converted. *)
Definition number_val (v : py_value) : result float :=
  match v with
  | PyBool b => Return (if b then 1%float else 0%float)
  | PyInt z =>
      match Float.of_int z with
      | Some f => Return f
      | None => Raise OverflowError
      end
  | PyFloat f => Return f
  | _ => Raise TypeError
  end.

(** [a + b] on numbers: integer when both are, float otherwise. *)
Definition py_add (a b : py_value) : result py_value :=
  match a, b with
  | (PyInt _ | PyBool _), (PyInt _ | PyBool _) =>
      x ← py_int a; y ← py_int b; Return (PyInt (x + y))
  | _, _ =>
      x ← number_val a; y ← number_val b; Return (PyFloat (x + y)%float)
  end.

(** [sum(values)], which starts from the integer [0]. *)
Definition py_sum (values : list py_value) : result py_value :=
  foldl (λ acc v, total ← acc; py_add total v) (Return (PyInt 0)) values.

(** [round(v, ndigits)]: an [int] is returned as it is. *)
Definition py_round (v : py_value) (ndigits : nat) : result py_value :=
  match v with
  | PyBool _ | PyInt _ => z ← py_int v; Return (PyInt z)
  | PyFloat f => Return (PyFloat (Float.round f ndigits))
  | _ => Raise TypeError
  end.

(** [s.replace('Z', '+00:00')] *)
Fixpoint replace_Z (s : string) : string :=
  match s with
  | EmptyString => EmptyString
  | String c rest =>
      if Ascii.eqb c "Z"%char then "+00:00" +:+ replace_Z rest
      else String c (replace_Z rest)
  end.

(** ** [preprocessor.py] *)

Module Preprocessor.

Definition REQUIRED_FIELDS : list string :=
  ["transaction_id"; "card_id"; "amount"; "merchant_id"; "timestamp"].

Definition OPTIONAL_FIELDS : list (string * py_value) :=
  [("merchant_category", PyStr "UNKNOWN");
   ("location_lat", PyNone);
   ("location_lon", PyNone);
   ("city", PyStr "");
   ("state", PyStr "");
   ("user_id", PyStr "")].

Record TransactionPreprocessor := {
  amount_clip_percentile : float;
  amount_clip_value : float
}.

(** [TransactionPreprocessor.__init__] *)
Definition init (amount_clip_percentile : float) : TransactionPreprocessor :=
  {| amount_clip_percentile := amount_clip_percentile;
     amount_clip_value := 10000 |}.

(** [field not in transaction or transaction[field] is None] *)
Definition absent (transaction : dict) (field : string) : bool :=
  match transaction !! field with
  | None => true
  | Some v => is_None v
  end.

(** The input is a [dict] by its type, so the [isinstance] test of the
    source always passes. *)
Definition validate_schema (transaction : dict) : bool * string :=
  let missing_fields :=
    List.filter (absent transaction) REQUIRED_FIELDS in
  match missing_fields with
  | [] => (true, "")
  | _ => (false, "Missing required fields: " +:+ String.concat ", " missing_fields)
  end.

(** The body of the loop of [_handle_missing_values]. *)
Definition fill_default (transaction : dict) (item : string * py_value) : dict :=
  let '(field, default_value) := item in
  if absent transaction field
  then <[field := default_value]> transaction
  else transaction.

Definition _handle_missing_values (transaction : dict) : dict :=
  foldl fill_default transaction OPTIONAL_FIELDS.

(** [except (ValueError, TypeError)] around the casts. *)
Definition recast {A} (m : result A) : result A :=
  match m with
  | Raise (ValueError _) | Raise TypeError => Raise (ValueError Type_casting_error)
  | _ => m
  end.

Definition _normalize_amount (self : TransactionPreprocessor) (amount : float)
  : float :=
  let amount := if (amount <? 0)%float then abs amount else amount in
  let amount :=
    if (amount_clip_value self <? amount)%float
    then amount_clip_value self else amount in
  Float.round amount 2.

Section WithRuntime.
Context (py : PyRuntime).

(** [float(transaction[field])] when [transaction.get(field)] is not
    [None]. *)
Definition cast_coordinate (field : string) (transaction : dict) : result dict :=
  if is_None (get transaction field) then Return transaction
  else
    f ← py_float py (get transaction field);
    Return (<[field := PyFloat f]> transaction).

Definition _cast_types (transaction : dict) : result dict :=
  recast (
    v ← getitem transaction "transaction_id";
    s ← str py v;
    let transaction := <["transaction_id" := PyStr s]> transaction in
    v ← getitem transaction "card_id";
    s ← str py v;
    let transaction := <["card_id" := PyStr s]> transaction in
    v ← getitem transaction "merchant_id";
    s ← str py v;
    let transaction := <["merchant_id" := PyStr s]> transaction in
    let v := default (PyStr "UNKNOWN") (transaction !! "merchant_category") in
    s ← str py v;
    let transaction := <["merchant_category" := PyStr s]> transaction in
    v ← getitem transaction "amount";
    f ← py_float py v;
    let transaction := <["amount" := PyFloat f]> transaction in
    v ← getitem transaction "timestamp";
    transaction ←
      (if is_number v
       then z ← py_int v; Return (<["timestamp" := PyInt z]> transaction)
       else Return transaction);
    transaction ← cast_coordinate "location_lat" transaction;
    transaction ← cast_coordinate "location_lon" transaction;
    Return transaction).

Definition _parse_timestamp (timestamp : py_value) : result Z :=
  if is_number timestamp then py_int timestamp
  else
    match timestamp with
    | PyStr s =>
        match fromisoformat_timestamp py (replace_Z s) with
        | Some z => Return z
        | None =>
            match strptime_timestamp py s "%Y-%m-%d %H:%M:%S" with
            | Some z => Return z
            | None => Raise (ValueError (Unable_to_parse_timestamp s))
            end
        end
    | _ => Raise (ValueError Invalid_timestamp_type)
    end.

Definition _validate_ranges (transaction : dict) : result unit :=
  v ← getitem transaction "amount";
  amount ← float_val v;
  if (amount <=? 0)%float
  then Raise (ValueError (Amount_must_be_positive amount))
  else
    let min_timestamp := 946684800 in
    let max_timestamp := 4102444800 in
    v ← getitem transaction "timestamp";
    timestamp ← int_val v;
    if negb ((min_timestamp <=? timestamp) && (timestamp <=? max_timestamp))
    then Raise (ValueError (Timestamp_out_of_range timestamp))
    else
      _ ← (if is_None (get transaction "location_lat") then Return ()
           else
             lat ← float_val (get transaction "location_lat");
             if negb ((-90 <=? lat)%float && (lat <=? 90)%float)
             then Raise (ValueError (Invalid_latitude lat))
             else Return ());
      if is_None (get transaction "location_lon") then Return ()
      else
        lon ← float_val (get transaction "location_lon");
        if negb ((-180 <=? lon)%float && (lon <=? 180)%float)
        then Raise (ValueError (Invalid_longitude lon))
        else Return ().

Definition preprocess (self : TransactionPreprocessor) (transaction : dict)
  : result dict :=
  let '(is_valid, error_msg) := validate_schema transaction in
  if negb is_valid
  then Raise (ValueError (Invalid_transaction error_msg))
  else
    (* [transaction.copy()]: maps are values, the argument is untouched *)
    let processed := transaction in
    let processed := _handle_missing_values processed in
    processed ← _cast_types processed;
    v ← getitem processed "amount";
    amount ← float_val v;
    let processed :=
      <["amount" := PyFloat (_normalize_amount self amount)]> processed in
    v ← getitem processed "timestamp";
    timestamp ← _parse_timestamp v;
    let processed := <["timestamp" := PyInt timestamp]> processed in
    _ ← _validate_ranges processed;
    Return processed.

End WithRuntime.

End Preprocessor.


(** ** Equality of values *)

#[global] Instance float_eq_dec : EqDecision float.
Proof.
  intros x y. destruct (PrimFloat.Leibniz.eqb x y) eqn:E.
  - left. by apply FloatAxioms.Leibniz.eqb_spec.
  - right. intros ->.
    rewrite (proj2 (FloatAxioms.Leibniz.eqb_spec y y) eq_refl) in E.
    discriminate.
Defined.

#[global] Instance py_value_eq_dec : EqDecision py_value.
Proof. solve_decision. Defined.

(** ** [feature_store.py] *)

Module FeatureStore.

(** *** The Redis data the store talks to *)

(** A member of a history sorted set is a text, told by what
    [json.loads] does with it. [Json d] is the text [json.dumps(d)],
    which [json.loads] maps back to [d]. On the other texts it raises:
    [json.JSONDecodeError] on [Garbage raw]; [RecursionError] on
    [Nested raw], a text with more open brackets in a row than the
    interpreter recurses; [ValueError] on [Overlong raw], a text with an
    integer of more digits than [int] converts. A text that decodes to
    something other than an object, which no part of the pipeline
    writes, has no constructor. *)
Inductive member :=
  | Json (d : dict)
  | Garbage (raw : string)
  | Nested (raw : string)
  | Overlong (raw : string).

#[global] Instance member_eq_dec : EqDecision member.
Proof. solve_decision. Defined.

(** The text of [json.dumps(d)]. *)
Definition json_dumps (d : dict) : member := Json d.

Definition json_loads (tx_data : member) : result dict :=
  match tx_data with
  | Json d => Return d
  | Garbage _ => Raise (ValueError JSONDecodeError)
  | Nested _ => Raise RecursionError
  | Overlong _ => Raise (ValueError Conversion_failed)
  end.

(** A sorted set: members with their scores, by ascending score. Redis
    orders members of equal score by their bytes; here they keep the
    order of insertion. The scores are the integer timestamps that the
    preprocessor produces. *)
Abbreviation zset := (list (member * Z)).

Fixpoint zinsert (m : member) (score : Z) (z : zset) : zset :=
  match z with
  | [] => [(m, score)]
  | (m', score') :: rest =>
      if score' <=? score then (m', score') :: zinsert m score rest
      else (m, score) :: z
  end.

(** [ZADD key score member]: a member already present takes the new
    score. *)
Definition zadd (z : zset) (m : member) (score : Z) : zset :=
  zinsert m score (List.filter (λ e, negb (bool_decide (e.1 = m))) z).

(** [ZRANGEBYSCORE key min max]: both bounds are inclusive. *)
Definition zrangebyscore (z : zset) (min max : Z) : list member :=
  fst <$> List.filter (λ e, (min <=? e.2) && (e.2 <=? max)) z.

(** [ZREMRANGEBYSCORE key -inf max]: the bound is inclusive. *)
Definition zremrangebyscore_from_neg_inf (z : zset) (max : Z) : zset :=
  List.filter (λ e, negb (e.2 <=? max)) z.

(** The hash [card:{card_id}:stats]. Redis keeps the text of each
    number, which [float] and [int] read back to the number written; a
    text written this way is never empty. *)
Record stats := {
  avg_amount : option float;
  last_tx_timestamp : option Z
}.

(** The hash [features:merchant:{merchant_id}], written by others. *)
Record merchant_hash := {
  risk_score : option float;
  fraud_rate : option float;
  total_transactions : option Z
}.

(** The database, by key family. The three [card:] families end in
    different suffixes and so never share a key. *)
Record redis := {
  card_stats : gmap string stats;
  tx_history : gmap string zset;
  merchants_24h : gmap string (gset string);
  merchant_features : gmap string merchant_hash;
  (** seconds to live, by full key *)
  ttl : gmap string Z
}.

Definition empty : redis :=
  {| card_stats := ∅; tx_history := ∅; merchants_24h := ∅;
     merchant_features := ∅; ttl := ∅ |}.

Definition no_stats : stats :=
  {| avg_amount := None; last_tx_timestamp := None |}.

Definition stats_key (card_id : string) : string := "card:" +:+ card_id +:+ ":stats".
Definition history_key (card_id : string) : string := "card:" +:+ card_id +:+ ":tx_history".
Definition merchants_key (card_id : string) : string := "card:" +:+ card_id +:+ ":merchants:24h".

Definition hget_stats (self : redis) (card_id : string) : stats :=
  default no_stats (card_stats self !! card_id).

Definition history (self : redis) (card_id : string) : zset :=
  default [] (tx_history self !! card_id).

Definition merchants (self : redis) (card_id : string) : gset string :=
  default ∅ (merchants_24h self !! card_id).

(** [DEL key] for a key of the three [card:] families. *)
Definition del (self : redis) (key : string) : redis :=
  {| card_stats :=
       filter (λ item, stats_key item.1 ≠ key) (card_stats self);
     tx_history :=
       filter (λ item, history_key item.1 ≠ key) (tx_history self);
     merchants_24h :=
       filter (λ item, merchants_key item.1 ≠ key) (merchants_24h self);
     merchant_features := merchant_features self;
     ttl := delete key (ttl self) |}.

(** [EXPIRE key seconds] on a key that was just written: a timeout that
    is not positive deletes the key at once. *)
Definition expire (self : redis) (key : string) (seconds : Z) : redis :=
  if seconds <=? 0 then del self key
  else
    {| card_stats := card_stats self; tx_history := tx_history self;
       merchants_24h := merchants_24h self;
       merchant_features := merchant_features self;
       ttl := <[key := seconds]> (ttl self) |}.

Definition set_history (self : redis) (card_id : string) (z : zset) : redis :=
  {| card_stats := card_stats self;
     tx_history := <[card_id := z]> (tx_history self);
     merchants_24h := merchants_24h self;
     merchant_features := merchant_features self;
     ttl := ttl self |}.

Definition set_stats (self : redis) (card_id : string) (s : stats) : redis :=
  {| card_stats := <[card_id := s]> (card_stats self);
     tx_history := tx_history self;
     merchants_24h := merchants_24h self;
     merchant_features := merchant_features self;
     ttl := ttl self |}.

Definition set_merchants (self : redis) (card_id : string) (s : gset string) : redis :=
  {| card_stats := card_stats self; tx_history := tx_history self;
     merchants_24h := <[card_id := s]> (merchants_24h self);
     merchant_features := merchant_features self;
     ttl := ttl self |}.

(** *** The methods of [FeatureStore]

    The connection is taken to be up: no call raises [redis.RedisError].
    What is left of each [except] clause is the Python-level failure of
    reading the transaction. The scores of a history are integers: a
    timestamp of another type, which the preprocessor never returns, is
    taken to fail before the write. *)

Definition _get_default_merchant_features : dict :=
  {[ "risk_score" := PyFloat 0.5; "fraud_rate" := PyFloat 0.002;
     "total_transactions" := PyInt 100 ]}.

Definition get_merchant_features (self : redis) (merchant_id : string) : dict :=
  match merchant_features self !! merchant_id with
  | None => _get_default_merchant_features
  | Some features =>
      {[ "risk_score" := PyFloat (default 0.5%float (risk_score features));
         "fraud_rate" := PyFloat (default 0.002%float (fraud_rate features));
         "total_transactions" := PyInt (default 100 (total_transactions features)) ]}
  end.

Definition add_to_transaction_history
    (self : redis) (card_id : string) (transaction : dict) (ttl : Z)
  : bool * redis :=
  let key := history_key card_id in
  let prepared :=
    timestamp ← getitem transaction "timestamp";
    amount ← getitem transaction "amount";
    merchant_id ← getitem transaction "merchant_id";
    (* [json.dumps] does not print a value nested too deep *)
    tx_data ←
      (if existsb is_deep [amount; merchant_id; timestamp]
       then Raise RecursionError
       else Return (json_dumps {[ "amount" := amount;
                                  "merchant_id" := merchant_id;
                                  "timestamp" := timestamp ]}));
    score ← int_val timestamp;
    Return (tx_data, score) in
  match prepared with
  | Return (tx_data, timestamp) =>
      let self := set_history self card_id (zadd (history self card_id) tx_data timestamp) in
      let self := expire self key ttl in
      let min_timestamp := timestamp - ttl in
      let self :=
        set_history self card_id
          (zremrangebyscore_from_neg_inf (history self card_id) min_timestamp) in
      (true, self)
  | Raise _ => (false, self)
  end.

Definition get_transaction_history
    (self : redis) (card_id : string) (window_seconds current_timestamp : Z)
  : list dict :=
  let min_timestamp := current_timestamp - window_seconds in
  let tx_data_list :=
    zrangebyscore (history self card_id) min_timestamp current_timestamp in
  let parsed :=
    foldl (λ transactions tx_data,
             transactions ← transactions;
             match json_loads tx_data with
             | Return tx => Return (transactions ++ [tx])
             | Raise (ValueError JSONDecodeError) => Return transactions
             | Raise e => Raise e
             end)
          (Return []) tx_data_list in
  (* [except Exception: return []] *)
  match parsed with
  | Return transactions => transactions
  | Raise _ => []
  end.

Definition add_merchant_to_set
    (self : redis) (card_id merchant_id : string) (ttl : Z) : bool * redis :=
  let key := merchants_key card_id in
  let self := set_merchants self card_id ({[ merchant_id ]} ∪ merchants self card_id) in
  let self := expire self key ttl in
  (true, self).

Definition get_unique_merchant_count
    (self : redis) (card_id : string) (window_seconds : Z) : Z :=
  Z.of_nat (size (merchants self card_id)).

Definition update_rolling_average
    (self : redis) (card_id : string) (amount alpha : float) : float * redis :=
  let key := stats_key card_id in
  let old_avg_str := avg_amount (hget_stats self card_id) in
  let old_avg := match old_avg_str with Some v => v | None => 75.0%float end in
  let new_avg := (alpha * amount + (1 - alpha) * old_avg)%float in
  let self :=
    set_stats self card_id
      {| avg_amount := Some new_avg;
         last_tx_timestamp := last_tx_timestamp (hget_stats self card_id) |} in
  let self := expire self key 2592000 in
  (new_avg, self).

Definition get_rolling_average (self : redis) (card_id : string) : option float :=
  avg_amount (hget_stats self card_id).

Definition update_last_transaction_timestamp
    (self : redis) (card_id : string) (timestamp : Z) : bool * redis :=
  let key := stats_key card_id in
  let self :=
    set_stats self card_id
      {| avg_amount := avg_amount (hget_stats self card_id);
         last_tx_timestamp := Some timestamp |} in
  let self := expire self key 2592000 in
  (true, self).

Definition get_last_transaction_timestamp (self : redis) (card_id : string)
  : option Z :=
  last_tx_timestamp (hget_stats self card_id).

(** *** The card features served to the model

    [get_card_features], [get_all_features] and [update_card_features]
    work on the hashes [features:card:{card_id}], which the pipeline
    never writes: they are kept beside [redis], field texts by card, and
    with them the seconds to live of each hash. *)
Record card_hashes := {
  card_features : gmap string (gmap string string);
  card_features_ttl : gmap string Z
}.

Definition no_card_features : card_hashes :=
  {| card_features := ∅; card_features_ttl := ∅ |}.

Definition card_features_key (card_id : string) : string :=
  "features:card:" +:+ card_id.

(** [HGETALL]: a hash that does not exist reads as the empty dict. *)
Definition hgetall (self : card_hashes) (card_id : string) : gmap string string :=
  default ∅ (card_features self !! card_id).

Definition _get_default_card_features : dict :=
  {[ "tx_count_10m" := PyInt 0;
     "tx_count_1h" := PyInt 0;
     "tx_count_24h" := PyInt 0;
     "total_amount_10m" := PyFloat 0.0;
     "total_amount_1h" := PyFloat 0.0;
     "total_amount_24h" := PyFloat 0.0;
     "unique_merchants_24h" := PyInt 0;
     "avg_tx_amount_30d" := PyFloat 75.0;
     "last_tx_timestamp" := PyInt 0;
     "is_new_card" := PyInt 1 ]}.

Section CardFeatures.
Context (py : PyRuntime).
(** [int(s)] for a string, [None] when it raises [ValueError] *)
Context (int_of_string : string → option Z).

(** [int(features.get(key, default))], [None] when [int] raises. *)
Definition int_field (features : gmap string string) (key : string)
    (default_value : Z) : option Z :=
  match features !! key with
  | Some text => int_of_string text
  | None => Some default_value
  end.

(** [float(features.get(key, default))], [None] when [float] raises. *)
Definition float_field (features : gmap string string) (key : string)
    (default_value : float) : option float :=
  match features !! key with
  | Some text => float_of_string py text
  | None => Some default_value
  end.

(** Any exception of a conversion is caught and answered with the
    defaults. *)
Definition get_card_features (self : card_hashes) (card_id : string) : dict :=
  let features := hgetall self card_id in
  if decide (features = ∅) then _get_default_card_features
  else
    default _get_default_card_features (
      tx_count_10m ← int_field features "tx_count_10m" 0;
      tx_count_1h ← int_field features "tx_count_1h" 0;
      tx_count_24h ← int_field features "tx_count_24h" 0;
      total_amount_10m ← float_field features "total_amount_10m" 0.0;
      total_amount_1h ← float_field features "total_amount_1h" 0.0;
      total_amount_24h ← float_field features "total_amount_24h" 0.0;
      unique_merchants_24h ← int_field features "unique_merchants_24h" 0;
      avg_tx_amount_30d ← float_field features "avg_tx_amount_30d" 75.0;
      last_tx_timestamp ← int_field features "last_tx_timestamp" 0;
      is_new_card ← int_field features "is_new_card" 1;
      Some {[ "tx_count_10m" := PyInt tx_count_10m;
              "tx_count_1h" := PyInt tx_count_1h;
              "tx_count_24h" := PyInt tx_count_24h;
              "total_amount_10m" := PyFloat total_amount_10m;
              "total_amount_1h" := PyFloat total_amount_1h;
              "total_amount_24h" := PyFloat total_amount_24h;
              "unique_merchants_24h" := PyInt unique_merchants_24h;
              "avg_tx_amount_30d" := PyFloat avg_tx_amount_30d;
              "last_tx_timestamp" := PyInt last_tx_timestamp;
              "is_new_card" := PyInt is_new_card ]}).

(** Each [all_features.update(d)] is the union that prefers [d]. *)
Definition get_all_features
    (self : redis) (hashes : card_hashes) (card_id merchant_id : string) : dict :=
  let card_features := get_card_features hashes card_id in
  let merchant_features := get_merchant_features self merchant_id in
  let all_features : dict := ∅ in
  let all_features :=
    kmap (λ k : string, "card_" +:+ k) card_features ∪ all_features in
  let all_features :=
    kmap (λ k : string, "merchant_" +:+ k) merchant_features ∪ all_features in
  all_features.

(** The text that the Redis client sends for a value of a mapping: the
    [repr] of an [int] or a [float], a [str] as it is; for any other
    value, [bool] included, it raises [DataError] ([None]). *)
Definition encode (v : py_value) : option string :=
  match v with
  | PyInt z => Some (pretty z)
  | PyFloat f => Some (repr_float py f)
  | PyStr s => Some s
  | _ => None
  end.

(** [HSET key mapping] and [EXPIRE]. The client refuses an empty mapping
    and a value it cannot encode before anything is sent; the exception
    is caught and [False] returned. The fields written replace those of
    the same name and leave the others of the hash; a timeout that is
    not positive then deletes the hash. *)
Definition update_card_features
    (self : card_hashes) (card_id : string) (features : dict) (ttl : Z)
  : bool * card_hashes :=
  let key := card_features_key card_id in
  if decide (features = ∅) then (false, self)
  else if decide (map_Forall (λ _ v, is_Some (encode v)) features)
  then
    let written :=
      <[card_id := omap encode features ∪ hgetall self card_id]>
        (card_features self) in
    (true,
     if ttl <=? 0
     then {| card_features := delete card_id written;
             card_features_ttl := delete key (card_features_ttl self) |}
     else {| card_features := written;
             card_features_ttl := <[key := ttl]> (card_features_ttl self) |})
  else (false, self).

End CardFeatures.

End FeatureStore.

(** ** [utils/config.py] *)

Module Config.

(** A configuration dictionary; [None] is a key left out. *)
Record feature_config := {
  velocity_windows : option (list (string * Z));
  rolling_avg_alpha : option float;
  amount_clip_percentile : option float;
  default_avg_amount : option float
}.

Definition FEATURE_CONFIG : feature_config :=
  {| velocity_windows := Some [("10m", 600); ("1h", 3600); ("24h", 86400)];
     rolling_avg_alpha := Some 0.1%float;
     amount_clip_percentile := Some 99.0%float;
     default_avg_amount := Some 75.0%float |}.

Definition REDIS_TTL_tx_history : Z := 86400.
Definition REDIS_TTL_merchant_set : Z := 86400.
Definition REDIS_TTL_card_stats : Z := 2592000.

End Config.

(** ** [feature_extractor.py] *)

Module FeatureExtractor.

Record FeatureExtractor := {
  velocity_windows : list (string * Z);
  rolling_avg_alpha : float;
  default_avg_amount : float
}.

(** [FeatureExtractor.__init__]; the feature store is passed to each
    method instead of being held by reference. *)
Definition init (feature_config : Config.feature_config) : FeatureExtractor :=
  {| velocity_windows :=
       default [("10m", 600); ("1h", 3600); ("24h", 86400)]
               (Config.velocity_windows feature_config);
     rolling_avg_alpha :=
       default 0.1%float (Config.rolling_avg_alpha feature_config);
     default_avg_amount :=
       default 75.0%float (Config.default_avg_amount feature_config) |}.

(** [self.velocity_windows[name]] *)
Fixpoint window (windows : list (string * Z)) (name : string) : result Z :=
  match windows with
  | [] => Raise (KeyError name)
  | (window_name, window_seconds) :: rest =>
      if bool_decide (window_name = name) then Return window_seconds
      else window rest name
  end.

Fixpoint velocity_loop
    (store : FeatureStore.redis) (card_id : string) (current_timestamp : Z)
    (windows : list (string * Z)) (features : dict) : result dict :=
  match windows with
  | [] => Return features
  | (window_name, window_seconds) :: rest =>
      let tx_history :=
        FeatureStore.get_transaction_history
          store card_id window_seconds current_timestamp in
      let features :=
        <["tx_count_" +:+ window_name := PyInt (Z.of_nat (length tx_history))]>
          features in
      total_amount ←
        py_sum ((λ tx : dict, default (PyInt 0) (tx !! "amount")) <$> tx_history);
      rounded ← py_round total_amount 2;
      let features := <["total_amount_" +:+ window_name := rounded]> features in
      velocity_loop store card_id current_timestamp rest features
  end.

Definition _compute_velocity_features
    (self : FeatureExtractor) (store : FeatureStore.redis)
    (card_id : string) (current_timestamp : Z) : result dict :=
  features ←
    velocity_loop store card_id current_timestamp (velocity_windows self) ∅;
  window_seconds ← window (velocity_windows self) "24h";
  let unique_merchants :=
    FeatureStore.get_unique_merchant_count store card_id window_seconds in
  let features := <["unique_merchants_24h" := PyInt unique_merchants]> features in
  let last_tx_timestamp :=
    FeatureStore.get_last_transaction_timestamp store card_id in
  let time_since_last_tx :=
    match last_tx_timestamp with
    | Some last =>
        if negb (last =? 0) && (0 <? last) then current_timestamp - last else 0
    | None => 0
    end in
  Return (<["time_since_last_tx" := PyInt time_since_last_tx]> features).

Definition _compute_rolling_features
    (self : FeatureExtractor) (store : FeatureStore.redis)
    (card_id : string) (current_amount : float) : dict :=
  let current_avg := FeatureStore.get_rolling_average store card_id in
  let current_avg :=
    match current_avg with
    | None => default_avg_amount self
    | Some avg => if (avg =? 0)%float then default_avg_amount self else avg
    end in
  let amount_deviation :=
    if (0 <? current_avg)%float
    then PyFloat (Float.round ((current_amount - current_avg) / current_avg) 3)
    else PyInt 0 in
  {[ "avg_tx_amount_30d" := PyFloat (Float.round current_avg 2);
     "amount_deviation" := amount_deviation;
     "amount_vs_avg_ratio" :=
       if (0 <? current_avg)%float
       then PyFloat (Float.round (current_amount / current_avg) 3)
       else PyFloat 1.0 ]}.

Section WithRuntime.
Context (py : PyRuntime).

(** [math.log(max(value, 0) + 1)] *)
Definition _safe_log (value : float) : float :=
  let m := if (value <? 0)%float then 0%float else value in
  math_log py (m + 1)%float.

Definition _compute_transaction_features (transaction : dict) : result dict :=
  amount ← getitem transaction "amount";
  value ← number_val amount;
  Return {[ "amount" := amount;
            "amount_log" := PyFloat (_safe_log value);
            "merchant_category" :=
              default (PyStr "UNKNOWN") (transaction !! "merchant_category");
            "has_location" :=
              PyInt (if is_None (get transaction "location_lat") then 0 else 1) ]}.

(** [datetime.fromtimestamp(timestamp)], as the seconds of local time
    since 1970-01-01 00:00:00. It returns for the local times from
    0001-01-02 00:00:00 to 9999-12-31 23:59:59. Elsewhere it raises:
    [OverflowError] outside the 64 bits of [time_t], [OSError] where
    the [localtime] of the C library gives up, [ValueError] for the other
    years out of range. *)
Definition fromtimestamp (timestamp : Z) : result Z :=
  if negb ((- 2 ^ 63 <=? timestamp) && (timestamp <? 2 ^ 63))
  then Raise OverflowError
  else if negb ((-67768040609740800 <=? timestamp)
                && (timestamp <? 67768036191676800))
  then Raise OSError
  else
    let local := timestamp + utcoffset py timestamp in
    if (-62135510400 <=? local) && (local <=? 253402300799)
    then Return local
    else Raise (ValueError Year_out_of_range).

(** The hour of local time, and its weekday with Monday as 0
    (1970-01-01 was a Thursday). *)
Definition _compute_temporal_features (timestamp : Z) : result dict :=
  dt ← fromtimestamp timestamp;
  let hour := (dt `mod` 86400) `div` 3600 in
  let day_of_week := (dt `div` 86400 + 3) `mod` 7 in
  Return {[ "hour_of_day" := PyInt hour;
            "day_of_week" := PyInt day_of_week;
            "is_weekend" := PyInt (if 5 <=? day_of_week then 1 else 0);
            "is_night" := PyInt (if (22 <=? hour) || (hour <? 6) then 1 else 0) ]}.

(** [features.update(d)] *)
Definition update (features d : dict) : dict := d ∪ features.

Definition extract_features
    (self : FeatureExtractor) (store : FeatureStore.redis)
    (transaction : dict) : result dict :=
  v ← getitem transaction "card_id";
  card_id ← str_val v;
  v ← getitem transaction "merchant_id";
  merchant_id ← str_val v;
  v ← getitem transaction "amount";
  amount ← number_val v;
  v ← getitem transaction "timestamp";
  timestamp ← int_val v;
  let features : dict := ∅ in
  tx_features ← _compute_transaction_features transaction;
  let features := update features tx_features in
  velocity_features ← _compute_velocity_features self store card_id timestamp;
  let features := update features velocity_features in
  let rolling_features := _compute_rolling_features self store card_id amount in
  let features := update features rolling_features in
  temporal_features ← _compute_temporal_features timestamp;
  let features := update features temporal_features in
  let merchant_features := FeatureStore.get_merchant_features store merchant_id in
  let features :=
    update features
      (kmap (λ k : string, "merchant_" +:+ k) merchant_features) in
  (* the log line reads the transaction id *)
  _ ← getitem transaction "transaction_id";
  Return features.

End WithRuntime.

(** The four writes. Each store method is followed on the values that
    the preprocessor returns, a float amount, a text merchant and an
    integer timestamp; any other value is taken to fail in its method,
    which then leaves the store as it was. *)
Definition update_card_state
    (self : FeatureExtractor) (store : FeatureStore.redis)
    (card_id : string) (transaction : dict) : result FeatureStore.redis :=
  timestamp ← getitem transaction "timestamp";
  amount ← getitem transaction "amount";
  merchant_id ← getitem transaction "merchant_id";
  let '(_, store) :=
    FeatureStore.add_to_transaction_history store card_id transaction 86400 in
  let '(_, store) :=
    match str_val merchant_id with
    | Return merchant_id =>
        FeatureStore.add_merchant_to_set store card_id merchant_id 86400
    | Raise _ => (false, store)
    end in
  let '(_, store) :=
    match number_val amount with
    | Return amount =>
        FeatureStore.update_rolling_average
          store card_id amount (rolling_avg_alpha self)
    | Raise _ => (75.0%float, store)
    end in
  let '(_, store) :=
    match int_val timestamp with
    | Return timestamp =>
        FeatureStore.update_last_transaction_timestamp store card_id timestamp
    | Raise _ => (false, store)
    end in
  Return store.

End FeatureExtractor.

(** ** [consumer.py] *)

Module Consumer.

(** The consumer with the services it owns. The latency totals, which
    read the clock, are left out. *)
Record FeatureExtractionConsumer := {
  feature_store : FeatureStore.redis;
  feature_extractor : FeatureExtractor.FeatureExtractor;
  preprocessor : Preprocessor.TransactionPreprocessor;
  running : bool;
  messages_processed : Z;
  messages_failed : Z
}.

(** The state after [__init__] and [_init_services], on a given
    database. *)
Definition init (store : FeatureStore.redis) : FeatureExtractionConsumer :=
  {| feature_store := store;
     feature_extractor := FeatureExtractor.init Config.FEATURE_CONFIG;
     preprocessor :=
       Preprocessor.init
         (default 99.0%float
            (Config.amount_clip_percentile Config.FEATURE_CONFIG));
     running := true;
     messages_processed := 0;
     messages_failed := 0 |}.

Definition with_store (self : FeatureExtractionConsumer)
    (store : FeatureStore.redis) : FeatureExtractionConsumer :=
  {| feature_store := store;
     feature_extractor := feature_extractor self;
     preprocessor := preprocessor self;
     running := running self;
     messages_processed := messages_processed self;
     messages_failed := messages_failed self |}.

Section WithRuntime.
Context (py : PyRuntime).

(** [card_id[:12]] in the log line: only text and lists can be sliced,
    and a list nested too deep is not printed. *)
Definition sliceable (v : py_value) : bool :=
  match v with
  | PyStr _ | PyList _ => true
  | _ => false
  end.

(** Every exception is answered with [False]. The debug line prints the
    transaction id before the preprocessor runs; the store methods print
    the card id into their keys, and one that cannot be printed fails
    each of them and then the debug line of [update_card_state]. *)
Definition _process_message
    (self : FeatureExtractionConsumer) (message : dict)
  : bool * FeatureExtractionConsumer :=
  let transaction_id := default (PyStr "UNKNOWN") (message !! "transaction_id") in
  let card_id := default (PyStr "") (message !! "card_id") in
  match _ ← str py transaction_id;
        Preprocessor.preprocess py (preprocessor self) message with
  | Raise _ => (false, self)
  | Return preprocessed_tx =>
      match FeatureExtractor.extract_features
              py (feature_extractor self) (feature_store self) preprocessed_tx with
      | Raise _ => (false, self)
      | Return features =>
          match card ← str py card_id;
                FeatureExtractor.update_card_state
                  (feature_extractor self) (feature_store self)
                  card preprocessed_tx with
          | Raise _ => (false, self)
          | Return store =>
              let self := with_store self store in
              if sliceable card_id then (true, self) else (false, self)
          end
      end
  end.

(** The body of the loop of [consume], for one message. *)
Definition consume_message
    (self : FeatureExtractionConsumer) (message : dict)
  : FeatureExtractionConsumer :=
  let '(success, self) := _process_message self message in
  if success
  then {| feature_store := feature_store self;
          feature_extractor := feature_extractor self;
          preprocessor := preprocessor self;
          running := running self;
          messages_processed := messages_processed self + 1;
          messages_failed := messages_failed self |}
  else {| feature_store := feature_store self;
          feature_extractor := feature_extractor self;
          preprocessor := preprocessor self;
          running := running self;
          messages_processed := messages_processed self;
          messages_failed := messages_failed self + 1 |}.

(** The loop over the messages delivered, left at the first message
    that finds [running] cleared. *)
Fixpoint consume
    (self : FeatureExtractionConsumer) (messages : list dict)
  : FeatureExtractionConsumer :=
  match messages with
  | [] => self
  | message :: rest =>
      if negb (running self) then self
      else consume (consume_message self message) rest
  end.

End WithRuntime.

End Consumer.

(** ** [scripts/validate_features.py] *)

Module ValidateFeatures.

Inductive issue :=
  | Missing_amount
  | Invalid_amount (amount : py_value)
  | Missing_timestamp
  | Timestamp_mismatch (timestamp : py_value) (score : Z)
  | Invalid_JSON (text : string)
  | Exception_text.

(** The dictionary that a validation returns. *)
Record report := {
  valid : bool;
  count : Z;
  issues : list issue
}.

(** [v <= 0]: numbers compare, any other value raises [TypeError]. *)
Definition le_zero (v : py_value) : result bool :=
  match v with
  | PyBool b => Return (negb b)
  | PyInt z => Return (z <=? 0)
  | PyFloat f => Return (f <=? 0)%float
  | _ => Raise TypeError
  end.

(** [v != score], the score being the float of an integer: numbers
    compare by value, any other value differs. *)
Definition ne_score (v : py_value) (score : Z) : bool :=
  match v with
  | PyBool b => negb ((if b then 1 else 0) =? score)
  | PyInt z => negb (z =? score)
  | PyFloat f =>
      match Float.of_int score with
      | Some g => negb (f =? g)%float
      | None => true
      end
  | _ => true
  end.

(** The body of the loop over the sample, for one member. *)
Definition check_transaction (tx_data : FeatureStore.member) (score : Z)
  : result (list issue) :=
  match tx_data with
  | FeatureStore.Garbage raw => Return [Invalid_JSON (substring 0 50 raw)]
  | FeatureStore.Nested _ => Raise RecursionError
  | FeatureStore.Overlong _ => Raise (ValueError Conversion_failed)
  | FeatureStore.Json tx =>
      amount_issues ←
        match tx !! "amount" with
        | None => Return [Missing_amount]
        | Some amount =>
            bad ← le_zero amount;
            Return (if bad : bool then [Invalid_amount amount] else [])
        end;
      let timestamp_issues :=
        match tx !! "timestamp" with
        | None => [Missing_timestamp]
        | Some timestamp =>
            if ne_score timestamp score
            then [Timestamp_mismatch timestamp score] else []
        end in
      Return (amount_issues ++ timestamp_issues)
  end.

(** [validate_transaction_history(client, key)] for the history key of a
    card. The sample [ZRANGE key 0 4] is the first five members of the
    sorted set. *)
Definition validate_transaction_history
    (client : FeatureStore.redis) (card_id : string) : report :=
  let tx_count := Z.of_nat (length (FeatureStore.history client card_id)) in
  if tx_count =? 0 then {| valid := true; count := 0; issues := [] |}
  else
    let sample_txs := take 5 (FeatureStore.history client card_id) in
    let checked :=
      foldl (λ acc '(tx_data, score),
               issues ← acc;
               found ← check_transaction tx_data score;
               Return (issues ++ found))
            (Return []) sample_txs in
    match checked with
    | Return issues =>
        {| valid := match issues with [] => true | _ => false end;
           count := tx_count;
           issues := issues |}
    | Raise _ => {| valid := false; count := 0; issues := [Exception_text] |}
    end.

End ValidateFeatures.

(** ** Vocabulary of the statements *)

Module Spec.

(** [a / b] rounded to the nearest integer, ties away from zero
    ([0 <= a], [0 < b]). *)
Definition rha_div (a b : Z) : Z :=
  let q := a / b in
  let r := a mod b in
  if 2 * r <? b then q else q + 1.

(** Rounding to [ndigits] decimals with ties away from zero, as the
    specification words the normalization of amounts; it differs from
    [Float.round] only in the integer rounding. *)
Definition round_half_away (x : float) (ndigits : nat) : float :=
  match Prim2SF x with
  | S754_finite s m e =>
      if 0 <=? e then x
      else
        let d := 10 ^ Z.of_nat ndigits in
        let k := rha_div (Z.pos m * d) (2 ^ (- e)) in
        Float.nearest_ratio s k d
  | _ => x
  end.

(** The normalization in the specification's words: absolute value,
    clip, round half away from zero to 2 decimals. *)
Definition normalize_half_away (clip amount : float) : float :=
  let amount := abs amount in
  let amount := if (clip <? amount)%float then clip else amount in
  round_half_away amount 2.

(** The same with the rounding of Python's [round]. *)
Definition normalize_half_even (clip amount : float) : float :=
  let amount := abs amount in
  let amount := if (clip <? amount)%float then clip else amount in
  Float.round amount 2.

(** The doubles nearest to the amounts of 1 to 1000000 cents. *)
Definition cents (b : float) : Prop :=
  ∃ k, 1 ≤ k ≤ 1000000 ∧ b = Float.nearest_ratio false k 100.

(** The value under a key in the dictionary a computation returned. *)
Definition item (outcome : result dict) (key : string) : option py_value :=
  match outcome with
  | Return d => d !! key
  | Raise _ => None
  end.

(** Whether a computation returned. *)
Definition returns {A} (outcome : result A) : bool :=
  match outcome with
  | Return _ => true
  | Raise _ => false
  end.

(** A coordinate that passed the preprocessor: [None], or a float
    within the bound. *)
Definition coordinate (out : dict) (field : string) (low high : float) : Prop :=
  out !! field = Some PyNone
  ∨ ∃ x, out !! field = Some (PyFloat x)
         ∧ (low <=? x)%float = true ∧ (x <=? high)%float = true.

(** The shape of a record that the preprocessor returns. *)
Record preprocessed (self : Preprocessor.TransactionPreprocessor)
    (out : dict) : Prop := {
  transaction_id_is_text : ∃ s, out !! "transaction_id" = Some (PyStr s);
  card_id_is_text : ∃ s, out !! "card_id" = Some (PyStr s);
  merchant_id_is_text : ∃ s, out !! "merchant_id" = Some (PyStr s);
  merchant_category_is_text : ∃ s, out !! "merchant_category" = Some (PyStr s);
  amount_is_normalized :
    ∃ b, out !! "amount" = Some (PyFloat b)
         ∧ Preprocessor._normalize_amount self b = b
         ∧ (b <=? 0)%float = false;
  timestamp_in_range :
    ∃ timestamp, out !! "timestamp" = Some (PyInt timestamp)
                 ∧ 946684800 ≤ timestamp ≤ 4102444800;
  latitude_in_range : coordinate out "location_lat" (-90) 90;
  longitude_in_range : coordinate out "location_lon" (-180) 180;
  city_is_filled : Preprocessor.absent out "city" = false;
  state_is_filled : Preprocessor.absent out "state" = false;
  user_id_is_filled : Preprocessor.absent out "user_id" = false
}.

(** The dictionary that [json.loads] returns for a member, if it
    returns. *)
Definition decoded (tx_data : FeatureStore.member) : option dict :=
  match FeatureStore.json_loads tx_data with
  | Return tx => Some tx
  | Raise _ => None
  end.

(** The members on which [json.loads] raises an exception other than
    [json.JSONDecodeError]. *)
Definition aborts (tx_data : FeatureStore.member) : bool :=
  match FeatureStore.json_loads tx_data with
  | Return _ | Raise (ValueError JSONDecodeError) => false
  | Raise _ => true
  end.

(** No member of a history with a score from [low] to [high] is one of
    those. *)
Definition readable (store : FeatureStore.redis) (card_id : string)
    (low high : Z) : Prop :=
  ∀ tx_data score,
    (tx_data, score) ∈ FeatureStore.history store card_id →
    low ≤ score ≤ high →
    aborts tx_data = false.

(** Every decodable history entry carries its score as its timestamp. *)
Definition timestamps_are_scores (store : FeatureStore.redis) : Prop :=
  ∀ card_id d score,
    (FeatureStore.Json d, score) ∈ FeatureStore.history store card_id →
    d !! "timestamp" = Some (PyInt score).

(** The keys that [_cast_types] and the two assignments of [preprocess]
    write. *)
Definition written_keys : list string :=
  ["transaction_id"; "card_id"; "merchant_id"; "merchant_category";
   "amount"; "timestamp"; "location_lat"; "location_lon"].

(** The exceptions that leave [preprocess]. *)
Definition leaves_preprocess (e : exn) : Prop :=
  (∃ why, e = ValueError why) ∨ e = OverflowError ∨ e = RecursionError.

(** A message with every required field. *)
Definition complete (transaction : dict) : Prop :=
  ∀ field, field ∈ Preprocessor.REQUIRED_FIELDS →
           Preprocessor.absent transaction field = false.

(** A message whose identifiers and category [str] prints. *)
Definition printable (transaction : dict) : Prop :=
  ∀ field,
    field ∈ ["transaction_id"; "card_id"; "merchant_id"; "merchant_category"] →
    is_deep (get transaction field) = false.

(** Two states of the store that differ for one card at most. *)
Definition same_elsewhere (card_id : string) (s s' : FeatureStore.redis) : Prop :=
  FeatureStore.merchant_features s' = FeatureStore.merchant_features s
  ∧ ∀ card_id', card_id ≠ card_id' →
      FeatureStore.history s' card_id' = FeatureStore.history s card_id'
      ∧ FeatureStore.merchants s' card_id' = FeatureStore.merchants s card_id'
      ∧ FeatureStore.hget_stats s' card_id' = FeatureStore.hget_stats s card_id'.

(** Every decodable history entry carries a float amount. *)
Definition amounts_are_floats (store : FeatureStore.redis) : Prop :=
  ∀ card_id d score,
    (FeatureStore.Json d, score) ∈ FeatureStore.history store card_id →
    ∃ amount, d !! "amount" = Some (PyFloat amount).

(** Every history entry is what the pipeline writes: decodable, with an
    amount that is not [<= 0] and its score as its timestamp. *)
Definition history_is_sound (store : FeatureStore.redis) : Prop :=
  ∀ card_id tx_data score,
    (tx_data, score) ∈ FeatureStore.history store card_id →
    ∃ d amount,
      tx_data = FeatureStore.Json d
      ∧ d !! "amount" = Some (PyFloat amount)
      ∧ (amount <=? 0)%float = false
      ∧ d !! "timestamp" = Some (PyInt score).

(** The consumer as [_init_services] sets it up, whatever it has counted
    and stored since. *)
Definition configured (self : Consumer.FeatureExtractionConsumer) : Prop :=
  Consumer.feature_extractor self = FeatureExtractor.init Config.FEATURE_CONFIG
  ∧ Consumer.preprocessor self = Preprocessor.init 99.0.

End Spec.

(** ** Data of the scenarios *)

Module Scenario.

(** A runtime in the UTC zone. It parses no text and its logarithm is a
    placeholder: the scenarios hold no number or time as text and no
    statement reads [amount_log]. *)
Definition utc : PyRuntime :=
  {| repr_float := λ _, "";
     float_of_string := λ _, None;
     fromisoformat_timestamp := λ _, None;
     strptime_timestamp := λ _ _, None;
     math_log := λ x, x;
     utcoffset := λ _, 0;
     utcoffset_within_a_day := λ _, conj eq_refl eq_refl |}.

(** A runtime moved to the UTC zone. *)
Definition in_utc (py : PyRuntime) : PyRuntime :=
  {| repr_float := repr_float py;
     float_of_string := float_of_string py;
     fromisoformat_timestamp := fromisoformat_timestamp py;
     strptime_timestamp := strptime_timestamp py;
     math_log := math_log py;
     utcoffset := λ _, 0;
     utcoffset_within_a_day := λ _, conj eq_refl eq_refl |}.

Definition event (transaction_id card_id : string) (amount : float)
    (merchant_id : string) (timestamp : Z) : dict :=
  {[ "transaction_id" := PyStr transaction_id;
     "card_id" := PyStr card_id;
     "amount" := PyFloat amount;
     "merchant_id" := PyStr merchant_id;
     "timestamp" := PyInt timestamp ]}.

(** The event of the cold-start scenario. *)
Definition cold_start : dict := event "A" "C1" 100 "M1" 1707580000.

(** An event of one eighth of a unit, halfway between two cents. *)
Definition eighth : dict := event "A" "C1" 0.125 "M1" 1707580000.

(** The message of the schema-failure scenario: no [card_id]. *)
Definition no_card : dict :=
  {[ "transaction_id" := PyStr "x";
     "amount" := PyInt 1;
     "merchant_id" := PyStr "m";
     "timestamp" := PyInt 1707580000 ]}.

Definition entry (amount : float) (merchant_id : string) (timestamp : Z) : dict :=
  {[ "amount" := PyFloat amount;
     "merchant_id" := PyStr merchant_id;
     "timestamp" := PyInt timestamp ]}.

(** A store where card [C1] has one entry, made exactly 24 hours before
    1707580000. *)
Definition day_old : FeatureStore.redis :=
  FeatureStore.set_history FeatureStore.empty "C1"
    [(FeatureStore.Json (entry 20 "M0" 1707493600), 1707493600)].

(** A text of 100000 open brackets. *)
Definition brackets : string := Pos.iter (String "["%char) "" 100000.

(** The same store with a second member of card [C1], one minute later,
    that is such a text. *)
Definition clogged : FeatureStore.redis :=
  FeatureStore.set_history FeatureStore.empty "C1"
    [(FeatureStore.Json (entry 20 "M0" 1707493600), 1707493600);
     (FeatureStore.Nested brackets, 1707493660)].

(** A store where the rolling average of card [C1] is zero. *)
Definition zero_average : FeatureStore.redis :=
  FeatureStore.set_stats FeatureStore.empty "C1"
    {| FeatureStore.avg_amount := Some 0%float;
       FeatureStore.last_tx_timestamp := Some 1707580000 |}.

Definition extractor : FeatureExtractor.FeatureExtractor :=
  FeatureExtractor.init Config.FEATURE_CONFIG.

Definition preprocessor : Preprocessor.TransactionPreprocessor :=
  Preprocessor.init 99.0.

(** Steps 1 and 2 of [_process_message] on a raw message. *)
Definition extracted (py : PyRuntime) (store : FeatureStore.redis)
    (message : dict) : result dict :=
  preprocessed_tx ← Preprocessor.preprocess py preprocessor message;
  FeatureExtractor.extract_features py extractor store preprocessed_tx.

(** A message with a field that the pipeline does not know. *)
Definition labelled : dict := <["is_fraud" := PyInt 0]> cold_start.

(** A message whose timestamp is the float infinity. *)
Definition endless : dict := <["timestamp" := PyFloat infinity]> cold_start.

(** The cold-start event sent again under another transaction id. *)
Definition resent : dict := event "B" "C1" 100 "M1" 1707580000.

(** A message whose card identifier is a number. *)
Definition numbered : dict := <["card_id" := PyInt 4242]> cold_start.

(** The cold-start event as the preprocessor returns it. *)
Definition ready : dict :=
  {[ "transaction_id" := PyStr "A";
     "card_id" := PyStr "C1";
     "amount" := PyFloat 100;
     "merchant_id" := PyStr "M1";
     "timestamp" := PyInt 1707580000;
     "merchant_category" := PyStr "UNKNOWN";
     "location_lat" := PyNone;
     "location_lon" := PyNone;
     "city" := PyStr "";
     "state" := PyStr "";
     "user_id" := PyStr "" ]}.

(** The store after the four writes for [ready], from the empty one. *)
Definition warm : FeatureStore.redis :=
  (FeatureStore.update_last_transaction_timestamp
     (FeatureStore.update_rolling_average
        (FeatureStore.add_merchant_to_set
           (FeatureStore.add_to_transaction_history
              FeatureStore.empty "C1" ready 86400).2
           "C1" "M1" 86400).2
        "C1" 100 0.1).2
     "C1" 1707580000).2.

(** A store where the rolling average of card [C1] is NaN. *)
Definition nan_average : FeatureStore.redis :=
  FeatureStore.set_stats FeatureStore.empty "C1"
    {| FeatureStore.avg_amount := Some nan;
       FeatureStore.last_tx_timestamp := Some 1707580000 |}.

(** An extractor configured with the 10-minute window alone. *)
Definition short_sighted : FeatureExtractor.FeatureExtractor :=
  FeatureExtractor.init
    {| Config.velocity_windows := Some [("10m", 600)];
       Config.rolling_avg_alpha := None;
       Config.amount_clip_percentile := None;
       Config.default_avg_amount := None |}.

(** Card features where one count is not a number. *)
Definition broken_hash : FeatureStore.card_hashes :=
  {| FeatureStore.card_features :=
       {[ "C1" := {[ "tx_count_1h" := "many"; "avg_tx_amount_30d" := "20.0" ]} ]};
     FeatureStore.card_features_ttl := ∅ |}.

(** A runtime that prints and reads the two amounts of [snapshot], and
    the reading of its integers. *)
Definition two_amounts : PyRuntime :=
  {| repr_float := λ f, if (f =? 20)%float then "20.0" else "75.0";
     float_of_string := λ s,
       if String.eqb s "20.0" then Some 20%float
       else if String.eqb s "75.0" then Some 75%float else None;
     fromisoformat_timestamp := λ _, None;
     strptime_timestamp := λ _ _, None;
     math_log := λ x, x;
     utcoffset := λ _, 0;
     utcoffset_within_a_day := λ _, conj eq_refl eq_refl |}.

Definition three_integers (s : string) : option Z :=
  if String.eqb s "0" then Some 0
  else if String.eqb s "1" then Some 1
  else if String.eqb s "1707580000" then Some 1707580000 else None.

(** The features of a card after one transaction of 20.0. *)
Definition snapshot : dict :=
  {[ "tx_count_10m" := PyInt 1;
     "tx_count_1h" := PyInt 1;
     "tx_count_24h" := PyInt 1;
     "total_amount_10m" := PyFloat 20;
     "total_amount_1h" := PyFloat 20;
     "total_amount_24h" := PyFloat 20;
     "unique_merchants_24h" := PyInt 1;
     "avg_tx_amount_30d" := PyFloat 75;
     "last_tx_timestamp" := PyInt 1707580000;
     "is_new_card" := PyInt 0 ]}.

End Scenario.

(** * Proofs *)

Ltac run := cbn [mbind result_bind mret result_ret].

Ltac lookup_inserts :=
  repeat first [ rewrite lookup_insert_eq
               | rewrite lookup_insert_ne by discriminate ].

Ltac lookup_literal :=
  repeat (rewrite lookup_insert_ne by discriminate);
  first [apply lookup_insert_eq | apply lookup_singleton_eq].

(** ** Rounding to cents *)

Section FloatProofs.
Import Float Spec Preprocessor.

(** *** Rounding of quotients *)

Lemma rhe_div_cases a b :
  0 < b →
  let q := rhe_div a b in
  - b ≤ 2 * (b * q - a) ≤ b.
Proof.
  intros Hb. unfold rhe_div.
  pose proof (Z.div_mod a b ltac:(lia)) as Hd.
  pose proof (Z.mod_pos_bound a b Hb) as Hm.
  destruct (Z.compare_spec (2 * (a mod b)) b); [destruct (Z.even (a / b))| |]; lia.
Qed.

Lemma rhe_div_unique a b k :
  0 < b → - b < 2 * (a - k * b) < b → rhe_div a b = k.
Proof.
  intros Hb Hk.
  pose proof (rhe_div_cases a b Hb) as Hq. simpl in Hq.
  nia.
Qed.

Lemma rhe_div_le a b K : 0 < b → a ≤ K * b → rhe_div a b ≤ K.
Proof.
  intros Hb Ha. pose proof (rhe_div_cases a b Hb) as Hq. simpl in Hq. nia.
Qed.

Lemma rhe_div_ge a b K : 0 < b → K * b ≤ a → K ≤ rhe_div a b.
Proof.
  intros Hb Ha. pose proof (rhe_div_cases a b Hb) as Hq. simpl in Hq. nia.
Qed.

(** *** The scaling loop *)

Lemma scale_up_spec fuel : ∀ n d p,
  0 < n → 0 < d → d * 2 ^ 52 ≤ n * 2 ^ Z.of_nat fuel →
  ∃ j, 0 ≤ j ∧ scale_up fuel n d p = (n * 2 ^ j, p + j)
       ∧ d * 2 ^ 52 ≤ n * 2 ^ j
       ∧ (n < d * 2 ^ 52 → 0 < j ∧ n * 2 ^ j < d * 2 ^ 53).
Proof.
  induction fuel as [|fuel IH]; intros n d p Hn Hd Hfuel.
  - exists 0. simpl in *. rewrite Z.mul_1_r, Z.add_0_r. repeat split; lia.
  - simpl scale_up. destruct (Z.ltb_spec n (d * 2 ^ 52)) as [Hlt|Hge].
    + destruct (IH (2 * n) d (p + 1)) as (j & Hj & Heq & Hlo & Hhi); [lia|lia| |].
      { rewrite Nat2Z.inj_succ, Z.pow_succ_r in Hfuel by lia. lia. }
      exists (j + 1). rewrite Z.pow_add_r, Z.pow_1_r by lia.
      split; [lia|]. split; [rewrite Heq; f_equal; lia|]. split; [lia|].
      intros _. split; [lia|].
      destruct (Z.ltb_spec (2 * n) (d * 2 ^ 52)) as [H2|H2].
      * destruct (Hhi H2). lia.
      * assert (j = 0 ∨ 0 < j) as [->|Hpos] by lia.
        -- rewrite Z.pow_0_r. lia.
        -- (* the loop stops at once when the bound is reached *)
           destruct fuel as [|fuel']; simpl in Heq.
           ++ injection Heq as Heq _.
              assert (2 ^ j = 1) by nia. lia.
           ++ destruct (Z.ltb_spec (2 * n) (d * 2 ^ 52)); [lia|].
              injection Heq as Heq _. assert (2 ^ j = 1) by nia. lia.
    + exists 0. rewrite Z.mul_1_r, Z.add_0_r. repeat split; lia.
Qed.

(** *** Mantissas of 53 bits *)

Lemma digits2_pos_bounds m :
  2 ^ (Z.pos (digits2_pos m) - 1) ≤ Z.pos m < 2 ^ Z.pos (digits2_pos m).
Proof.
  induction m as [m IH|m IH|]; simpl digits2_pos.
  - rewrite Pos2Z.inj_succ. change (Z.pos m~1) with (2 * Z.pos m + 1).
    replace (Z.succ (Z.pos (digits2_pos m)) - 1) with (Z.succ (Z.pos (digits2_pos m) - 1)) by lia.
    rewrite !Z.pow_succ_r by lia.
    revert IH. generalize (2 ^ (Z.pos (digits2_pos m) - 1)) (2 ^ Z.pos (digits2_pos m)).
    intros; lia.
  - rewrite Pos2Z.inj_succ. change (Z.pos m~0) with (2 * Z.pos m).
    replace (Z.succ (Z.pos (digits2_pos m)) - 1) with (Z.succ (Z.pos (digits2_pos m) - 1)) by lia.
    rewrite !Z.pow_succ_r by lia.
    revert IH. generalize (2 ^ (Z.pos (digits2_pos m) - 1)) (2 ^ Z.pos (digits2_pos m)).
    intros; lia.
  - simpl. lia.
Qed.

Lemma digits2_pos_53 m :
  2 ^ 52 ≤ Z.pos m < 2 ^ 53 → Z.pos (digits2_pos m) = 53.
Proof.
  intros Hm. pose proof (digits2_pos_bounds m) as Hd.
  assert (Z.pos (digits2_pos m) - 1 < 53).
  { apply (Z.pow_lt_mono_r_iff 2); lia. }
  assert (52 < Z.pos (digits2_pos m)).
  { apply (Z.pow_lt_mono_r_iff 2); lia. }
  lia.
Qed.

Lemma valid_binary_53 s m e :
  2 ^ 52 ≤ Z.pos m < 2 ^ 53 → -1074 ≤ e ≤ 971 →
  valid_binary (S754_finite s m e) = true.
Proof.
  intros Hm He. unfold valid_binary, bounded, canonical_mantissa, fexp, SpecFloat.emin.
  rewrite (digits2_pos_53 m Hm). unfold prec, emax.
  apply andb_true_intro. split; [apply Z.eqb_eq|apply Z.leb_le]; lia.
Qed.

(** A valid mantissa has at most 53 bits. *)
Lemma valid_binary_mantissa s m e :
  valid_binary (S754_finite s m e) = true →
  Z.pos m < 2 ^ 53 ∧ (e < 0 ∨ 2 ^ 52 ≤ Z.pos m).
Proof.
  unfold valid_binary, bounded, canonical_mantissa, fexp, SpecFloat.emin, prec, emax.
  intros H. apply andb_prop in H as [H1 H2]. apply Z.eqb_eq in H1.
  pose proof (digits2_pos_bounds m) as Hd.
  assert (Z.pos (digits2_pos m) ≤ 53) as Hle by lia.
  split.
  - eapply Z.lt_le_trans; [apply Hd|]. apply Z.pow_le_mono_r; lia.
  - destruct (Z.ltb_spec e 0) as [|He]; [by left|right].
    assert (Z.pos (digits2_pos m) = 53) as Heq by lia.
    rewrite Heq in Hd. apply Hd.
Qed.

(** *** The doubles nearest to the amounts of 1 to 1000000 cents *)

Lemma nearest_ratio_cents k :
  1 ≤ k ≤ 1000000 →
  ∃ m e,
    nearest_ratio false k 100 = SF2Prim (S754_finite false m e)
    ∧ 2 ^ 52 ≤ Z.pos m < 2 ^ 53
    ∧ -60 ≤ e ≤ -39
    ∧ (e = -39 → Z.pos m ≤ 5497558138880000)
    ∧ rhe_div (Z.pos m * 100) (2 ^ (- e)) = k.
Proof.
  intros Hk. unfold nearest_ratio.
  destruct (scale_up_spec 1200 k 100 0) as (j & Hj & -> & Hlo & Hhi); [lia|lia| |].
  { change (Z.of_nat 1200) with 1200. 
    assert (2 ^ 60 ≤ 2 ^ 1200) by (apply Z.pow_le_mono_r; lia).
    change (2 ^ 52) with 4503599627370496.
    change (2 ^ 60) with 1152921504606846976 in *. nia. }
  destruct Hhi as [Hjpos Hhi]; [change (2 ^ 52) with 4503599627370496; lia|].
  rewrite Z.add_0_l.
  change (2 ^ 52) with 4503599627370496 in *.
  change (2 ^ 53) with 9007199254740992 in *.
  assert (39 ≤ j ≤ 59) as Hj'.
  { split.
    - destruct (Z.le_gt_cases 39 j) as [|Hlt]; [done|exfalso].
      assert (2 ^ j ≤ 2 ^ 38) by (apply Z.pow_le_mono_r; lia).
      change (2 ^ 38) with 274877906944 in *. nia.
    - destruct (Z.le_gt_cases j 59) as [|Hgt]; [done|exfalso].
      assert (2 ^ 60 ≤ 2 ^ j) by (apply Z.pow_le_mono_r; lia).
      change (2 ^ 60) with 1152921504606846976 in *. nia. }
  assert (2 ^ 39 ≤ 2 ^ j) as HN by (apply Z.pow_le_mono_r; lia).
  change (2 ^ 39) with 549755813888 in HN.
  pose proof (rhe_div_cases (k * 2 ^ j) 100 ltac:(lia)) as Hm. simpl in Hm.
  set (m := rhe_div (k * 2 ^ j) 100) in *.
  destruct (Z.eqb_spec m 9007199254740992) as [Hm53|Hm53].
  - (* the quotient rounds up to the next binade *)
    exists 4503599627370496%positive, (1 - j).
    assert (40 ≤ j).
    { destruct (Z.eq_dec j 39) as [->|]; [|lia].
      change (2 ^ 39) with 549755813888 in *. lia. }
    split; [done|]. split; [lia|]. split; [lia|]. split; [lia|].
    replace (- (1 - j)) with (j - 1) by lia.
    assert (2 ^ j = 2 * 2 ^ (j - 1)) as HN2.
    { rewrite <- Z.pow_succ_r by lia. f_equal. lia. }
    apply rhe_div_unique; [lia|]. lia.
  - assert (4503599627370496 ≤ m < 9007199254740992) as Hmr by lia.
    destruct m as [|q|q] eqn:Em; [lia| |lia].
    exists q, (- j).
    split; [done|]. split; [lia|]. split; [lia|]. split.
    + intros He. assert (j = 39) as -> by lia.
      rewrite <- Em. apply rhe_div_le; [lia|].
      change (2 ^ 39) with 549755813888. lia.
    + rewrite Z.opp_involutive. apply rhe_div_unique; lia.
Qed.

Lemma cents_Prim2SF b :
  cents b →
  ∃ k m e,
    1 ≤ k ≤ 1000000
    ∧ b = nearest_ratio false k 100
    ∧ Prim2SF b = S754_finite false m e
    ∧ -60 ≤ e ≤ -39
    ∧ (e = -39 → Z.pos m ≤ 5497558138880000)
    ∧ rhe_div (Z.pos m * 100) (2 ^ (- e)) = k.
Proof.
  intros (k & Hk & ->).
  destruct (nearest_ratio_cents k Hk) as (m & e & Heq & Hm & He & Hc & Hd).
  exists k, m, e. repeat split; try done; try lia.
  rewrite Heq. apply Prim2SF_SF2Prim, valid_binary_53; lia.
Qed.

Lemma cents_round b : cents b → round b 2 = b.
Proof.
  intros Hb. destruct (cents_Prim2SF b Hb) as (k & m & e & Hk & Hbk & Hsf & He & _ & Hd).
  unfold round. rewrite Hsf.
  destruct (Z.leb_spec 0 e); [lia|].
  change (10 ^ Z.of_nat 2) with 100. by rewrite Hd.
Qed.

Lemma cents_sign b :
  cents b → (b <? 0)%float = false ∧ (0 <? b)%float = true ∧ (b <=? 0)%float = false.
Proof.
  intros Hb. destruct (cents_Prim2SF b Hb) as (k & m & e & _ & _ & Hsf & _).
  rewrite !ltb_spec, leb_spec, Hsf. done.
Qed.

Lemma pos_compare_cont x y :
  Pos.compare_cont Eq x y = (Z.pos x ?= Z.pos y).
Proof. reflexivity. Qed.

Lemma cents_le_clip b :
  cents b → (10000 <? b)%float = false ∧ (b <=? 10000)%float = true.
Proof.
  intros Hb. destruct (cents_Prim2SF b Hb) as (k & m & e & _ & _ & Hsf & He & Hc & _).
  rewrite ltb_spec, leb_spec, Hsf.
  change (Prim2SF 10000) with (S754_finite false 5497558138880000 (-39)).
  unfold SFltb, SFleb, SFcompare. rewrite !pos_compare_cont.
  destruct (Z.compare_spec (-39) e) as [He1|He1|He1];
    destruct (Z.compare_spec e (-39)) as [He2|He2|He2];
    try lia; try (split; reflexivity).
  specialize (Hc He2).
  destruct (Z.compare_spec (Z.pos 5497558138880000) (Z.pos m));
    destruct (Z.compare_spec (Z.pos m) (Z.pos 5497558138880000));
    try lia; split; reflexivity.
Qed.

(** *** Normalized amounts *)

Lemma cents_clip : cents 10000.
Proof. exists 1000000. split; [lia|]. vm_compute. reflexivity. Qed.

Lemma round_nan x : Prim2SF x = S754_nan → round x 2 = x.
Proof. intros H. unfold round. by rewrite H. Qed.

Lemma round_zero x s : Prim2SF x = S754_zero s → round x 2 = x.
Proof. intros H. unfold round. by rewrite H. Qed.

Lemma Prim2SF_eq x y : Prim2SF x = Prim2SF y → x = y.
Proof. apply Prim2SF_inj. Qed.

Lemma is_nan_false a : is_nan a = false → Prim2SF a ≠ S754_nan.
Proof.
  unfold is_nan. rewrite FloatAxioms.eqb_spec. intros H Hn. rewrite Hn in H.
  discriminate H.
Qed.

(** The absolute value as the source takes it. *)
Lemma abs_when_negative a :
  Prim2SF a ≠ S754_zero true →
  (if (a <? 0)%float then abs a else a) = abs a.
Proof.
  intros Hz. rewrite ltb_spec.
  change (Prim2SF 0) with (S754_zero false).
  destruct (Prim2SF a) as [s|s| |s m e] eqn:E.
  - destruct s; [done|]. simpl. apply Prim2SF_eq. by rewrite abs_spec, E.
  - destruct s; simpl; [done|]. apply Prim2SF_eq. by rewrite abs_spec, E.
  - simpl. apply Prim2SF_eq. by rewrite abs_spec, E.
  - destruct s; simpl; [done|]. apply Prim2SF_eq. by rewrite abs_spec, E.
Qed.

Lemma round_below_clip x m e :
  Prim2SF x = S754_finite false m e →
  Z.pos m < 2 ^ 53 →
  e < -39 ∨ (e = -39 ∧ Z.pos m ≤ 5497558138880000) →
  (round x 2 <=? 0)%float = true ∨ cents (round x 2).
Proof.
  intros Hx Hm He. unfold round. rewrite Hx.
  destruct (Z.leb_spec 0 e); [lia|].
  change (10 ^ Z.of_nat 2) with 100.
  set (k := rhe_div (Z.pos m * 100) (2 ^ (- e))).
  assert (0 < 2 ^ (- e)) as HN by (apply Z.pow_pos_nonneg; lia).
  assert (0 ≤ k ≤ 1000000) as Hk.
  { split.
    - apply rhe_div_ge; lia.
    - apply rhe_div_le; [done|].
      change (2 ^ 53) with 9007199254740992 in Hm.
      destruct He as [He|[-> He]].
      + assert (2 ^ 40 ≤ 2 ^ (- e)) by (apply Z.pow_le_mono_r; lia).
        change (2 ^ 40) with 1099511627776 in *. lia.
      + change (2 ^ (- -39)) with 549755813888. lia. }
  destruct (Z.eq_dec k 0) as [->|Hk0].
  - left. vm_compute. reflexivity.
  - right. exists k. split; [lia|done].
Qed.

(** What a normalized amount can be: NaN, a zero, or a number of cents
    between 1 and 1000000. *)
Lemma _normalize_amount_cases p a :
  let b := _normalize_amount (init p) a in
  (Prim2SF a = S754_nan ∧ b = a)
  ∨ (b <=? 0)%float = true
  ∨ (Prim2SF a ≠ S754_nan ∧ cents b).
Proof.
  unfold _normalize_amount. cbn [amount_clip_value init].
  pose proof (Prim2SF_valid a) as Hvalid.
  destruct (Prim2SF a) as [s|s| |s m e] eqn:E.
  - (* a zero *)
    right; left.
    rewrite (ltb_spec a), E. change (Prim2SF 0) with (S754_zero false).
    cbn [SFltb SFcompare]. rewrite (ltb_spec _ a), E.
    change (Prim2SF 10000) with (S754_finite false 5497558138880000 (-39)).
    cbn [SFltb SFcompare]. rewrite (round_zero a s E), leb_spec, E. done.
  - (* an infinity *)
    right; right. split; [done|].
    assert ((if (a <? 0)%float then abs a else a) = infinity) as ->.
    { rewrite ltb_spec, E. change (Prim2SF 0) with (S754_zero false).
      destruct s; simpl; apply Prim2SF_eq; [by rewrite abs_spec, E|by rewrite E]. }
    change (10000 <? infinity)%float with true.
    cbn iota.
    assert (round 10000 2 = 10000%float) as -> by (vm_compute; reflexivity).
    apply cents_clip.
  - (* NaN *)
    left. split; [done|].
    rewrite (ltb_spec a), E. cbn [SFltb SFcompare].
    rewrite (ltb_spec _ a), E.
    change (Prim2SF 10000) with (S754_finite false 5497558138880000 (-39)).
    cbn [SFltb SFcompare]. by apply round_nan.
  - (* a finite number *)
    set (x := if (a <? 0)%float then abs a else a).
    assert (Prim2SF x = S754_finite false m e) as Hx.
    { subst x. rewrite ltb_spec, E. change (Prim2SF 0) with (S754_zero false).
      destruct s; simpl; [by rewrite abs_spec, E|done]. }
    destruct (valid_binary_mantissa s m e Hvalid) as [Hm53 Hnorm].
    rewrite (ltb_spec _ x), Hx.
    change (Prim2SF 10000) with (S754_finite false 5497558138880000 (-39)).
    unfold SFltb, SFcompare.
    destruct (Z.compare_spec (-39) e) as [He|He|He].
    + (* same exponent as the clip value *)
      rewrite pos_compare_cont.
      destruct (Z.compare_spec (Z.pos 5497558138880000) (Z.pos m)) as [Hm|Hm|Hm].
      * right; right. split; [done|].
        assert (x = 10000%float) as ->.
        { apply Prim2SF_eq. rewrite Hx. injection Hm as <-. by subst e. }
        assert (round 10000 2 = 10000%float) as -> by (vm_compute; reflexivity).
        apply cents_clip.
      * right; right. split; [done|].
        assert (round 10000 2 = 10000%float) as -> by (vm_compute; reflexivity).
        apply cents_clip.
      * destruct (round_below_clip x m e Hx Hm53) as [Hr|Hr];
          [right; lia|by right; left|by right; right].
    + right; right. split; [done|].
      assert (round 10000 2 = 10000%float) as -> by (vm_compute; reflexivity).
      apply cents_clip.
    + destruct (round_below_clip x m e Hx Hm53) as [Hr|Hr];
        [left; lia|by right; left|by right; right].
Qed.

Lemma _normalize_amount_cents p b :
  cents b → _normalize_amount (init p) b = b.
Proof.
  intros Hb. unfold _normalize_amount. cbn [amount_clip_value init].
  destruct (cents_sign b Hb) as [-> _].
  destruct (cents_le_clip b Hb) as [-> _].
  by apply cents_round.
Qed.

(** Normalizing an accepted amount a second time changes nothing. *)
Lemma _normalize_amount_idempotent p a :
  let b := _normalize_amount (init p) a in
  (b <=? 0)%float = false → _normalize_amount (init p) b = b.
Proof.
  intros b Hpos.
  destruct (_normalize_amount_cases p a) as [[Hnan Hb]|[Hz|[_ Hc]]].
  - fold b in Hb. rewrite Hb.
    unfold _normalize_amount. cbn [amount_clip_value init].
    rewrite (ltb_spec a), Hnan. cbn [SFltb SFcompare].
    rewrite (ltb_spec _ a), Hnan.
    change (Prim2SF 10000) with (S754_finite false 5497558138880000 (-39)).
    cbn [SFltb SFcompare]. by apply round_nan.
  - fold b in Hz. congruence.
  - by apply _normalize_amount_cents.
Qed.

(** An accepted amount that is a number lies in (0, 10000]. *)
Lemma _normalize_amount_bounds p a :
  let b := _normalize_amount (init p) a in
  Prim2SF a ≠ S754_nan →
  (b <=? 0)%float = false →
  (0 <? b)%float = true ∧ (b <=? 10000)%float = true.
Proof.
  intros b Hnan Hpos.
  destruct (_normalize_amount_cases p a) as [[Hn _]|[Hz|[_ Hc]]].
  - done.
  - fold b in Hz. congruence.
  - fold b in Hc. split; [apply (cents_sign b Hc)|apply (cents_le_clip b Hc)].
Qed.

(** For an accepted amount the source's steps are: absolute value, clip,
    round half to even. *)
Lemma _normalize_amount_half_even p a :
  let b := _normalize_amount (init p) a in
  (b <=? 0)%float = false →
  b = Spec.normalize_half_even 10000 a.
Proof.
  intros b Hpos. subst b. unfold Spec.normalize_half_even.
  destruct (Prim2SF a) as [s|s| |s m e] eqn:E;
    try (unfold _normalize_amount; cbn [amount_clip_value init];
         rewrite abs_when_negative; [done|by rewrite E]).
  destruct s.
  - exfalso. revert Hpos. unfold _normalize_amount. cbn [amount_clip_value init].
    rewrite (ltb_spec a), E. change (Prim2SF 0) with (S754_zero false).
    cbn [SFltb SFcompare]. rewrite (ltb_spec _ a), E.
    change (Prim2SF 10000) with (S754_finite false 5497558138880000 (-39)).
    cbn [SFltb SFcompare]. rewrite (round_zero a true E), leb_spec, E. done.
  - unfold _normalize_amount. cbn [amount_clip_value init].
    rewrite abs_when_negative; [done|by rewrite E].
Qed.

End FloatProofs.

(** ** The preprocessor *)

Section PreprocessorProofs.
Import Preprocessor Spec.

(** *** Filling the optional fields *)

Lemma absent_false transaction field :
  absent transaction field = false ↔
  ∃ v, transaction !! field = Some v ∧ is_None v = false.
Proof.
  unfold absent. destruct (transaction !! field) as [v|]; split.
  - eauto.
  - by intros (w & [= <-] & H).
  - done.
  - by intros (w & [=] & _).
Qed.

Lemma fill_default_ne transaction field default_value key :
  field ≠ key →
  fill_default transaction (field, default_value) !! key = transaction !! key.
Proof.
  intros Hne. unfold fill_default.
  destruct (absent transaction field); [|done]. by rewrite lookup_insert_ne.
Qed.

Lemma fill_default_eq transaction field default_value :
  fill_default transaction (field, default_value) !! field
  = if absent transaction field then Some default_value else transaction !! field.
Proof.
  unfold fill_default.
  destruct (absent transaction field); [|done]. by rewrite lookup_insert_eq.
Qed.

Lemma absent_fill_default_ne transaction field default_value key :
  field ≠ key →
  absent (fill_default transaction (field, default_value)) key = absent transaction key.
Proof. intros Hne. unfold absent. by rewrite fill_default_ne. Qed.

Ltac fill_lookups :=
  repeat first [ rewrite fill_default_eq
               | rewrite fill_default_ne by discriminate
               | rewrite absent_fill_default_ne by discriminate ].

(** A field that is not optional is left as it was. *)
Lemma _handle_missing_values_required transaction key :
  key ∈ REQUIRED_FIELDS →
  _handle_missing_values transaction !! key = transaction !! key.
Proof.
  intros Hkey. unfold _handle_missing_values, OPTIONAL_FIELDS. cbn [foldl].
  unfold REQUIRED_FIELDS in Hkey. rewrite !elem_of_cons in Hkey.
  destruct Hkey as [->|[->|[->|[->|[->|Hnil]]]]];
    [..|by apply elem_of_nil in Hnil]; by fill_lookups.
Qed.

Lemma _handle_missing_values_optional transaction field default_value :
  (field, default_value) ∈ OPTIONAL_FIELDS →
  _handle_missing_values transaction !! field
  = if absent transaction field then Some default_value else transaction !! field.
Proof.
  intros Hin. unfold _handle_missing_values. unfold OPTIONAL_FIELDS in *.
  cbn [foldl]. rewrite !elem_of_cons in Hin.
  destruct Hin as [[= -> ->]|[[= -> ->]|[[= -> ->]|[[= -> ->]|[[= -> ->]|[[= -> ->]|Hnil]]]]]];
    [..|by apply elem_of_nil in Hnil]; by fill_lookups.
Qed.

(** *** Casting *)

Lemma recast_Return {A} (m : result A) a : recast m = Return a → m = Return a.
Proof. destruct m as [|[]]; simpl; congruence. Qed.

Lemma cast_coordinate_Return py field transaction transaction' :
  cast_coordinate py field transaction = Return transaction' →
  (is_None (get transaction field) = true ∧ transaction' = transaction)
  ∨ (∃ x, is_None (get transaction field) = false
          ∧ py_float py (get transaction field) = Return x
          ∧ transaction' = <[field := PyFloat x]> transaction).
Proof.
  unfold cast_coordinate. destruct (is_None (get transaction field)).
  - intros [= <-]. by left.
  - destruct (py_float py (get transaction field)) as [x|]; [|done].
    run. intros [= <-]. right. by exists x.
Qed.

Lemma str_Return py v s :
  str py v = Return s ↔ is_deep v = false ∧ s = py_str py v.
Proof. destruct v; simpl; split; (intros [= <-] || intros [[=] ->] || intros [_ ->]); done. Qed.

Lemma str_printable py v : is_deep v = false → str py v = Return (py_str py v).
Proof. intros H. by apply str_Return. Qed.

Lemma _cast_types_Return py t1 t2 :
  _cast_types py t1 = Return t2 →
  ∃ tid cid mid a vts t3 t4 t5,
    (t1 !! "transaction_id" = Some tid ∧ is_deep tid = false)
    ∧ (t1 !! "card_id" = Some cid ∧ is_deep cid = false)
    ∧ (t1 !! "merchant_id" = Some mid ∧ is_deep mid = false)
    ∧ (∃ v, t1 !! "amount" = Some v ∧ py_float py v = Return a)
    ∧ t1 !! "timestamp" = Some vts
    ∧ t3 = <["amount" := PyFloat a]>
             (<["merchant_category" :=
                  PyStr (py_str py (default (PyStr "UNKNOWN") (t1 !! "merchant_category")))]>
                (<["merchant_id" := PyStr (py_str py mid)]>
                   (<["card_id" := PyStr (py_str py cid)]>
                      (<["transaction_id" := PyStr (py_str py tid)]> t1))))
    ∧ ((is_number vts = false ∧ t4 = t3)
       ∨ (∃ z, is_number vts = true ∧ py_int vts = Return z
               ∧ t4 = <["timestamp" := PyInt z]> t3))
    ∧ cast_coordinate py "location_lat" t4 = Return t5
    ∧ cast_coordinate py "location_lon" t5 = Return t2.
Proof.
  intros H. apply recast_Return in H. revert H. unfold getitem.
  destruct (t1 !! "transaction_id") as [tid|] eqn:Etid; [|done]. run.
  destruct (str py tid) as [s1|] eqn:Es1; [|done]. run.
  apply str_Return in Es1 as [Dtid ->].
  lookup_inserts.
  destruct (t1 !! "card_id") as [cid|] eqn:Ecid; [|done]. run.
  destruct (str py cid) as [s2|] eqn:Es2; [|done]. run.
  apply str_Return in Es2 as [Dcid ->].
  lookup_inserts.
  destruct (t1 !! "merchant_id") as [mid|] eqn:Emid; [|done]. run.
  destruct (str py mid) as [s3|] eqn:Es3; [|done]. run.
  apply str_Return in Es3 as [Dmid ->].
  lookup_inserts.
  destruct (str py (default (PyStr "UNKNOWN") (t1 !! "merchant_category")))
    as [s4|] eqn:Es4; [|done]. run.
  apply str_Return in Es4 as [Dcat ->].
  lookup_inserts.
  destruct (t1 !! "amount") as [va|] eqn:Eamount; [|done]. run.
  destruct (py_float py va) as [a|] eqn:Ea; [|done]. run.
  lookup_inserts.
  destruct (t1 !! "timestamp") as [vts|] eqn:Ets; [|done]. run.
  set (t3 := <["amount" := PyFloat a]> _).
  destruct (is_number vts) eqn:Enum.
  - destruct (py_int vts) as [z|] eqn:Ez; [|done]. run.
    destruct (cast_coordinate py "location_lat" _) as [t5|] eqn:E5; [|done]. run.
    destruct (cast_coordinate py "location_lon" t5) as [t6|] eqn:E6; [|done]. run.
    intros [= <-].
    exists tid, cid, mid, a, vts, t3, (<["timestamp" := PyInt z]> t3), t5.
    repeat split; try done; eauto.
  - run.
    destruct (cast_coordinate py "location_lat" _) as [t5|] eqn:E5; [|done]. run.
    destruct (cast_coordinate py "location_lon" t5) as [t6|] eqn:E6; [|done]. run.
    intros [= <-].
    exists tid, cid, mid, a, vts, t3, t3, t5.
    repeat split; try done; eauto.
Qed.

(** *** A record that was returned is returned as it is *)

Lemma fill_default_id transaction field default_value :
  absent transaction field = false ∨ transaction !! field = Some default_value →
  fill_default transaction (field, default_value) = transaction.
Proof.
  intros [H|H]; unfold fill_default.
  - by rewrite H.
  - destruct (absent transaction field); [|done]. by apply insert_id.
Qed.

Lemma absent_Some transaction field v :
  transaction !! field = Some v → absent transaction field = is_None v.
Proof. intros H. unfold absent. by rewrite H. Qed.

Lemma coordinate_fill out field low high :
  coordinate out field low high →
  fill_default out (field, PyNone) = out.
Proof.
  intros [H|(x & H & _)]; apply fill_default_id.
  - by right.
  - left. by rewrite (absent_Some _ _ _ H).
Qed.

Lemma coordinate_cast py out field low high :
  coordinate out field low high →
  cast_coordinate py field out = Return out.
Proof.
  unfold cast_coordinate, get. intros [H|(x & H & _)]; rewrite H; simpl.
  - done.
  - run. by rewrite insert_id.
Qed.

Lemma preprocessed_fixed py p out :
  preprocessed (init p) out → preprocess py (init p) out = Return out.
Proof.
  intros [[tid Htid] [cid Hcid] [mid Hmid] [cat Hcat] (b & Hb & Hnorm & Hpos)
          (ts & Hts & Hrange) Hlat Hlon Hcity Hstate Huser].
  unfold preprocess.
  assert (validate_schema out = (true, "")) as ->.
  { unfold validate_schema, REQUIRED_FIELDS. cbn [List.filter].
    by rewrite (absent_Some _ _ _ Htid), (absent_Some _ _ _ Hcid),
      (absent_Some _ _ _ Hb), (absent_Some _ _ _ Hmid), (absent_Some _ _ _ Hts). }
  cbn [negb].
  assert (_handle_missing_values out = out) as ->.
  { unfold _handle_missing_values, OPTIONAL_FIELDS. cbn [foldl].
    rewrite (fill_default_id out "merchant_category")
      by (left; by rewrite (absent_Some _ _ _ Hcat)).
    rewrite (coordinate_fill out "location_lat" _ _ Hlat).
    rewrite (coordinate_fill out "location_lon" _ _ Hlon).
    rewrite (fill_default_id out "city") by by left.
    rewrite (fill_default_id out "state") by by left.
    by rewrite (fill_default_id out "user_id") by by left. }
  assert (_cast_types py out = Return out) as ->.
  { unfold _cast_types, getitem. rewrite Htid. run.
    cbn [str py_str]. run. rewrite (insert_id out "transaction_id") by done.
    rewrite Hcid. run. cbn [str py_str]. run.
    rewrite (insert_id out "card_id") by done.
    rewrite Hmid. run. cbn [str py_str]. run.
    rewrite (insert_id out "merchant_id") by done.
    rewrite Hcat. cbn [from_option id str py_str]. run.
    rewrite (insert_id out "merchant_category") by done.
    rewrite Hb. run. cbn [py_float]. run. rewrite (insert_id out "amount") by done.
    rewrite Hts. run. cbn [is_number py_int]. run.
    rewrite (insert_id out "timestamp") by done.
    rewrite (coordinate_cast py out "location_lat" _ _ Hlat). run.
    rewrite (coordinate_cast py out "location_lon" _ _ Hlon). run.
    done. }
  run. unfold getitem. rewrite Hb. run. cbn [float_val]. run.
  rewrite Hnorm. rewrite (insert_id out "amount") by done.
  rewrite Hts. run. unfold _parse_timestamp. cbn [is_number py_int]. run.
  rewrite (insert_id out "timestamp") by done.
  assert (_validate_ranges out = Return ()) as ->; [|done].
  unfold _validate_ranges, getitem. rewrite Hb. run. cbn [float_val]. run.
  rewrite Hpos. rewrite Hts. run. cbn [int_val]. run.
  assert ((946684800 <=? ts) && (ts <=? 4102444800) = true) as ->.
  { apply andb_true_intro. split; apply Z.leb_le; lia. }
  cbn [negb].
  unfold get.
  destruct Hlat as [Hlat|(x & Hlat & Hx1 & Hx2)];
    destruct Hlon as [Hlon|(y & Hlon & Hy1 & Hy2)];
    rewrite Hlat, Hlon; cbn [from_option id is_None float_val]; run;
    rewrite ?Hx1, ?Hx2, ?Hy1, ?Hy2; done.
Qed.

(** *** What a returned record looks like *)

Lemma cast_coordinate_lookup_ne py field transaction transaction' key :
  cast_coordinate py field transaction = Return transaction' →
  key ≠ field →
  transaction' !! key = transaction !! key.
Proof.
  intros H Hne. apply cast_coordinate_Return in H as [[_ ->]|(x & _ & _ & ->)]; [done|].
  by rewrite lookup_insert_ne.
Qed.

Lemma cast_coordinate_lookup py field transaction transaction' :
  cast_coordinate py field transaction = Return transaction' →
  is_Some (transaction !! field) →
  transaction' !! field = Some PyNone ∨ ∃ x, transaction' !! field = Some (PyFloat x).
Proof.
  intros H [v Hv]. apply cast_coordinate_Return in H as [[Hn ->]|(x & _ & _ & ->)].
  - left. unfold get in Hn. rewrite Hv in *. simpl in Hn. by destruct v.
  - right. exists x. by rewrite lookup_insert_eq.
Qed.

Lemma bind_Return {A B} (m : result A) (k : A → result B) r :
  m ≫= k = Return r → ∃ a, m = Return a ∧ k a = Return r.
Proof. destruct m as [a|]; [|done]. intros H. by exists a. Qed.

Lemma _validate_ranges_Return out b timestamp :
  out !! "amount" = Some (PyFloat b) →
  out !! "timestamp" = Some (PyInt timestamp) →
  _validate_ranges out = Return () →
  (b <=? 0)%float = false
  ∧ 946684800 ≤ timestamp ≤ 4102444800
  ∧ (∀ x, out !! "location_lat" = Some (PyFloat x) →
          (-90 <=? x)%float = true ∧ (x <=? 90)%float = true)
  ∧ (∀ x, out !! "location_lon" = Some (PyFloat x) →
          (-180 <=? x)%float = true ∧ (x <=? 180)%float = true).
Proof.
  intros Hb Hts. unfold _validate_ranges, getitem, get. rewrite Hb, Hts. run.
  cbn [float_val int_val]. run.
  destruct (b <=? 0)%float; [done|].
  destruct ((946684800 <=? timestamp) && (timestamp <=? 4102444800)) eqn:Er; [|done].
  apply andb_prop in Er as [Er1%Z.leb_le Er2%Z.leb_le].
  cbn [negb]. intros H. split; [done|]. split; [lia|].
  split; intros x Hx; rewrite Hx in H; cbn [from_option id is_None float_val] in H;
    revert H; run.
  - destruct ((-90 <=? x)%float && (x <=? 90)%float) eqn:E; [|done].
    by apply andb_prop in E.
  - intros H. apply bind_Return in H as ([] & _ & H). revert H.
    destruct ((-180 <=? x)%float && (x <=? 180)%float) eqn:E; [|done].
    intros _. by apply andb_prop in E.
Qed.

Lemma preprocess_Return py p transaction out :
  preprocess py (init p) transaction = Return out →
  preprocessed (init p) out
  ∧ ∃ v a, transaction !! "amount" = Some v
           ∧ py_float py v = Return a
           ∧ out !! "amount" = Some (PyFloat (_normalize_amount (init p) a)).
Proof.
  intros H. unfold preprocess in H.
  destruct (validate_schema transaction) as [is_valid error_msg] eqn:Ev.
  destruct is_valid; [|done]. cbn [negb] in H.
  apply bind_Return in H as (t2 & Hc & H).
  apply _cast_types_Return in Hc
    as (tid & cid & mid & a & vts & t3 & t4 & t5 & Htid & Hcid & Hmid
        & (va & Hva & Ha) & Hvts & Ht3 & Ht4 & H5 & H6).
  set (t1 := _handle_missing_values transaction) in *.
  (* the fields that the coordinate casts leave alone *)
  assert (∀ key, key ≠ "location_lat" → key ≠ "location_lon" →
                 t2 !! key = t4 !! key) as Hkeep.
  { intros key H1 H2.
    rewrite (cast_coordinate_lookup_ne _ _ _ _ key H6 H2).
    apply (cast_coordinate_lookup_ne _ _ _ _ key H5 H1). }
  assert (∀ key, key ≠ "timestamp" → t4 !! key = t3 !! key) as Hkeep4.
  { intros key Hk. destruct Ht4 as [[_ ->]|(z & _ & _ & ->)]; [done|].
    by rewrite lookup_insert_ne. }
  assert (t2 !! "amount" = Some (PyFloat a)) as Hamount.
  { rewrite Hkeep, Hkeep4 by discriminate. subst t3. by lookup_inserts. }
  unfold getitem in H. rewrite Hamount in H. revert H. run. cbn [float_val]. run.
  lookup_inserts.
  destruct (t2 !! "timestamp") as [v|] eqn:Ev2; [|done]. run.
  intros H. apply bind_Return in H as (ts & Hparse & H).
  apply bind_Return in H as ([] & Hval & H). injection H as <-.
  set (b := _normalize_amount (init p) a) in *.
  set (out := <["timestamp" := PyInt ts]> (<["amount" := PyFloat b]> t2)) in *.
  assert (out !! "amount" = Some (PyFloat b)) as Hob by (subst out; by lookup_inserts).
  assert (out !! "timestamp" = Some (PyInt ts)) as Hots by (subst out; by lookup_inserts).
  destruct (_validate_ranges_Return out b ts Hob Hots Hval)
    as (Hpos & Hrange & Hlat & Hlon).
  split; [|exists va, a; split; [|split; [done|done]]].
  2: { rewrite <- Hva. subst t1. symmetry.
       apply _handle_missing_values_required. unfold REQUIRED_FIELDS.
       rewrite !elem_of_cons. tauto. }
  assert (∀ key, key ≠ "timestamp" → key ≠ "amount" →
                 key ≠ "location_lat" → key ≠ "location_lon" →
                 out !! key = t3 !! key) as Hout.
  { intros key ? ? ? ?. subst out. rewrite !lookup_insert_ne by done.
    rewrite Hkeep, Hkeep4 by done. done. }
  assert (∀ field default_value,
            (field, default_value) ∈ OPTIONAL_FIELDS →
            is_None default_value = false →
            absent t1 field = false) as Hfilled.
  { intros field d Hin Hd. unfold absent, t1.
    rewrite (_handle_missing_values_optional _ _ _ Hin).
    destruct (absent transaction field) eqn:Ea; [done|].
    apply absent_false in Ea as (w & -> & Hw). done. }
  assert (∀ field,
            (field, PyNone) ∈ OPTIONAL_FIELDS → is_Some (t1 !! field)) as Hpresent.
  { intros field Hin. unfold t1.
    rewrite (_handle_missing_values_optional _ _ _ Hin).
    destruct (absent transaction field) eqn:Ea; [done|].
    apply absent_false in Ea as (w & -> & Hw). done. }
  split.
  - exists (py_str py tid). rewrite Hout by discriminate. subst t3. by lookup_inserts.
  - exists (py_str py cid). rewrite Hout by discriminate. subst t3. by lookup_inserts.
  - exists (py_str py mid). rewrite Hout by discriminate. subst t3. by lookup_inserts.
  - eexists. rewrite Hout by discriminate. subst t3. by lookup_inserts.
  - exists b. split; [done|]. split; [|done].
    by apply _normalize_amount_idempotent.
  - exists ts. split; [done|done].
  - assert (out !! "location_lat" = t5 !! "location_lat") as Hl.
    { subst out. rewrite !lookup_insert_ne by discriminate.
      apply (cast_coordinate_lookup_ne _ _ _ _ _ H6). discriminate. }
    destruct (cast_coordinate_lookup _ _ _ _ H5) as [Hn|[x Hx]].
    + rewrite Hkeep4 by discriminate. subst t3. lookup_inserts.
      apply Hpresent. unfold OPTIONAL_FIELDS. rewrite !elem_of_cons. tauto.
    + left. by rewrite Hl.
    + right. exists x. rewrite Hl. split; [done|]. apply Hlat. by rewrite Hl.
  - assert (out !! "location_lon" = t2 !! "location_lon") as Hl.
    { subst out. by rewrite !lookup_insert_ne by discriminate. }
    destruct (cast_coordinate_lookup _ _ _ _ H6) as [Hn|[x Hx]].
    + rewrite (cast_coordinate_lookup_ne _ _ _ _ _ H5) by discriminate.
      rewrite Hkeep4 by discriminate. subst t3. lookup_inserts.
      apply Hpresent. unfold OPTIONAL_FIELDS. rewrite !elem_of_cons. tauto.
    + left. by rewrite Hl.
    + right. exists x. rewrite Hl. split; [done|]. apply Hlon. by rewrite Hl.
  - unfold absent. rewrite Hout by discriminate. subst t3. lookup_inserts.
    apply (Hfilled "city" (PyStr "")); [|done].
    unfold OPTIONAL_FIELDS. rewrite !elem_of_cons. tauto.
  - unfold absent. rewrite Hout by discriminate. subst t3. lookup_inserts.
    apply (Hfilled "state" (PyStr "")); [|done].
    unfold OPTIONAL_FIELDS. rewrite !elem_of_cons. tauto.
  - unfold absent. rewrite Hout by discriminate. subst t3. lookup_inserts.
    apply (Hfilled "user_id" (PyStr "")); [|done].
    unfold OPTIONAL_FIELDS. rewrite !elem_of_cons. tauto.
Qed.

(** C5: [preprocess] is idempotent. Whenever it returns a record for a raw
    input, applying it to that record returns the very same record: every
    field, the amount bit for bit, is unchanged. *)
Theorem preprocess_idempotent py p transaction out :
  preprocess py (init p) transaction = Return out →
  preprocess py (init p) out = Return out.
Proof.
  intros H. apply preprocessed_fixed. by apply preprocess_Return in H as [H _].
Qed.

Lemma preprocess_idempotent_witness :
  ∃ out,
    preprocess Scenario.utc (init 99) Scenario.cold_start = Return out
    ∧ preprocess Scenario.utc (init 99) out = Return out.
Proof.
  destruct (preprocess Scenario.utc (init 99) Scenario.cold_start) as [out|e] eqn:E.
  - exists out. split; [reflexivity|].
    apply (preprocess_idempotent Scenario.utc 99 Scenario.cold_start out E).
  - assert (returns (preprocess Scenario.utc (init 99) Scenario.cold_start) = true)
      as Hr by (vm_compute; reflexivity).
    rewrite E in Hr. discriminate Hr.
Defined.

(** C4, amended: for every raw input that [preprocess] accepts with the
    default clip value 10000, the output amount is the absolute value of
    the input amount, clipped at 10000 and rounded to 2 decimals with ties
    to even (Python's [round]), and it is not [<= 0]; when the input
    amount is a number (not NaN) the output satisfies
    [0 < amount <= 10000]. A record whose normalized amount is [<= 0], zero
    included, is rejected by [_validate_ranges] with the [ValueError]
    "Amount must be positive". *)
Theorem preprocess_amount py p transaction out :
  preprocess py (init p) transaction = Return out →
  (∃ v a b,
      transaction !! "amount" = Some v
      ∧ py_float py v = Return a
      ∧ out !! "amount" = Some (PyFloat b)
      ∧ b = normalize_half_even 10000 a
      ∧ (b <=? 0)%float = false
      ∧ (is_nan a = false →
         (0 <? b)%float = true ∧ (b <=? 10000)%float = true))
  ∧ (∀ processed b,
        processed !! "amount" = Some (PyFloat b) →
        (b <=? 0)%float = true →
        _validate_ranges processed
        = Raise (ValueError (Amount_must_be_positive b))).
Proof.
  intros H. split.
  - apply preprocess_Return in H as [Hout (v & a & Hv & Ha & Hb)].
    exists v, a, (_normalize_amount (init p) a).
    destruct Hout as [_ _ _ _ (b & Hb' & _ & Hpos) _ _ _ _ _ _].
    rewrite Hb in Hb'. injection Hb' as <-.
    repeat split; try done.
    + by apply _normalize_amount_half_even.
    + apply _normalize_amount_bounds; [by apply is_nan_false|done].
    + apply _normalize_amount_bounds; [by apply is_nan_false|done].
  - intros processed b Hb Hneg. unfold _validate_ranges, getitem. rewrite Hb. run.
    cbn [float_val]. run. by rewrite Hneg.
Qed.

Lemma preprocess_amount_witness :
  ∃ out,
    preprocess Scenario.utc (init 99) Scenario.cold_start = Return out
    ∧ (∃ v a b,
          Scenario.cold_start !! "amount" = Some v
          ∧ py_float Scenario.utc v = Return a
          ∧ out !! "amount" = Some (PyFloat b)
          ∧ b = normalize_half_even 10000 a
          ∧ (b <=? 0)%float = false
          ∧ (is_nan a = false →
             (0 <? b)%float = true ∧ (b <=? 10000)%float = true))
    ∧ (∀ processed b,
          processed !! "amount" = Some (PyFloat b) →
          (b <=? 0)%float = true →
          _validate_ranges processed
          = Raise (ValueError (Amount_must_be_positive b))).
Proof.
  destruct (preprocess Scenario.utc (init 99) Scenario.cold_start) as [out|e] eqn:E.
  - exists out. split; [reflexivity|].
    apply (preprocess_amount Scenario.utc 99 Scenario.cold_start out E).
  - assert (returns (preprocess Scenario.utc (init 99) Scenario.cold_start) = true)
      as Hr by (vm_compute; reflexivity).
    rewrite E in Hr. discriminate Hr.
Defined.

(** C4 as stated fails: an amount of 0.125 is accepted and comes out as
    0.12, where rounding half away from zero gives 0.13. *)
Lemma half_cent_is_rounded_to_even :
  item (preprocess Scenario.utc (init 99) Scenario.eighth) "amount"
  = Some (PyFloat 0.12)
  ∧ normalize_half_away 10000 0.125 = 0.13%float
  ∧ (0.12 =? 0.13)%float = false.
Proof. repeat split; vm_compute; reflexivity. Qed.

End PreprocessorProofs.

(** ** The feature store and the extractor *)

Section StoreProofs.
Import FeatureStore Spec.

(** *** The keys *)

Lemma list_ascii_of_string_app s1 s2 :
  list_ascii_of_string (s1 +:+ s2)
  = (list_ascii_of_string s1 ++ list_ascii_of_string s2)%list.
Proof. induction s1 as [|c s1 IH]; simpl; [done|]. by rewrite IH. Qed.

Lemma string_app_inv_tail s1 s2 s : s1 +:+ s = s2 +:+ s → s1 = s2.
Proof.
  intros H. apply (f_equal list_ascii_of_string) in H.
  rewrite !list_ascii_of_string_app in H. apply app_inv_tail in H.
  apply (f_equal string_of_list_ascii) in H.
  by rewrite !string_of_list_ascii_of_string in H.
Qed.

(** Two texts that end in different characters differ. *)
Lemma string_app_last_ne s1 s2 t1 t2 (c1 c2 : ascii) :
  c1 ≠ c2 → s1 +:+ t1 +:+ String c1 "" ≠ s2 +:+ t2 +:+ String c2 "".
Proof.
  intros Hc H. apply (f_equal list_ascii_of_string) in H.
  rewrite !list_ascii_of_string_app in H. simpl in H.
  rewrite !app_assoc in H. apply app_inj_tail in H as [_ H]. done.
Qed.

Lemma card_keys_differ card_id card_id' :
  stats_key card_id ≠ history_key card_id'
  ∧ stats_key card_id ≠ merchants_key card_id'
  ∧ history_key card_id ≠ merchants_key card_id'.
Proof.
  unfold stats_key, history_key, merchants_key.
  repeat split.
  - intros H. apply (inj (String.append "card:")) in H. revert H.
    apply (string_app_last_ne _ _ ":stat" ":tx_histor" "s" "y"). done.
  - intros H. apply (inj (String.append "card:")) in H. revert H.
    apply (string_app_last_ne _ _ ":stat" ":merchants:24" "s" "h"). done.
  - intros H. apply (inj (String.append "card:")) in H. revert H.
    apply (string_app_last_ne _ _ ":tx_histor" ":merchants:24" "y" "h"). done.
Qed.

Lemma stats_key_inj card_id card_id' :
  stats_key card_id = stats_key card_id' → card_id = card_id'.
Proof.
  unfold stats_key. intros H.
  apply (inj (String.append "card:")) in H. by apply string_app_inv_tail in H.
Qed.

Lemma history_key_inj card_id card_id' :
  history_key card_id = history_key card_id' → card_id = card_id'.
Proof.
  unfold history_key. intros H.
  apply (inj (String.append "card:")) in H. by apply string_app_inv_tail in H.
Qed.

Lemma merchants_key_inj card_id card_id' :
  merchants_key card_id = merchants_key card_id' → card_id = card_id'.
Proof.
  unfold merchants_key. intros H.
  apply (inj (String.append "card:")) in H. by apply string_app_inv_tail in H.
Qed.

(** *** Deleting a key *)

Lemma history_del self key card_id :
  history (del self key) card_id
  = if decide (history_key card_id = key) then [] else history self card_id.
Proof.
  unfold history, del. cbn [tx_history]. rewrite map_lookup_filter.
  destruct (tx_history self !! card_id) as [z|]; simpl.
  - destruct (decide (history_key card_id = key)) as [Heq|Hne].
    + by rewrite option_guard_False by (simpl; tauto).
    + by rewrite option_guard_True.
  - by destruct (decide _).
Qed.

Lemma merchants_del self key card_id :
  merchants (del self key) card_id
  = if decide (merchants_key card_id = key) then ∅ else merchants self card_id.
Proof.
  unfold merchants, del. cbn [merchants_24h]. rewrite map_lookup_filter.
  destruct (merchants_24h self !! card_id) as [z|]; simpl.
  - destruct (decide (merchants_key card_id = key)) as [Heq|Hne].
    + by rewrite option_guard_False by (simpl; tauto).
    + by rewrite option_guard_True.
  - by destruct (decide _).
Qed.

Lemma hget_stats_del self key card_id :
  hget_stats (del self key) card_id
  = if decide (stats_key card_id = key) then no_stats else hget_stats self card_id.
Proof.
  unfold hget_stats, del. cbn [card_stats]. rewrite map_lookup_filter.
  destruct (card_stats self !! card_id) as [z|]; simpl.
  - destruct (decide (stats_key card_id = key)) as [Heq|Hne].
    + by rewrite option_guard_False by (simpl; tauto).
    + by rewrite option_guard_True.
  - by destruct (decide _).
Qed.

(** *** [EXPIRE] *)

Lemma expire_positive self key seconds :
  0 < seconds →
  expire self key seconds
  = {| card_stats := card_stats self; tx_history := tx_history self;
       merchants_24h := merchants_24h self;
       merchant_features := merchant_features self;
       ttl := <[key := seconds]> (ttl self) |}.
Proof. intros H. unfold expire. by rewrite (proj2 (Z.leb_gt _ _) H). Qed.

Lemma expire_not_positive self key seconds :
  seconds ≤ 0 → expire self key seconds = del self key.
Proof. intros H. unfold expire. by rewrite (proj2 (Z.leb_le _ _) H). Qed.

Lemma history_expire self key seconds card_id :
  history (expire self key seconds) card_id
  = if decide (seconds ≤ 0 ∧ history_key card_id = key) then []
    else history self card_id.
Proof.
  destruct (decide (seconds ≤ 0)) as [H|H].
  - rewrite expire_not_positive, history_del by done.
    destruct (decide (history_key card_id = key)), (decide (_ ∧ _)); tauto || done.
  - rewrite expire_positive by lia. destruct (decide (_ ∧ _)); [tauto|done].
Qed.

Lemma merchants_expire self key seconds card_id :
  merchants (expire self key seconds) card_id
  = if decide (seconds ≤ 0 ∧ merchants_key card_id = key) then ∅
    else merchants self card_id.
Proof.
  destruct (decide (seconds ≤ 0)) as [H|H].
  - rewrite expire_not_positive, merchants_del by done.
    destruct (decide (merchants_key card_id = key)), (decide (_ ∧ _)); tauto || done.
  - rewrite expire_positive by lia. destruct (decide (_ ∧ _)); [tauto|done].
Qed.

Lemma hget_stats_expire self key seconds card_id :
  hget_stats (expire self key seconds) card_id
  = if decide (seconds ≤ 0 ∧ stats_key card_id = key) then no_stats
    else hget_stats self card_id.
Proof.
  destruct (decide (seconds ≤ 0)) as [H|H].
  - rewrite expire_not_positive, hget_stats_del by done.
    destruct (decide (stats_key card_id = key)), (decide (_ ∧ _)); tauto || done.
  - rewrite expire_positive by lia. destruct (decide (_ ∧ _)); [tauto|done].
Qed.

Lemma merchant_features_expire self key seconds :
  merchant_features (expire self key seconds) = merchant_features self.
Proof. unfold expire. by destruct (seconds <=? 0). Qed.

Lemma ttl_expire self key seconds key' :
  ttl (expire self key seconds) !! key'
  = if decide (key = key') then (if decide (0 < seconds) then Some seconds else None)
    else ttl self !! key'.
Proof.
  destruct (decide (seconds ≤ 0)) as [H|H].
  - rewrite expire_not_positive by done. unfold del. cbn [ttl].
    destruct (decide (key = key')) as [->|Hne].
    + rewrite lookup_delete_eq. destruct (decide (0 < seconds)); [lia|done].
    + by rewrite lookup_delete_ne.
  - rewrite expire_positive by lia. cbn [ttl].
    destruct (decide (key = key')) as [->|Hne].
    + rewrite lookup_insert_eq. destruct (decide (0 < seconds)); [done|lia].
    + by rewrite lookup_insert_ne.
Qed.

(** A key of another family, or of another card, is left alone. *)
Lemma history_expire_other self key seconds card_id :
  key ≠ history_key card_id →
  history (expire self key seconds) card_id = history self card_id.
Proof.
  intros H. rewrite history_expire. destruct (decide (_ ∧ _)) as [[_ Heq]|]; [|done].
  by destruct H.
Qed.

Lemma merchants_expire_other self key seconds card_id :
  key ≠ merchants_key card_id →
  merchants (expire self key seconds) card_id = merchants self card_id.
Proof.
  intros H. rewrite merchants_expire. destruct (decide (_ ∧ _)) as [[_ Heq]|]; [|done].
  by destruct H.
Qed.

Lemma hget_stats_expire_other self key seconds card_id :
  key ≠ stats_key card_id →
  hget_stats (expire self key seconds) card_id = hget_stats self card_id.
Proof.
  intros H. rewrite hget_stats_expire. destruct (decide (_ ∧ _)) as [[_ Heq]|]; [|done].
  by destruct H.
Qed.

(** *** Sorted sets *)

Lemma elem_of_zrangebyscore m z lo hi :
  m ∈ zrangebyscore z lo hi ↔ ∃ score, (m, score) ∈ z ∧ lo ≤ score ≤ hi.
Proof.
  unfold zrangebyscore. rewrite list_elem_of_fmap. split.
  - intros [[m' s] [-> Hin]]. apply list_elem_of_In, filter_In in Hin.
    destruct Hin as [Hin Hb]. simpl in *. exists s. split.
    + by apply list_elem_of_In.
    + lia.
  - intros (s & Hin & Hb). exists (m, s). split; [done|].
    apply list_elem_of_In, filter_In. split; [by apply list_elem_of_In|].
    simpl. lia.
Qed.

Lemma elem_of_zinsert e m s z : e ∈ zinsert m s z ↔ e = (m, s) ∨ e ∈ z.
Proof.
  induction z as [|[m' s'] z IH]; simpl.
  - rewrite list_elem_of_singleton, elem_of_nil. tauto.
  - destruct (s' <=? s); rewrite !elem_of_cons; [rewrite IH|]; tauto.
Qed.

Lemma elem_of_zadd e m s z :
  e ∈ zadd z m s ↔ e = (m, s) ∨ (e ∈ z ∧ e.1 ≠ m).
Proof.
  unfold zadd. rewrite elem_of_zinsert.
  rewrite (list_elem_of_In (List.filter _ _) e), filter_In, <- list_elem_of_In.
  rewrite negb_true_iff, bool_decide_eq_false. tauto.
Qed.

Lemma elem_of_zremrangebyscore e z max :
  e ∈ zremrangebyscore_from_neg_inf z max ↔ e ∈ z ∧ max < e.2.
Proof.
  unfold zremrangebyscore_from_neg_inf.
  rewrite (list_elem_of_In (List.filter _ _) e), filter_In, <- list_elem_of_In.
  rewrite negb_true_iff, Z.leb_gt. tauto.
Qed.

Lemma history_set_history self card_id z card_id' :
  history (set_history self card_id z) card_id'
  = if decide (card_id = card_id') then z else history self card_id'.
Proof.
  unfold history, set_history; simpl. rewrite lookup_insert.
  by destruct (decide (card_id = card_id')).
Qed.

(** *** Reading a history *)

Lemma decoded_Some tx_data tx : decoded tx_data = Some tx ↔ tx_data = Json tx.
Proof. destruct tx_data; simpl; split; intros [=]; by subst. Qed.

Lemma aborts_Json tx : aborts (Json tx) = false.
Proof. done. Qed.

Lemma parse_aborted {A} (f : result A → member → result A) e l :
  (∀ m, f (Raise e) m = Raise e) → foldl f (Raise e) l = Raise e.
Proof. intros Hf. induction l as [|m l IH]; simpl; [done|]. by rewrite Hf. Qed.

Lemma get_transaction_history_cases self card_id w t :
  get_transaction_history self card_id w t
  = if existsb aborts (zrangebyscore (history self card_id) (t - w) t) then []
    else omap decoded (zrangebyscore (history self card_id) (t - w) t).
Proof.
  unfold get_transaction_history.
  generalize (zrangebyscore (history self card_id) (t - w) t) as l.
  set (f := λ (transactions : result (list dict)) tx_data,
              transactions ← transactions;
              match json_loads tx_data with
              | Return tx => Return (transactions ++ [tx])
              | Raise (ValueError JSONDecodeError) => Return transactions
              | Raise e => Raise e
              end).
  assert (H : ∀ l acc,
    match foldl f (Return acc) l with
    | Return transactions =>
        existsb aborts l = false ∧ transactions = acc ++ omap decoded l
    | Raise _ => existsb aborts l = true
    end).
  { induction l as [|m l IH]; intros acc; simpl.
    - by rewrite app_nil_r.
    - destruct m as [d|raw|raw|raw]; simpl.
      + specialize (IH (acc ++ [d])).
        destruct (foldl f _ l); [|done].
        destruct IH as [-> ->]. by rewrite <- app_assoc.
      + apply IH.
      + by rewrite parse_aborted.
      + by rewrite parse_aborted. }
  intros l. specialize (H l []).
  destruct (foldl f (Return []) l) as [transactions|].
  - by destruct H as [-> ->].
  - by rewrite H.
Qed.

Lemma existsb_aborts_false self card_id low high :
  existsb aborts (zrangebyscore (history self card_id) low high) = false
  ↔ readable self card_id low high.
Proof.
  rewrite <- not_true_iff_false, existsb_exists. split.
  - intros H tx_data score Hin Hb.
    destruct (aborts tx_data) eqn:E; [|done]. destruct H.
    exists tx_data. split; [|done].
    apply list_elem_of_In, elem_of_zrangebyscore. by exists score.
  - intros H (tx_data & Hin & Ha).
    apply list_elem_of_In, elem_of_zrangebyscore in Hin as (score & Hin & Hb).
    by rewrite (H _ _ Hin Hb) in Ha.
Qed.

(** Where no member in range ends the reading early, the decodable
    members are returned in the order of the store. *)
Lemma get_transaction_history_omap self card_id w t :
  readable self card_id (t - w) t →
  get_transaction_history self card_id w t
  = omap decoded (zrangebyscore (history self card_id) (t - w) t).
Proof.
  intros H. apply existsb_aborts_false in H.
  by rewrite get_transaction_history_cases, H.
Qed.

Lemma get_transaction_history_aborted self card_id w t tx_data score :
  (tx_data, score) ∈ history self card_id →
  t - w ≤ score ≤ t →
  aborts tx_data = true →
  get_transaction_history self card_id w t = [].
Proof.
  intros Hin Hb Ha. rewrite get_transaction_history_cases.
  destruct (existsb aborts _) eqn:E; [done|].
  apply existsb_aborts_false in E. by rewrite (E _ _ Hin Hb) in Ha.
Qed.

(** In every case, what is returned was decoded from a member in
    range. *)
Lemma elem_of_get_transaction_history self card_id w t tx :
  tx ∈ get_transaction_history self card_id w t →
  ∃ score, (Json tx, score) ∈ history self card_id ∧ t - w ≤ score ≤ t.
Proof.
  rewrite get_transaction_history_cases.
  destruct (existsb aborts _); [by intros ?%elem_of_nil|].
  rewrite list_elem_of_omap. intros (m & Hin & Hm).
  apply decoded_Some in Hm as ->. by apply elem_of_zrangebyscore in Hin.
Qed.

(** What [add_to_transaction_history] does to the store when it reads
    the three fields and the timestamp is an integer. *)
Lemma add_to_transaction_history_steps self card_id transaction ttl amount merchant_id timestamp :
  transaction !! "amount" = Some amount →
  transaction !! "merchant_id" = Some merchant_id →
  transaction !! "timestamp" = Some (PyInt timestamp) →
  is_deep amount = false →
  is_deep merchant_id = false →
  let tx_data := json_dumps {[ "amount" := amount; "merchant_id" := merchant_id;
                               "timestamp" := PyInt timestamp ]} in
  let written :=
    expire (set_history self card_id (zadd (history self card_id) tx_data timestamp))
           (history_key card_id) ttl in
  add_to_transaction_history self card_id transaction ttl
  = (true,
     set_history written card_id
       (zremrangebyscore_from_neg_inf (history written card_id) (timestamp - ttl))).
Proof.
  intros Ha Hm Ht Hda Hdm. unfold add_to_transaction_history, getitem.
  rewrite Ht, Ha, Hm. run. cbn [existsb is_deep]. rewrite Hda, Hdm. done.
Qed.

(** With a positive time to live the key stays. *)
Lemma add_to_transaction_history_history self card_id transaction ttl amount merchant_id timestamp :
  transaction !! "amount" = Some amount →
  transaction !! "merchant_id" = Some merchant_id →
  transaction !! "timestamp" = Some (PyInt timestamp) →
  is_deep amount = false →
  is_deep merchant_id = false →
  0 < ttl →
  let tx_data := json_dumps {[ "amount" := amount; "merchant_id" := merchant_id;
                               "timestamp" := PyInt timestamp ]} in
  add_to_transaction_history self card_id transaction ttl
  = (true,
     set_history
       (expire (set_history self card_id (zadd (history self card_id) tx_data timestamp))
               (history_key card_id) ttl)
       card_id
       (zremrangebyscore_from_neg_inf
          (zadd (history self card_id) tx_data timestamp) (timestamp - ttl))).
Proof.
  intros Ha Hm Ht Hda Hdm Httl.
  rewrite (add_to_transaction_history_steps _ _ _ _ _ _ _ Ha Hm Ht Hda Hdm).
  cbn zeta. rewrite history_expire, history_set_history.
  destruct (decide (card_id = card_id)); [|done].
  destruct (decide (_ ∧ _)); [lia|done].
Qed.

(** With a time to live that is not positive the key is deleted. *)
Lemma add_to_transaction_history_deleted self card_id transaction seconds amount merchant_id timestamp :
  transaction !! "amount" = Some amount →
  transaction !! "merchant_id" = Some merchant_id →
  transaction !! "timestamp" = Some (PyInt timestamp) →
  is_deep amount = false →
  is_deep merchant_id = false →
  seconds ≤ 0 →
  history (add_to_transaction_history self card_id transaction seconds).2 card_id = []
  ∧ ttl (add_to_transaction_history self card_id transaction seconds).2
      !! history_key card_id = None.
Proof.
  intros Ha Hm Ht Hda Hdm Httl.
  rewrite (add_to_transaction_history_steps _ _ _ _ _ _ _ Ha Hm Ht Hda Hdm).
  cbn zeta. cbn [snd]. split.
  - rewrite history_set_history. destruct (decide (card_id = card_id)); [|done].
    rewrite history_expire. by destruct (decide _) as [_|[]].
  - change (ttl (set_history ?s _ _)) with (ttl s).
    rewrite ttl_expire. destruct (decide (_ = _)); [|done].
    destruct (decide (0 < seconds)); [lia|done].
Qed.

(** Whatever the transaction and the time to live, a member of a history
    afterwards was there before or is the entry of the transaction. *)
Lemma elem_of_history_add_to_transaction_history
    self card_id transaction ttl card_id' e :
  e ∈ history (add_to_transaction_history self card_id transaction ttl).2 card_id' →
  e ∈ history self card_id'
  ∨ (card_id' = card_id
     ∧ ∃ amount merchant_id timestamp,
         transaction !! "amount" = Some amount
         ∧ transaction !! "merchant_id" = Some merchant_id
         ∧ transaction !! "timestamp" = Some (PyInt timestamp)
         ∧ e = (json_dumps {[ "amount" := amount; "merchant_id" := merchant_id;
                              "timestamp" := PyInt timestamp ]}, timestamp)).
Proof.
  unfold add_to_transaction_history, getitem.
  destruct (transaction !! "timestamp") as [timestamp|] eqn:Et; [|by left].
  destruct (transaction !! "amount") as [amount|] eqn:Ea; [|by left].
  destruct (transaction !! "merchant_id") as [merchant_id|] eqn:Em; [|by left].
  run. destruct (existsb is_deep _); [by left|]. run.
  destruct (int_val timestamp) as [ts|] eqn:Ets; [|by left].
  destruct timestamp; try done. injection Ets as ->. run. cbn [snd].
  rewrite history_set_history.
  destruct (decide (card_id = card_id')) as [<-|Hne].
  - rewrite elem_of_zremrangebyscore, history_expire, history_set_history.
    destruct (decide (card_id = card_id)); [|done].
    destruct (decide (_ ∧ _)); [by intros [?%elem_of_nil _]|].
    rewrite elem_of_zadd. intros [[->|[Hin _]] _]; [|by left].
    right. split; [done|]. by exists amount, merchant_id, ts.
  - rewrite history_expire, history_set_history.
    destruct (decide (card_id = card_id')); [done|].
    destruct (decide (_ ∧ _)); [by intros ?%elem_of_nil|]. by left.
Qed.

Lemma timestamps_are_scores_empty : timestamps_are_scores FeatureStore.empty.
Proof. intros card_id d score H. by apply elem_of_nil in H. Qed.

Lemma add_to_transaction_history_keeps self card_id transaction ttl :
  timestamps_are_scores self →
  timestamps_are_scores (add_to_transaction_history self card_id transaction ttl).2.
Proof.
  intros Hinv.
  intros card_id' d score Hin.
  apply elem_of_history_add_to_transaction_history in Hin
    as [Hin|(-> & amount & merchant_id & ts & _ & _ & _ & Heq)].
  - by apply (Hinv card_id').
  - unfold json_dumps in Heq. injection Heq as -> ->.
    rewrite !lookup_insert_ne by done. apply lookup_singleton_eq.
Qed.

Lemma update_card_state_keeps self store card_id transaction store' :
  timestamps_are_scores store →
  FeatureExtractor.update_card_state self store card_id transaction = Return store' →
  timestamps_are_scores store'.
Proof.
  intros Hinv. unfold FeatureExtractor.update_card_state, getitem.
  destruct (transaction !! "timestamp") as [timestamp|]; [|done].
  destruct (transaction !! "amount") as [amount|]; [|done].
  destruct (transaction !! "merchant_id") as [merchant_id|]; [|done].
  simpl.
  pose proof (add_to_transaction_history_keeps store card_id transaction 86400 Hinv) as H1.
  destruct (add_to_transaction_history store card_id transaction 86400) as [ok s1].
  simpl in H1.
  intros Heq.
  assert (∀ card, history store' card = history s1 card) as Hh.
  { intros card. revert Heq.
    destruct (str_val merchant_id), (number_val amount), (int_val timestamp);
      simpl; intros [= <-]; done. }
  intros card d score. rewrite Hh. apply H1.
Qed.

(** C2: [get_transaction_history(card, w, t)] returns only entries whose
    timestamp lies in the inclusive interval [[t - w, t]], so none is later
    than [t]. The entries are those of a history written by
    [add_to_transaction_history], where the timestamp of an entry is its
    score. *)
Theorem get_transaction_history_point_in_time store card_id w t tx :
  timestamps_are_scores store →
  tx ∈ get_transaction_history store card_id w t →
  ∃ timestamp, tx !! "timestamp" = Some (PyInt timestamp) ∧ t - w ≤ timestamp ≤ t.
Proof.
  intros Hinv Hin.
  apply elem_of_get_transaction_history in Hin as (score & Hin & Hb).
  exists score. split; [by apply (Hinv card_id)|done].
Qed.

Lemma get_transaction_history_point_in_time_witness :
  ∃ timestamp,
    Scenario.entry 20 "M0" 1707493600 !! "timestamp" = Some (PyInt timestamp)
    ∧ 1707580000 - 86400 ≤ timestamp ≤ 1707580000.
Proof.
  apply (get_transaction_history_point_in_time Scenario.day_old "C1").
  - intros card_id d score. unfold Scenario.day_old.
    rewrite history_set_history. destruct (decide ("C1" = card_id)).
    + rewrite list_elem_of_singleton. intros [= -> ->]. unfold Scenario.entry.
      rewrite !lookup_insert_ne by done. apply lookup_singleton_eq.
    + intros H. by apply elem_of_nil in H.
  - rewrite get_transaction_history_cases. unfold Scenario.day_old.
    rewrite history_set_history. destruct (decide ("C1" = "C1")); [|done].
    apply list_elem_of_here.
Defined.

Lemma existsb_aborts_garbage raw score z lo hi :
  existsb aborts (zrangebyscore (zinsert (Garbage raw) score z) lo hi)
  = existsb aborts (zrangebyscore z lo hi).
Proof.
  unfold zrangebyscore.
  induction z as [|[m s] z IH]; simpl.
  - by destruct ((lo <=? score) && (score <=? hi)).
  - destruct (s <=? score); simpl.
    + destruct ((lo <=? s) && (s <=? hi)); [|done].
      rewrite !fmap_cons. simpl. by rewrite IH.
    + by destruct ((lo <=? score) && (score <=? hi)).
Qed.

Lemma omap_zrangebyscore_garbage raw score z lo hi :
  omap decoded (zrangebyscore (zinsert (Garbage raw) score z) lo hi)
  = omap decoded (zrangebyscore z lo hi).
Proof.
  unfold zrangebyscore.
  induction z as [|[m s] z IH]; simpl.
  - by destruct ((lo <=? score) && (score <=? hi)).
  - destruct (s <=? score); simpl.
    + destruct ((lo <=? s) && (s <=? hi)); [|done].
      rewrite !fmap_cons. simpl.
      destruct (decoded m); [f_equal|]; exact IH.
    + by destruct ((lo <=? score) && (score <=? hi)).
Qed.

(** C10, as amended: [get_transaction_history] skips the members on which
    [json.loads] raises [JSONDecodeError] and returns the other members
    in range decoded, in the order of the store, unless [json.loads]
    raises another exception on a member in range: then the empty list
    is returned. A member that raises [JSONDecodeError], wherever it is
    put in the history, changes nothing of what is returned. *)
Theorem get_transaction_history_skips_garbage store card_id w t :
  get_transaction_history store card_id w t
  = (if existsb aborts (zrangebyscore (history store card_id) (t - w) t)
     then []
     else omap decoded (zrangebyscore (history store card_id) (t - w) t))
  ∧ ∀ raw score,
      get_transaction_history
        (set_history store card_id (zinsert (Garbage raw) score (history store card_id)))
        card_id w t
      = get_transaction_history store card_id w t.
Proof.
  split; [apply get_transaction_history_cases|].
  intros raw score. rewrite !get_transaction_history_cases, history_set_history.
  destruct (decide (card_id = card_id)); [|done].
  by rewrite existsb_aborts_garbage, omap_zrangebyscore_garbage.
Qed.

(** C10, as stated: a history entry that is not valid JSON can end the
    reading of the whole window. The second member of card [C1] is a text
    of brackets on which [json.loads] raises [RecursionError]; the first,
    a minute older, is decodable and in range, and it is not returned. *)
Theorem nested_entry_loses_the_others :
  get_transaction_history Scenario.clogged "C1" 86400 1707580000 = []
  ∧ omap decoded
      (zrangebyscore (history Scenario.clogged "C1") (1707580000 - 86400) 1707580000)
    = [Scenario.entry 20 "M0" 1707493600].
Proof.
  rewrite get_transaction_history_cases. unfold Scenario.clogged.
  rewrite history_set_history. destruct (decide ("C1" = "C1")); [|done].
  by split.
Qed.

(** C9: [get_unique_merchant_count] ignores [window_seconds]: any two
    windows give the same count, which is the cardinality of the card's
    merchant set; the set is bounded in time only by the time to live that
    [add_merchant_to_set] puts on its key, the seconds it is given when
    they are positive (86400 by default). Seconds that are not positive
    delete the set, and the count is zero. *)
Theorem get_unique_merchant_count_ignores_window store card_id w1 w2 :
  get_unique_merchant_count store card_id w1
  = get_unique_merchant_count store card_id w2
  ∧ get_unique_merchant_count store card_id w1
    = Z.of_nat (size (merchants store card_id))
  ∧ (∀ merchant_id seconds,
       0 < seconds →
       ttl (add_merchant_to_set store card_id merchant_id seconds).2
         !! merchants_key card_id = Some seconds)
  ∧ (∀ merchant_id seconds,
       seconds ≤ 0 →
       get_unique_merchant_count
         (add_merchant_to_set store card_id merchant_id seconds).2 card_id w1 = 0).
Proof.
  split; [done|]. split; [done|]. split.
  - intros merchant_id seconds Hs. unfold add_merchant_to_set. cbn [snd].
    rewrite ttl_expire. destruct (decide (_ = _)); [|done].
    destruct (decide (0 < seconds)); [done|lia].
  - intros merchant_id seconds Hs.
    unfold get_unique_merchant_count, add_merchant_to_set. cbn [snd].
    rewrite merchants_expire. destruct (decide _) as [_|[]]; [|done].
    by rewrite size_empty.
Qed.

(** C6, on the code: a history entry whose score is exactly
    [t - 86400] is removed by [add_to_transaction_history] of a transaction
    with timestamp [t]; the claim has it retained. *)
Theorem add_to_transaction_history_trims_boundary :
  let old := (Json (Scenario.entry 20 "M0" 1707493600), 1707493600) in
  let store :=
    (add_to_transaction_history Scenario.day_old "C1" Scenario.cold_start 86400).2 in
  old ∈ history Scenario.day_old "C1"
  ∧ old.2 = 1707580000 - 86400
  ∧ old ∉ history store "C1".
Proof.
  intros old store. split; [|split].
  - unfold Scenario.day_old. rewrite history_set_history.
    destruct (decide ("C1" = "C1")); [|done]. apply list_elem_of_here.
  - reflexivity.
  - subst store.
    rewrite (add_to_transaction_history_history _ _ _ _ (PyFloat 100) (PyStr "M1") 1707580000)
      by (unfold Scenario.cold_start, Scenario.event; by simplify_map_eq).
    simpl. rewrite history_set_history. destruct (decide ("C1" = "C1")); [|done].
    rewrite elem_of_zremrangebyscore. subst old. simpl. lia.
Qed.


(** *** Card statistics *)

Lemma hget_stats_add_to_transaction_history self card_id transaction ttl card_id' :
  hget_stats (add_to_transaction_history self card_id transaction ttl).2 card_id'
  = hget_stats self card_id'.
Proof.
  unfold add_to_transaction_history.
  destruct (_ ← getitem transaction "timestamp"; _) as [[tx_data timestamp]|]; [|done].
  cbn [snd]. change (hget_stats (set_history ?s _ _) ?c) with (hget_stats s c).
  rewrite hget_stats_expire_other; [done|].
  intros H. destruct (card_keys_differ card_id' card_id) as (K & _). by destruct K.
Qed.

Lemma update_rolling_average_returns self card_id amount alpha :
  let old_avg := default 75%float (get_rolling_average self card_id) in
  let new_avg := (alpha * amount + (1 - alpha) * old_avg)%float in
  (update_rolling_average self card_id amount alpha).1 = new_avg
  ∧ get_rolling_average (update_rolling_average self card_id amount alpha).2 card_id
    = Some new_avg.
Proof.
  unfold update_rolling_average, get_rolling_average. simpl. split.
  - by destruct (avg_amount (hget_stats self card_id)).
  - unfold hget_stats at 1. simpl. rewrite lookup_insert_eq. simpl.
    by destruct (avg_amount (hget_stats self card_id)).
Qed.

Lemma hget_stats_add_merchant_to_set self card_id merchant_id ttl card_id' :
  hget_stats (add_merchant_to_set self card_id merchant_id ttl).2 card_id'
  = hget_stats self card_id'.
Proof.
  unfold add_merchant_to_set. cbn [snd].
  rewrite hget_stats_expire_other; [done|].
  intros H. destruct (card_keys_differ card_id' card_id) as (_ & K & _). by destruct K.
Qed.

Lemma get_rolling_average_update_last self card_id timestamp card_id' :
  get_rolling_average (update_last_transaction_timestamp self card_id timestamp).2 card_id'
  = get_rolling_average self card_id'.
Proof.
  unfold get_rolling_average, update_last_transaction_timestamp, hget_stats at 1.
  simpl. rewrite lookup_insert. by destruct (decide (card_id = card_id')) as [->|].
Qed.

(** C1: after an event is processed for a card, the stored rolling
    average is 0.1 times the amount plus 0.9 times the average stored
    before, taken as 75.0 when none was stored; [update_rolling_average]
    returns that value and stores it. *)
Theorem update_rolling_average_ema store card_id transaction amount store' :
  transaction !! "amount" = Some (PyFloat amount) →
  FeatureExtractor.update_card_state
    (FeatureExtractor.init Config.FEATURE_CONFIG) store card_id transaction
  = Return store' →
  let previous := default 75%float (get_rolling_average store card_id) in
  let new_avg := (0.1 * amount + 0.9 * previous)%float in
  (update_rolling_average store card_id amount 0.1).1 = new_avg
  ∧ get_rolling_average (update_rolling_average store card_id amount 0.1).2 card_id
    = Some new_avg
  ∧ get_rolling_average store' card_id = Some new_avg.
Proof.
  intros Ha Hu previous new_avg.
  destruct (update_rolling_average_returns store card_id amount 0.1) as [H1 H2].
  change (1 - 0.1)%float with 0.9%float in H1, H2.
  split; [exact H1|]. split; [exact H2|].
  revert Hu. unfold FeatureExtractor.update_card_state, getitem. rewrite Ha.
  destruct (transaction !! "timestamp") as [timestamp|]; [|done].
  destruct (transaction !! "merchant_id") as [merchant_id|]; [|done].
  run.
  pose proof (hget_stats_add_to_transaction_history store card_id transaction 86400 card_id) as Hs1.
  destruct (add_to_transaction_history store card_id transaction 86400) as [ok1 s1].
  simpl in Hs1.
  assert (∃ ok2 s2, match str_val merchant_id with
                    | Return merchant_id0 => add_merchant_to_set s1 card_id merchant_id0 86400
                    | Raise _ => (false, s1)
                    end = (ok2, s2) ∧ hget_stats s2 card_id = hget_stats s1 card_id)
    as (ok2 & s2 & -> & Hs2).
  { destruct (str_val merchant_id); eauto. }
  cbn [number_val FeatureExtractor.rolling_avg_alpha FeatureExtractor.init
       Config.rolling_avg_alpha Config.FEATURE_CONFIG from_option id].
  destruct (update_rolling_average_returns s2 card_id amount 0.1) as [_ H3].
  change (1 - 0.1)%float with 0.9%float in H3.
  destruct (update_rolling_average s2 card_id amount 0.1) as [avg s3].
  simpl in H3.
  assert (get_rolling_average s3 card_id = Some new_avg) as H4.
  { rewrite H3. unfold get_rolling_average. by rewrite Hs2, Hs1. }
  destruct (int_val timestamp) as [ts|].
  - pose proof (get_rolling_average_update_last s3 card_id ts card_id) as H5.
    destruct (update_last_transaction_timestamp s3 card_id ts) as [ok4 s4].
    simpl in H5. intros [= <-]. by rewrite H5.
  - by intros [= <-].
Qed.

Lemma event_amount tid cid a m ts :
  Scenario.event tid cid a m ts !! "amount" = Some (PyFloat a).
Proof. unfold Scenario.event. lookup_literal. Qed.

Lemma event_merchant_id tid cid a m ts :
  Scenario.event tid cid a m ts !! "merchant_id" = Some (PyStr m).
Proof. unfold Scenario.event. lookup_literal. Qed.

Lemma event_timestamp tid cid a m ts :
  Scenario.event tid cid a m ts !! "timestamp" = Some (PyInt ts).
Proof. unfold Scenario.event. lookup_literal. Qed.

Lemma event_card_id tid cid a m ts :
  Scenario.event tid cid a m ts !! "card_id" = Some (PyStr cid).
Proof. unfold Scenario.event. lookup_literal. Qed.

Lemma event_transaction_id tid cid a m ts :
  Scenario.event tid cid a m ts !! "transaction_id" = Some (PyStr tid).
Proof. unfold Scenario.event. lookup_literal. Qed.

Lemma update_rolling_average_ema_witness :
  let store' :=
    (update_last_transaction_timestamp
       (update_rolling_average
          (add_merchant_to_set
             (add_to_transaction_history FeatureStore.empty "C1" Scenario.cold_start 86400).2
             "C1" "M1" 86400).2
          "C1" 100 0.1).2
       "C1" 1707580000).2 in
  let previous := default 75%float (get_rolling_average FeatureStore.empty "C1") in
  let new_avg := (0.1 * 100 + 0.9 * previous)%float in
  (update_rolling_average FeatureStore.empty "C1" 100 0.1).1 = new_avg
  ∧ get_rolling_average (update_rolling_average FeatureStore.empty "C1" 100 0.1).2 "C1"
    = Some new_avg
  ∧ get_rolling_average store' "C1" = Some new_avg.
Proof.
  intros store'.
  apply (update_rolling_average_ema FeatureStore.empty "C1" Scenario.cold_start 100 store').
  - apply event_amount.
  - unfold FeatureExtractor.update_card_state, getitem, Scenario.cold_start.
    rewrite event_amount, event_merchant_id, event_timestamp. run.
    by destruct (add_to_transaction_history _ _ _ _).
Defined.

(** C8: when the rolling average stored for a card is zero, the extractor
    takes the default 75.0 instead: [avg_tx_amount_30d] is 75.0, and
    [amount_deviation] and [amount_vs_avg_ratio] are computed against
    75.0, not their fallback values 0 and 1.0. *)
Theorem zero_average_takes_default store card_id avg amount :
  get_rolling_average store card_id = Some avg →
  (avg =? 0)%float = true →
  FeatureExtractor._compute_rolling_features
    (FeatureExtractor.init Config.FEATURE_CONFIG) store card_id amount
  = {[ "avg_tx_amount_30d" := PyFloat 75;
       "amount_deviation" := PyFloat (Float.round ((amount - 75) / 75) 3);
       "amount_vs_avg_ratio" := PyFloat (Float.round (amount / 75) 3) ]}.
Proof.
  intros Havg Hzero. unfold FeatureExtractor._compute_rolling_features.
  rewrite Havg, Hzero.
  cbn [FeatureExtractor.default_avg_amount FeatureExtractor.init
       Config.default_avg_amount Config.FEATURE_CONFIG from_option id].
  change (0 <? 75)%float with true.
  assert (Float.round 75 2 = 75%float) as -> by (vm_compute; reflexivity).
  reflexivity.
Qed.

Lemma zero_average_takes_default_witness :
  FeatureExtractor._compute_rolling_features
    (FeatureExtractor.init Config.FEATURE_CONFIG) Scenario.zero_average "C1" 100
  = {[ "avg_tx_amount_30d" := PyFloat 75;
       "amount_deviation" := PyFloat (Float.round ((100 - 75) / 75) 3);
       "amount_vs_avg_ratio" := PyFloat (Float.round (100 / 75) 3) ]}.
Proof.
  apply (zero_average_takes_default Scenario.zero_average "C1" 0).
  - unfold get_rolling_average, hget_stats, Scenario.zero_average. simpl.
    by rewrite lookup_insert_eq.
  - reflexivity.
Defined.

End StoreProofs.

(** ** The consumer *)

Section ConsumerProofs.
Import FeatureStore Preprocessor Consumer Spec.

Lemma validate_schema_missing transaction field :
  field ∈ REQUIRED_FIELDS →
  absent transaction field = true →
  ∃ error_msg, validate_schema transaction = (false, error_msg).
Proof.
  intros Hin Habs. unfold validate_schema.
  destruct (List.filter (absent transaction) REQUIRED_FIELDS) as [|f l] eqn:E.
  - assert (In field (List.filter (absent transaction) REQUIRED_FIELDS)) as Hf.
    { apply filter_In. split; [by apply list_elem_of_In|done]. }
    rewrite E in Hf. destruct Hf.
  - eauto.
Qed.

(** C7: for a message in which a required field is absent or null,
    [preprocess] raises the [ValueError] of an invalid transaction, the
    loop adds exactly one to [messages_failed], [messages_processed] is
    unchanged and the store is left as it was. *)
Theorem missing_field_is_counted_and_skipped py self message field :
  field ∈ REQUIRED_FIELDS →
  absent message field = true →
  (∃ error_msg,
      preprocess py (preprocessor self) message
      = Raise (ValueError (Invalid_transaction error_msg)))
  ∧ _process_message py self message = (false, self)
  ∧ messages_failed (consume_message py self message) = messages_failed self + 1
  ∧ messages_processed (consume_message py self message) = messages_processed self
  ∧ feature_store (consume_message py self message) = feature_store self.
Proof.
  intros Hin Habs.
  destruct (validate_schema_missing message field Hin Habs) as [error_msg Hv].
  assert (preprocess py (preprocessor self) message
          = Raise (ValueError (Invalid_transaction error_msg))) as Hp.
  { unfold preprocess. by rewrite Hv. }
  assert (_process_message py self message = (false, self)) as Hm.
  { unfold _process_message. rewrite Hp. by destruct (str py _). }
  split; [eauto|]. split; [done|].
  unfold consume_message. by rewrite Hm.
Qed.

Lemma missing_field_is_counted_and_skipped_witness :
  let self := Consumer.init FeatureStore.empty in
  (∃ error_msg,
      preprocess Scenario.utc (preprocessor self) Scenario.no_card
      = Raise (ValueError (Invalid_transaction error_msg)))
  ∧ _process_message Scenario.utc self Scenario.no_card = (false, self)
  ∧ messages_failed (consume_message Scenario.utc self Scenario.no_card)
    = messages_failed self + 1
  ∧ messages_processed (consume_message Scenario.utc self Scenario.no_card)
    = messages_processed self
  ∧ feature_store (consume_message Scenario.utc self Scenario.no_card)
    = feature_store self.
Proof.
  intros self.
  apply (missing_field_is_counted_and_skipped Scenario.utc self Scenario.no_card "card_id").
  - unfold REQUIRED_FIELDS. set_solver.
  - reflexivity.
Defined.

(** The stores that the loop reaches keep timestamps as scores. *)
Lemma _process_message_keeps py self message :
  timestamps_are_scores (feature_store self) →
  timestamps_are_scores (feature_store (_process_message py self message).2).
Proof.
  intros Hinv. unfold _process_message.
  destruct (_ ← str py _; Preprocessor.preprocess py (preprocessor self) message)
    as [tx|]; [|done].
  destruct (FeatureExtractor.extract_features _ _ _ _) as [features|]; [|done].
  destruct (str py (default (PyStr "") (message !! "card_id"))) as [card|]; [|done].
  run.
  destruct (FeatureExtractor.update_card_state _ _ _ _) as [store|] eqn:E; [|done].
  apply (update_card_state_keeps _ _ _ _ _ Hinv) in E.
  by destruct (sliceable _).
Qed.

Lemma consume_keeps py messages : ∀ self,
  timestamps_are_scores (feature_store self) →
  timestamps_are_scores (feature_store (consume py self messages)).
Proof.
  induction messages as [|message rest IH]; intros self Hinv; simpl; [done|].
  destruct (running self); simpl; [|done].
  apply IH. unfold consume_message.
  pose proof (_process_message_keeps py self message Hinv) as H.
  destruct (_process_message py self message) as [[] self']; exact H.
Qed.

End ConsumerProofs.

(** ** The cold-start scenario *)

Section ScenarioProofs.
Import FeatureStore Preprocessor Consumer.

(** C3, amended: with the store empty and the process in the UTC zone, the
    event of amount 100.00 for card C1 at merchant M1 with timestamp
    1707580000 (2024-02-10 15:46:40 UTC, a Saturday) yields the features
    below, [hour_of_day] being 15; after the update the store holds the
    average 77.5 and the last timestamp 1707580000. *)
Theorem cold_start_scenario py :
  let py := Scenario.in_utc py in
  let features := Scenario.extracted py FeatureStore.empty Scenario.cold_start in
  let after := (_process_message py (Consumer.init FeatureStore.empty) Scenario.cold_start).2 in
  Spec.item features "tx_count_10m" = Some (PyInt 0)
  ∧ Spec.item features "tx_count_1h" = Some (PyInt 0)
  ∧ Spec.item features "tx_count_24h" = Some (PyInt 0)
  ∧ Spec.item features "time_since_last_tx" = Some (PyInt 0)
  ∧ Spec.item features "avg_tx_amount_30d" = Some (PyFloat 75.00)
  ∧ Spec.item features "amount_vs_avg_ratio" = Some (PyFloat 1.333)
  ∧ Spec.item features "amount_deviation" = Some (PyFloat 0.333)
  ∧ Spec.item features "hour_of_day" = Some (PyInt 15)
  ∧ Spec.item features "day_of_week" = Some (PyInt 5)
  ∧ Spec.item features "is_weekend" = Some (PyInt 1)
  ∧ Spec.item features "is_night" = Some (PyInt 0)
  ∧ get_rolling_average (feature_store after) "C1" = Some 77.5%float
  ∧ get_last_transaction_timestamp (feature_store after) "C1" = Some 1707580000.
Proof.
  intros py' features after. repeat split; vm_compute; reflexivity.
Qed.

(** C3 as stated fails: in the UTC zone [hour_of_day] is not 12. *)
Lemma cold_start_hour_is_not_12 :
  Spec.item
    (Scenario.extracted Scenario.utc FeatureStore.empty Scenario.cold_start)
    "hour_of_day" ≠ Some (PyInt 12).
Proof. vm_compute. discriminate. Qed.

End ScenarioProofs.

(** * Further properties of the pipeline *)

Ltac elem_of_list_literal :=
  repeat first [apply list_elem_of_here | apply list_elem_of_further].

(** ** Facts about the scenarios *)

Section ScenarioFacts.
Import FeatureStore Preprocessor Consumer Spec FeatureExtractor.

Lemma ready_amount : Scenario.ready !! "amount" = Some (PyFloat 100).
Proof. unfold Scenario.ready. lookup_literal. Qed.

Lemma ready_merchant_id : Scenario.ready !! "merchant_id" = Some (PyStr "M1").
Proof. unfold Scenario.ready. lookup_literal. Qed.

Lemma ready_timestamp : Scenario.ready !! "timestamp" = Some (PyInt 1707580000).
Proof. unfold Scenario.ready. lookup_literal. Qed.

Lemma ready_preprocessed : preprocessed (Preprocessor.init 99) Scenario.ready.
Proof.
  split.
  - exists "A". unfold Scenario.ready. lookup_literal.
  - exists "C1". unfold Scenario.ready. lookup_literal.
  - exists "M1". unfold Scenario.ready. lookup_literal.
  - exists "UNKNOWN". unfold Scenario.ready. lookup_literal.
  - exists 100%float. split; [apply ready_amount|]. split; by vm_compute.
  - exists 1707580000. split; [apply ready_timestamp|lia].
  - left. unfold Scenario.ready. lookup_literal.
  - left. unfold Scenario.ready. lookup_literal.
  - assert (Scenario.ready !! "city" = Some (PyStr "")) as H
      by (unfold Scenario.ready; lookup_literal).
    unfold absent. by rewrite H.
  - assert (Scenario.ready !! "state" = Some (PyStr "")) as H
      by (unfold Scenario.ready; lookup_literal).
    unfold absent. by rewrite H.
  - assert (Scenario.ready !! "user_id" = Some (PyStr "")) as H
      by (unfold Scenario.ready; lookup_literal).
    unfold absent. by rewrite H.
Qed.

Lemma preprocess_ready py :
  preprocess py (Preprocessor.init 99) Scenario.ready = Return Scenario.ready.
Proof. apply preprocessed_fixed, ready_preprocessed. Qed.

Lemma update_card_state_ready :
  update_card_state Scenario.extractor FeatureStore.empty "C1" Scenario.ready
  = Return Scenario.warm.
Proof.
  unfold update_card_state, getitem.
  rewrite ready_amount, ready_merchant_id, ready_timestamp. run.
  unfold Scenario.warm. by destruct (add_to_transaction_history _ _ _ _).
Qed.

End ScenarioFacts.

(** ** The record that the preprocessor returns *)

Section PreprocessorRecords.
Import Preprocessor Spec.

Lemma _parse_timestamp_number py v z :
  is_number v = true → py_int v = Return z → _parse_timestamp py v = Return z.
Proof. intros Hn Hz. unfold _parse_timestamp. by rewrite Hn. Qed.

Lemma cast_coordinate_value py field t t' :
  cast_coordinate py field t = Return t' →
  is_Some (t !! field) →
  t' !! field
  = if absent t field then Some PyNone
    else match py_float py (get t field) with
         | Return x => Some (PyFloat x)
         | Raise _ => None
         end.
Proof.
  intros H [v Hv]. unfold absent. rewrite Hv.
  apply cast_coordinate_Return in H as [[Hn ->]|(x & Hn & Hx & ->)].
  - unfold get in Hn. rewrite Hv in Hn. simpl in Hn. rewrite Hn.
    rewrite Hv. by destruct v.
  - unfold get in Hn, Hx. rewrite Hv in Hn, Hx. simpl in Hn, Hx.
    rewrite Hn. unfold get. rewrite Hv. simpl. rewrite Hx.
    by rewrite lookup_insert_eq.
Qed.

(** The record that [preprocess] returns, field by field. *)
Lemma preprocess_fields py p transaction out :
  preprocess py (init p) transaction = Return out →
  let filled := _handle_missing_values transaction in
  ∃ tid cid mid va a vts ts,
    transaction !! "transaction_id" = Some tid
    ∧ transaction !! "card_id" = Some cid
    ∧ transaction !! "merchant_id" = Some mid
    ∧ transaction !! "amount" = Some va
    ∧ py_float py va = Return a
    ∧ transaction !! "timestamp" = Some vts
    ∧ _parse_timestamp py vts = Return ts
    ∧ out !! "transaction_id" = Some (PyStr (py_str py tid))
    ∧ out !! "card_id" = Some (PyStr (py_str py cid))
    ∧ out !! "merchant_id" = Some (PyStr (py_str py mid))
    ∧ out !! "merchant_category"
      = Some (PyStr (py_str py (default (PyStr "UNKNOWN") (filled !! "merchant_category"))))
    ∧ out !! "amount" = Some (PyFloat (_normalize_amount (init p) a))
    ∧ out !! "timestamp" = Some (PyInt ts)
    ∧ (∀ key, key ∉ written_keys → out !! key = filled !! key).
Proof.
  intros H filled. unfold preprocess in H.
  destruct (validate_schema transaction) as [is_valid error_msg] eqn:Ev.
  destruct is_valid; [|done]. cbn [negb] in H.
  apply bind_Return in H as (t2 & Hc & H).
  apply _cast_types_Return in Hc
    as (tid & cid & mid & a & vts & t3 & t4 & t5 & [Htid Dtid] & [Hcid Dcid] & [Hmid Dmid]
        & (va & Hva & Ha) & Hvts & Ht3 & Ht4 & H5 & H6).
  fold filled in Htid, Hcid, Hmid, Hva, Hvts, Ht3.
  assert (∀ key, key ∈ REQUIRED_FIELDS → filled !! key = transaction !! key) as Hreq.
  { intros key Hk. by apply _handle_missing_values_required. }
  assert (∀ key, key ≠ "location_lat" → key ≠ "location_lon" →
                 t2 !! key = t4 !! key) as Hkeep.
  { intros key H1 H2.
    rewrite (cast_coordinate_lookup_ne _ _ _ _ key H6 H2).
    apply (cast_coordinate_lookup_ne _ _ _ _ key H5 H1). }
  assert (∀ key, key ≠ "timestamp" → t4 !! key = t3 !! key) as Hkeep4.
  { intros key Hk. destruct Ht4 as [[_ ->]|(z & _ & _ & ->)]; [done|].
    by rewrite lookup_insert_ne. }
  assert (t2 !! "amount" = Some (PyFloat a)) as Hamount.
  { rewrite Hkeep, Hkeep4 by discriminate. subst t3. by lookup_inserts. }
  unfold getitem in H. rewrite Hamount in H. revert H. run. cbn [float_val]. run.
  lookup_inserts.
  destruct (t2 !! "timestamp") as [v|] eqn:Ev2; [|done]. run.
  intros H. apply bind_Return in H as (ts & Hparse & H).
  apply bind_Return in H as ([] & Hval & H). injection H as <-.
  assert (_parse_timestamp py vts = Return ts) as Hts.
  { rewrite Hkeep in Ev2 by discriminate.
    destruct Ht4 as [[Hn ->]|(z & Hn & Hz & ->)].
    - subst t3. rewrite !lookup_insert_ne in Ev2 by discriminate.
      rewrite Hvts in Ev2. by injection Ev2 as <-.
    - rewrite lookup_insert_eq in Ev2. injection Ev2 as <-.
      unfold _parse_timestamp in Hparse. simpl in Hparse. injection Hparse as <-.
      by apply _parse_timestamp_number. }
  assert (∀ key, key ≠ "timestamp" → key ≠ "amount" →
                 key ≠ "location_lat" → key ≠ "location_lon" →
                 <["timestamp" := PyInt ts]>
                   (<["amount" := PyFloat (_normalize_amount (init p) a)]> t2) !! key
                 = t3 !! key) as Hout.
  { intros key ? ? ? ?. rewrite !lookup_insert_ne by done.
    rewrite Hkeep, Hkeep4 by done. done. }
  exists tid, cid, mid, va, a, vts, ts.
  rewrite <- !Hreq by (unfold REQUIRED_FIELDS; rewrite !elem_of_cons; tauto).
  repeat split; try done.
  - rewrite Hout by discriminate. subst t3. by lookup_inserts.
  - rewrite Hout by discriminate. subst t3. by lookup_inserts.
  - rewrite Hout by discriminate. subst t3. by lookup_inserts.
  - rewrite Hout by discriminate. subst t3. by lookup_inserts.
  - by lookup_inserts.
  - by lookup_inserts.
  - intros key Hk. unfold written_keys in Hk. rewrite !elem_of_cons, elem_of_nil in Hk.
    assert (key ≠ "transaction_id" ∧ key ≠ "card_id" ∧ key ≠ "merchant_id"
            ∧ key ≠ "merchant_category" ∧ key ≠ "amount" ∧ key ≠ "timestamp"
            ∧ key ≠ "location_lat" ∧ key ≠ "location_lon")
      as (? & ? & ? & ? & ? & ? & ? & ?) by tauto.
    rewrite Hout by done. subst t3. by rewrite !lookup_insert_ne by done.
Qed.

(** The identifiers of a message that was accepted can be printed. *)
Lemma preprocess_prints_ids py p transaction out :
  preprocess py (init p) transaction = Return out →
  ∃ tid cid mid,
    transaction !! "transaction_id" = Some tid ∧ is_deep tid = false
    ∧ transaction !! "card_id" = Some cid ∧ is_deep cid = false
    ∧ transaction !! "merchant_id" = Some mid ∧ is_deep mid = false.
Proof.
  intros H. unfold preprocess in H.
  destruct (validate_schema transaction) as [is_valid error_msg] eqn:Ev.
  destruct is_valid; [|done]. cbn [negb] in H.
  apply bind_Return in H as (t2 & Hc & H).
  apply _cast_types_Return in Hc
    as (tid & cid & mid & a & vts & t3 & t4 & t5 & [Htid Dtid] & [Hcid Dcid]
        & [Hmid Dmid] & _).
  exists tid, cid, mid.
  rewrite <- (_handle_missing_values_required transaction "transaction_id"),
    <- (_handle_missing_values_required transaction "card_id"),
    <- (_handle_missing_values_required transaction "merchant_id")
    by (unfold REQUIRED_FIELDS; rewrite !elem_of_cons; tauto).
  done.
Qed.

(** X1: every record that [preprocess] returns has text identifiers and
    category, a float amount, an integer timestamp between 2000-01-01 and
    2100-01-01, and coordinates that are [None] or floats within
    [[-90, 90]] and [[-180, 180]]. *)
Theorem preprocess_returns_typed_record py p transaction out :
  preprocess py (init p) transaction = Return out →
  (∃ s, out !! "transaction_id" = Some (PyStr s))
  ∧ (∃ s, out !! "card_id" = Some (PyStr s))
  ∧ (∃ s, out !! "merchant_id" = Some (PyStr s))
  ∧ (∃ s, out !! "merchant_category" = Some (PyStr s))
  ∧ (∃ b, out !! "amount" = Some (PyFloat b))
  ∧ (∃ ts, out !! "timestamp" = Some (PyInt ts) ∧ 946684800 ≤ ts ≤ 4102444800)
  ∧ (out !! "location_lat" = Some PyNone
     ∨ ∃ x, out !! "location_lat" = Some (PyFloat x)
            ∧ (-90 <=? x)%float = true ∧ (x <=? 90)%float = true)
  ∧ (out !! "location_lon" = Some PyNone
     ∨ ∃ x, out !! "location_lon" = Some (PyFloat x)
            ∧ (-180 <=? x)%float = true ∧ (x <=? 180)%float = true).
Proof.
  intros H. apply preprocess_Return in H as [H _].
  repeat split; try apply H.
  destruct (amount_is_normalized _ _ H) as (b & Hb & _). by exists b.
Qed.

Lemma preprocess_returns_typed_record_witness :
  ∃ out,
    preprocess Scenario.utc (init 99) Scenario.cold_start = Return out
    ∧ (∃ s, out !! "card_id" = Some (PyStr s))
    ∧ (∃ ts, out !! "timestamp" = Some (PyInt ts) ∧ 946684800 ≤ ts ≤ 4102444800).
Proof.
  destruct (preprocess Scenario.utc (init 99) Scenario.cold_start) as [out|] eqn:E.
  - exists out. split; [done|].
    destruct (preprocess_returns_typed_record Scenario.utc 99 Scenario.cold_start out E)
      as (_ & Hc & _ & _ & _ & Ht & _).
    by split.
  - assert (returns (preprocess Scenario.utc (init 99) Scenario.cold_start) = true)
      as Hr by (vm_compute; reflexivity).
    rewrite E in Hr. discriminate Hr.
Defined.

(** X2: [preprocess] rewrites eight fields and passes every other field
    of the message through: the identifiers become the text [str] gives
    for them, a missing or null [merchant_category] becomes UNKNOWN, a
    missing or null [city], [state] or [user_id] becomes the empty text,
    and any further field (such as [is_fraud] or [zip]) is returned
    exactly as it came. *)
Theorem preprocess_passes_other_fields py p transaction out :
  preprocess py (init p) transaction = Return out →
  (∀ field, field ∈ ["transaction_id"; "card_id"; "merchant_id"] →
     ∃ v, transaction !! field = Some v ∧ out !! field = Some (PyStr (py_str py v)))
  ∧ out !! "merchant_category"
    = Some (PyStr (if absent transaction "merchant_category" then "UNKNOWN"
                   else py_str py (get transaction "merchant_category")))
  ∧ (∀ field, field ∈ ["city"; "state"; "user_id"] →
       out !! field
       = if absent transaction field then Some (PyStr "") else transaction !! field)
  ∧ (∀ key,
       key ∉ ["transaction_id"; "card_id"; "merchant_id"; "merchant_category";
              "amount"; "timestamp"; "location_lat"; "location_lon";
              "city"; "state"; "user_id"] →
       out !! key = transaction !! key).
Proof.
  intros H. apply preprocess_fields in H
    as (tid & cid & mid & va & a & vts & ts & Htid & Hcid & Hmid & Hva & Ha & Hvts
        & Hts & Otid & Ocid & Omid & Ocat & Oa & Ots & Hother).
  split; [|split; [|split]].
  - intros field Hf. rewrite !elem_of_cons, elem_of_nil in Hf.
    destruct Hf as [->|[->|[->|[]]]]; eauto.
  - rewrite Ocat.
    rewrite (_handle_missing_values_optional _ "merchant_category" (PyStr "UNKNOWN"))
      by (unfold OPTIONAL_FIELDS; rewrite !elem_of_cons; tauto).
    destruct (absent transaction "merchant_category") eqn:E; [done|].
    apply absent_false in E as (v & E & _). unfold get. by rewrite E.
  - intros field Hf. rewrite !elem_of_cons, elem_of_nil in Hf.
    rewrite Hother
      by (unfold written_keys; rewrite !elem_of_cons, elem_of_nil;
          destruct Hf as [->|[->|[->|[]]]]; intros H;
          repeat (destruct H as [H|H]; [discriminate H|]); done).
    destruct Hf as [->|[->|[->|[]]]].
    + apply (_handle_missing_values_optional _ "city" (PyStr "")).
      unfold OPTIONAL_FIELDS; rewrite !elem_of_cons; tauto.
    + apply (_handle_missing_values_optional _ "state" (PyStr "")).
      unfold OPTIONAL_FIELDS; rewrite !elem_of_cons; tauto.
    + apply (_handle_missing_values_optional _ "user_id" (PyStr "")).
      unfold OPTIONAL_FIELDS; rewrite !elem_of_cons; tauto.
  - intros key Hk. rewrite !elem_of_cons, elem_of_nil in Hk.
    rewrite Hother by (unfold written_keys; rewrite !elem_of_cons, elem_of_nil; tauto).
    unfold _handle_missing_values, OPTIONAL_FIELDS. cbn [foldl].
    assert (key ≠ "merchant_category" ∧ key ≠ "location_lat" ∧ key ≠ "location_lon"
            ∧ key ≠ "city" ∧ key ≠ "state" ∧ key ≠ "user_id")
      as (? & ? & ? & ? & ? & ?) by tauto.
    by rewrite !fill_default_ne by done.
Qed.

Lemma preprocess_passes_other_fields_witness :
  ∃ out,
    preprocess Scenario.utc (Preprocessor.init 99) Scenario.labelled = Return out
    ∧ out !! "is_fraud" = Scenario.labelled !! "is_fraud".
Proof.
  destruct (preprocess Scenario.utc (Preprocessor.init 99) Scenario.labelled)
    as [out|] eqn:E.
  - exists out. split; [done|].
    destruct (preprocess_passes_other_fields
                Scenario.utc 99 Scenario.labelled out E) as (_ & _ & _ & H).
    apply H. rewrite !elem_of_cons, elem_of_nil.
    intros Hk. repeat (destruct Hk as [Hk|Hk]; [discriminate Hk|]). done.
  - assert (returns (preprocess Scenario.utc (Preprocessor.init 99) Scenario.labelled)
            = true) as Hr by (vm_compute; reflexivity).
    rewrite E in Hr. discriminate Hr.
Defined.

End PreprocessorRecords.

(** ** The exceptions of the preprocessor *)

Section PreprocessorErrors.
Import Preprocessor Spec.

Lemma validate_schema_true transaction error_msg field :
  validate_schema transaction = (true, error_msg) →
  field ∈ REQUIRED_FIELDS →
  absent transaction field = false.
Proof.
  unfold validate_schema, REQUIRED_FIELDS. intros H Hf.
  destruct (absent transaction field) eqn:E; [|done].
  assert (field ∈ List.filter (absent transaction)
            ["transaction_id"; "card_id"; "amount"; "merchant_id"; "timestamp"]) as Hin.
  { apply list_elem_of_In, filter_In. split; [by apply list_elem_of_In|done]. }
  destruct (List.filter _ _); [by apply elem_of_nil in Hin|done].
Qed.

Lemma py_float_Raise py v e :
  py_float py v = Raise e →
  e = TypeError ∨ e = ValueError Conversion_failed ∨ e = OverflowError.
Proof.
  destruct v as [|b|z|f|s|t|t|]; simpl; try (intros [= <-]; tauto).
  - destruct (Float.of_int z); intros [= <-]. tauto.
  - destruct (float_of_string py s); intros [= <-]. tauto.
Qed.

Lemma py_int_Raise v e :
  is_number v = true →
  py_int v = Raise e →
  e = ValueError Conversion_failed ∨ e = OverflowError.
Proof.
  destruct v as [|b|z|f|s|t|t|]; simpl; try done.
  intros _. unfold Float.to_int. destruct (Prim2SF f); intros [= <-]; tauto.
Qed.

Lemma str_Raise py v e : str py v = Raise e → v = PyDeep ∧ e = RecursionError.
Proof. destruct v; simpl; try done. by intros [= <-]. Qed.

Lemma cast_coordinate_Raise py field t e :
  cast_coordinate py field t = Raise e →
  e = TypeError ∨ e = ValueError Conversion_failed ∨ e = OverflowError.
Proof.
  unfold cast_coordinate. destruct (is_None _); [done|].
  destruct (py_float py (get t field)) eqn:E; [done|].
  run. intros [= <-]. by apply py_float_Raise in E.
Qed.

Lemma recast_Raise {A} (m : result A) e e' :
  m = Raise e →
  e = TypeError ∨ e = ValueError Conversion_failed ∨ e = OverflowError
  ∨ e = RecursionError →
  recast m = Raise e' →
  leaves_preprocess e'.
Proof.
  intros -> [-> | [-> | [-> | ->]]]; simpl; intros [= <-];
    unfold leaves_preprocess; eauto.
Qed.

Lemma _cast_types_Raise py t e :
  (∀ field, field ∈ REQUIRED_FIELDS → is_Some (t !! field)) →
  _cast_types py t = Raise e →
  leaves_preprocess e.
Proof.
  intros Hreq. unfold _cast_types.
  match goal with |- recast ?m = _ → _ => set (inner := m) end.
  destruct inner as [t'|e0] eqn:E; [done|].
  intros H. refine (recast_Raise (Raise e0) e0 e eq_refl _ H).
  clear H. revert E. subst inner. unfold getitem.
  destruct (Hreq "transaction_id") as [tid ->]; [set_solver|]. run.
  destruct (str py tid) as [s1|e1] eqn:Es1.
  2: { run. intros [= <-]. apply str_Raise in Es1 as [_ ->]. tauto. }
  run. lookup_inserts.
  destruct (Hreq "card_id") as [cid ->]; [set_solver|]. run.
  destruct (str py cid) as [s2|e1] eqn:Es2.
  2: { run. intros [= <-]. apply str_Raise in Es2 as [_ ->]. tauto. }
  run. lookup_inserts.
  destruct (Hreq "merchant_id") as [mid ->]; [set_solver|]. run.
  destruct (str py mid) as [s3|e1] eqn:Es3.
  2: { run. intros [= <-]. apply str_Raise in Es3 as [_ ->]. tauto. }
  run. lookup_inserts.
  destruct (str py (default (PyStr "UNKNOWN") (t !! "merchant_category")))
    as [s4|e1] eqn:Es4.
  2: { run. intros [= <-]. apply str_Raise in Es4 as [_ ->]. tauto. }
  run. lookup_inserts.
  destruct (Hreq "amount") as [va ->]; [set_solver|]. run.
  destruct (py_float py va) as [a|e1] eqn:Ea.
  2: { run. intros [= <-]. apply py_float_Raise in Ea. tauto. }
  run. lookup_inserts.
  destruct (Hreq "timestamp") as [vts ->]; [set_solver|]. run.
  destruct (is_number vts) eqn:En.
  - destruct (py_int vts) as [z|e1] eqn:Ez.
    2: { run. intros [= <-]. apply py_int_Raise in Ez; tauto. }
    run.
    destruct (cast_coordinate py "location_lat" _) as [t5|e1] eqn:E5.
    2: { run. intros [= <-]. apply cast_coordinate_Raise in E5. tauto. }
    run.
    destruct (cast_coordinate py "location_lon" _) as [t6|e1] eqn:E6; [done|].
    run. intros [= <-]. apply cast_coordinate_Raise in E6. tauto.
  - run.
    destruct (cast_coordinate py "location_lat" _) as [t5|e1] eqn:E5.
    2: { run. intros [= <-]. apply cast_coordinate_Raise in E5. tauto. }
    run.
    destruct (cast_coordinate py "location_lon" _) as [t6|e1] eqn:E6; [done|].
    run. intros [= <-]. apply cast_coordinate_Raise in E6. tauto.
Qed.

Lemma _parse_timestamp_Raise py v e :
  (is_number v = true → ∃ z, v = PyInt z) →
  _parse_timestamp py v = Raise e → ∃ why, e = ValueError why.
Proof.
  intros Hn. unfold _parse_timestamp. destruct (is_number v) eqn:E.
  - destruct (Hn eq_refl) as [z ->]. done.
  - destruct v; try (intros [= <-]; eauto).
    destruct (fromisoformat_timestamp py _); [done|].
    destruct (strptime_timestamp py _ _); [done|]. intros [= <-]; eauto.
Qed.

Lemma _validate_ranges_Raise out b ts e :
  out !! "amount" = Some (PyFloat b) →
  out !! "timestamp" = Some (PyInt ts) →
  (out !! "location_lat" = Some PyNone ∨ ∃ x, out !! "location_lat" = Some (PyFloat x)) →
  (out !! "location_lon" = Some PyNone ∨ ∃ x, out !! "location_lon" = Some (PyFloat x)) →
  _validate_ranges out = Raise e → ∃ why, e = ValueError why.
Proof.
  intros Hb Hts Hlat Hlon. unfold _validate_ranges, getitem, get.
  rewrite Hb, Hts. run. cbn [float_val int_val]. run.
  destruct (b <=? 0)%float; [intros [= <-]; eauto|].
  destruct (negb _); [intros [= <-]; eauto|].
  destruct Hlat as [->|[x ->]], Hlon as [->|[y ->]];
    cbn [from_option id is_None float_val]; run; try done.
  - destruct (negb _); [intros [= <-]; eauto|done].
  - destruct (negb _); [intros [= <-]; eauto|done].
  - destruct (negb ((-90 <=? x)%float && _)); run; [intros [= <-]; eauto|].
    destruct (negb _); [intros [= <-]; eauto|done].
Qed.

Lemma preprocess_Raise py p transaction e :
  preprocess py (init p) transaction = Raise e → leaves_preprocess e.
Proof.
  unfold preprocess.
  destruct (validate_schema transaction) as [is_valid error_msg] eqn:Ev.
  destruct is_valid; [|intros [= <-]; left; eauto]. cbn [negb].
  assert (∀ field, field ∈ REQUIRED_FIELDS →
            is_Some (_handle_missing_values transaction !! field)) as Hreq.
  { intros field Hf. rewrite _handle_missing_values_required by done.
    pose proof (validate_schema_true _ _ _ Ev Hf) as Ha.
    apply absent_false in Ha as (v & -> & _). by exists v. }
  destruct (_cast_types py _) as [t2|e0] eqn:Ec.
  2: { run. intros [= <-]. by apply (_cast_types_Raise _ _ _ Hreq) in Ec. }
  run.
  apply _cast_types_Return in Ec
    as (tid & cid & mid & a & vts & t3 & t4 & t5 & [Htid Dtid] & [Hcid Dcid]
        & [Hmid Dmid] & (va & Hva & Ha) & Hvts & Ht3 & Ht4 & H5 & H6).
  assert (∀ key, key ≠ "location_lat" → key ≠ "location_lon" →
                 t2 !! key = t4 !! key) as Hkeep.
  { intros key H1 H2.
    rewrite (cast_coordinate_lookup_ne _ _ _ _ key H6 H2).
    apply (cast_coordinate_lookup_ne _ _ _ _ key H5 H1). }
  assert (∀ key, key ≠ "timestamp" → t4 !! key = t3 !! key) as Hkeep4.
  { intros key Hk. destruct Ht4 as [[_ ->]|(z & _ & _ & ->)]; [done|].
    by rewrite lookup_insert_ne. }
  assert (t2 !! "amount" = Some (PyFloat a)) as Hamount.
  { rewrite Hkeep, Hkeep4 by discriminate. subst t3. by lookup_inserts. }
  assert (∃ v, t2 !! "timestamp" = Some v ∧ (is_number v = true → ∃ z, v = PyInt z))
    as (v & Hv & Hnum).
  { rewrite Hkeep by discriminate.
    destruct Ht4 as [[Hn ->]|(z & Hn & Hz & ->)].
    - exists vts. subst t3. rewrite !lookup_insert_ne by discriminate.
      split; [done|]. by rewrite Hn.
    - exists (PyInt z). rewrite lookup_insert_eq. eauto. }
  unfold getitem. rewrite Hamount. run. cbn [float_val]. run.
  lookup_inserts. rewrite Hv. run.
  destruct (_parse_timestamp py v) as [ts|e0] eqn:Ep.
  2: { run. intros [= <-]. left. by apply (_parse_timestamp_Raise _ _ _ Hnum) in Ep. }
  run.
  destruct (_validate_ranges _) as [[]|e0] eqn:Er; [done|].
  run. intros [= <-]. left.
  refine (_validate_ranges_Raise _ (_normalize_amount (init p) a) ts _ _ _ _ _ Er).
  - by lookup_inserts.
  - by lookup_inserts.
  - rewrite !lookup_insert_ne by discriminate.
    rewrite (cast_coordinate_lookup_ne _ _ _ _ _ H6) by discriminate.
    apply (cast_coordinate_lookup _ _ _ _ H5).
    rewrite Hkeep4 by discriminate. subst t3. lookup_inserts.
    rewrite (_handle_missing_values_optional _ "location_lat" PyNone)
      by (unfold OPTIONAL_FIELDS; rewrite !elem_of_cons; tauto).
    destruct (absent transaction "location_lat") eqn:E; [done|].
    apply absent_false in E as (w & -> & _). done.
  - rewrite !lookup_insert_ne by discriminate.
    apply (cast_coordinate_lookup _ _ _ _ H6).
    rewrite (cast_coordinate_lookup_ne _ _ _ _ _ H5) by discriminate.
    rewrite Hkeep4 by discriminate. subst t3. lookup_inserts.
    rewrite (_handle_missing_values_optional _ "location_lon" PyNone)
      by (unfold OPTIONAL_FIELDS; rewrite !elem_of_cons; tauto).
    destruct (absent transaction "location_lon") eqn:E; [done|].
    apply absent_false in E as (w & -> & _). done.
Qed.

(** *** Reaching each exception *)

Lemma validate_schema_complete transaction :
  complete transaction → validate_schema transaction = (true, "").
Proof.
  intros H. unfold validate_schema, REQUIRED_FIELDS. cbn [List.filter].
  by rewrite !H by (unfold REQUIRED_FIELDS; rewrite !elem_of_cons; tauto).
Qed.

Lemma complete_lookup transaction field :
  complete transaction → field ∈ REQUIRED_FIELDS →
  ∃ v, _handle_missing_values transaction !! field = Some v
       ∧ transaction !! field = Some v.
Proof.
  intros H Hf. rewrite _handle_missing_values_required by done.
  apply H, absent_false in Hf as (v & Hv & _). by exists v.
Qed.

Lemma printable_category transaction :
  printable transaction →
  is_deep (default (PyStr "UNKNOWN")
             (_handle_missing_values transaction !! "merchant_category")) = false.
Proof.
  intros H.
  rewrite (_handle_missing_values_optional _ "merchant_category" (PyStr "UNKNOWN"))
    by (unfold OPTIONAL_FIELDS; rewrite !elem_of_cons; tauto).
  destruct (absent transaction "merchant_category") eqn:E; [done|].
  apply absent_false in E as (v & E & _).
  specialize (H "merchant_category"). unfold get in H. rewrite E in *.
  apply H. rewrite !elem_of_cons. tauto.
Qed.

(** The casts up to the amount, on a message that can be printed. *)
Lemma _cast_types_amount_Raise py t tid cid mid va e :
  t !! "transaction_id" = Some tid → is_deep tid = false →
  t !! "card_id" = Some cid → is_deep cid = false →
  t !! "merchant_id" = Some mid → is_deep mid = false →
  is_deep (default (PyStr "UNKNOWN") (t !! "merchant_category")) = false →
  t !! "amount" = Some va →
  py_float py va = Raise e →
  _cast_types py t = recast (Raise e).
Proof.
  intros Htid Dtid Hcid Dcid Hmid Dmid Dcat Hva Ha.
  unfold _cast_types, getitem. f_equal.
  rewrite Htid. run. rewrite (str_printable _ _ Dtid). run. lookup_inserts.
  rewrite Hcid. run. rewrite (str_printable _ _ Dcid). run. lookup_inserts.
  rewrite Hmid. run. rewrite (str_printable _ _ Dmid). run. lookup_inserts.
  rewrite (str_printable _ _ Dcat). run. lookup_inserts.
  rewrite Hva. run. by rewrite Ha.
Qed.

Lemma _cast_types_timestamp_Raise py t tid cid mid va a vts e :
  t !! "transaction_id" = Some tid → is_deep tid = false →
  t !! "card_id" = Some cid → is_deep cid = false →
  t !! "merchant_id" = Some mid → is_deep mid = false →
  is_deep (default (PyStr "UNKNOWN") (t !! "merchant_category")) = false →
  t !! "amount" = Some va →
  py_float py va = Return a →
  t !! "timestamp" = Some vts →
  is_number vts = true →
  py_int vts = Raise e →
  _cast_types py t = recast (Raise e).
Proof.
  intros Htid Dtid Hcid Dcid Hmid Dmid Dcat Hva Ha Hvts Hn Hz.
  unfold _cast_types, getitem. f_equal.
  rewrite Htid. run. rewrite (str_printable _ _ Dtid). run. lookup_inserts.
  rewrite Hcid. run. rewrite (str_printable _ _ Dcid). run. lookup_inserts.
  rewrite Hmid. run. rewrite (str_printable _ _ Dmid). run. lookup_inserts.
  rewrite (str_printable _ _ Dcat). run. lookup_inserts.
  rewrite Hva. run. rewrite Ha. run. lookup_inserts.
  rewrite Hvts. run. rewrite Hn, Hz. done.
Qed.

Lemma _cast_types_deep py t tid cid mid :
  t !! "transaction_id" = Some tid →
  t !! "card_id" = Some cid →
  t !! "merchant_id" = Some mid →
  PyDeep ∈ [tid; cid; mid] →
  _cast_types py t = Raise RecursionError.
Proof.
  intros Htid Hcid Hmid Hdeep.
  unfold _cast_types, getitem.
  rewrite Htid. run. destruct (str py tid) as [s1|e1] eqn:E1.
  2: { apply str_Raise in E1 as [_ ->]. done. }
  run. lookup_inserts.
  rewrite Hcid. run. destruct (str py cid) as [s2|e2] eqn:E2.
  2: { apply str_Raise in E2 as [_ ->]. done. }
  run. lookup_inserts.
  rewrite Hmid. run. destruct (str py mid) as [s3|e3] eqn:E3.
  2: { apply str_Raise in E3 as [_ ->]. done. }
  apply str_Return in E1 as [D1 _], E2 as [D2 _], E3 as [D3 _].
  rewrite !elem_of_cons, elem_of_nil in Hdeep.
  destruct Hdeep as [<-|[<-|[<-|[]]]]; done.
Qed.

Lemma printable_lookup transaction field v :
  printable transaction →
  field ∈ ["transaction_id"; "card_id"; "merchant_id"; "merchant_category"] →
  transaction !! field = Some v →
  is_deep v = false.
Proof.
  intros H Hf Hv. specialize (H field Hf). unfold get in H. by rewrite Hv in H.
Qed.

(** X3: whatever the message, [preprocess] raises nothing but a
    [ValueError], an [OverflowError] or a [RecursionError]: no [KeyError]
    and no [TypeError] leaves it. The last two, which its docstring does
    not announce, are reached on messages with every required field: the
    [RecursionError] when [str] cannot print an identifier, the
    [OverflowError] from [float] of an integer too large for a double and
    from [int] of an infinite timestamp. *)
Theorem preprocess_raises_only py p transaction :
  (∀ e, preprocess py (init p) transaction = Raise e →
        (∃ why, e = ValueError why) ∨ e = OverflowError ∨ e = RecursionError)
  ∧ (complete transaction →
     (∃ field, field ∈ ["transaction_id"; "card_id"; "merchant_id"]
               ∧ transaction !! field = Some PyDeep) →
     preprocess py (init p) transaction = Raise RecursionError)
  ∧ (complete transaction → printable transaction →
     ∀ z, transaction !! "amount" = Some (PyInt z) →
          Float.of_int z = None →
          preprocess py (init p) transaction = Raise OverflowError)
  ∧ (complete transaction → printable transaction →
     ∀ v a f, transaction !! "amount" = Some v →
              py_float py v = Return a →
              transaction !! "timestamp" = Some (PyFloat f) →
              Float.to_int f = Raise OverflowError →
              preprocess py (init p) transaction = Raise OverflowError).
Proof.
  split; [apply preprocess_Raise|].
  assert (complete transaction →
          ∃ tid cid mid,
            (_handle_missing_values transaction !! "transaction_id" = Some tid
             ∧ transaction !! "transaction_id" = Some tid)
            ∧ (_handle_missing_values transaction !! "card_id" = Some cid
               ∧ transaction !! "card_id" = Some cid)
            ∧ (_handle_missing_values transaction !! "merchant_id" = Some mid
               ∧ transaction !! "merchant_id" = Some mid)) as Hids.
  { intros Hc.
    destruct (complete_lookup transaction "transaction_id" Hc) as [tid Htid];
      [unfold REQUIRED_FIELDS; rewrite !elem_of_cons; tauto|].
    destruct (complete_lookup transaction "card_id" Hc) as [cid Hcid];
      [unfold REQUIRED_FIELDS; rewrite !elem_of_cons; tauto|].
    destruct (complete_lookup transaction "merchant_id" Hc) as [mid Hmid];
      [unfold REQUIRED_FIELDS; rewrite !elem_of_cons; tauto|].
    by exists tid, cid, mid. }
  split; [|split].
  - intros Hc (field & Hf & Hdeep).
    destruct (Hids Hc) as (tid & cid & mid & [Ftid Htid] & [Fcid Hcid] & [Fmid Hmid]).
    unfold preprocess. rewrite (validate_schema_complete _ Hc). cbn [negb].
    rewrite (_cast_types_deep py _ tid cid mid Ftid Fcid Fmid); [done|].
    rewrite !elem_of_cons, elem_of_nil in Hf. rewrite !elem_of_cons.
    destruct Hf as [->|[->|[->|[]]]].
    + left. congruence.
    + right. left. congruence.
    + right. right. left. congruence.
  - intros Hc Hp z Hz Hover.
    destruct (Hids Hc) as (tid & cid & mid & [Ftid Htid] & [Fcid Hcid] & [Fmid Hmid]).
    unfold preprocess. rewrite (validate_schema_complete _ Hc). cbn [negb].
    rewrite (_cast_types_amount_Raise py _ tid cid mid (PyInt z) OverflowError);
      try done.
    + apply (printable_lookup transaction "transaction_id"); [done| |done].
      rewrite !elem_of_cons. tauto.
    + apply (printable_lookup transaction "card_id"); [done| |done].
      rewrite !elem_of_cons. tauto.
    + apply (printable_lookup transaction "merchant_id"); [done| |done].
      rewrite !elem_of_cons. tauto.
    + by apply printable_category.
    + rewrite _handle_missing_values_required; [done|].
      unfold REQUIRED_FIELDS. rewrite !elem_of_cons. tauto.
    + simpl. by rewrite Hover.
  - intros Hc Hp v a f Hv Ha Hf Hover.
    destruct (Hids Hc) as (tid & cid & mid & [Ftid Htid] & [Fcid Hcid] & [Fmid Hmid]).
    unfold preprocess. rewrite (validate_schema_complete _ Hc). cbn [negb].
    rewrite (_cast_types_timestamp_Raise
               py _ tid cid mid v a (PyFloat f) OverflowError); try done.
    + apply (printable_lookup transaction "transaction_id"); [done| |done].
      rewrite !elem_of_cons. tauto.
    + apply (printable_lookup transaction "card_id"); [done| |done].
      rewrite !elem_of_cons. tauto.
    + apply (printable_lookup transaction "merchant_id"); [done| |done].
      rewrite !elem_of_cons. tauto.
    + by apply printable_category.
    + rewrite _handle_missing_values_required; [done|].
      unfold REQUIRED_FIELDS. rewrite !elem_of_cons. tauto.
    + rewrite _handle_missing_values_required; [done|].
      unfold REQUIRED_FIELDS. rewrite !elem_of_cons. tauto.
Qed.

Lemma preprocess_raises_only_witness :
  preprocess Scenario.utc (init 99) Scenario.endless = Raise OverflowError.
Proof.
  refine (proj2 (proj2 (proj2 (preprocess_raises_only Scenario.utc 99 Scenario.endless)))
            _ _ (PyFloat 100) 100%float infinity _ _ _ _).
  - intros field Hf. unfold REQUIRED_FIELDS in Hf.
    rewrite !elem_of_cons, elem_of_nil in Hf.
    destruct Hf as [->|[->|[->|[->|[->|[]]]]]]; reflexivity.
  - intros field Hf. rewrite !elem_of_cons, elem_of_nil in Hf.
    destruct Hf as [->|[->|[->|[->|[]]]]]; reflexivity.
  - reflexivity.
  - reflexivity.
  - reflexivity.
  - reflexivity.
Defined.

End PreprocessorErrors.

(** ** Writing and reading the history *)

Section HistoryWrites.
Import FeatureStore Spec.

(** *** Sorted-set operations as filters *)

Lemma filter_filter_comm {A} (P Q : A → bool) l :
  List.filter P (List.filter Q l) = List.filter Q (List.filter P l).
Proof.
  induction l as [|x l IH]; simpl; [done|].
  destruct (P x) eqn:EP, (Q x) eqn:EQ; simpl; rewrite ?EP, ?EQ, IH; done.
Qed.

Lemma filter_filter_id {A} (P : A → bool) l :
  List.filter P (List.filter P l) = List.filter P l.
Proof.
  induction l as [|x l IH]; simpl; [done|].
  destruct (P x) eqn:EP; simpl; rewrite ?EP, IH; done.
Qed.

(** A filter that drops the inserted pair drops it wherever it went. *)
Lemma filter_zinsert_out (P : member * Z → bool) m s z :
  P (m, s) = false →
  List.filter P (zinsert m s z) = List.filter P z.
Proof.
  intros HP. induction z as [|[m' s'] z IH]; simpl.
  - by rewrite HP.
  - destruct (s' <=? s); simpl; rewrite ?HP, ?IH; done.
Qed.

(** A filter that keeps the inserted pair and drops only pairs of a
    score not above it commutes with the insertion. *)
Lemma filter_zinsert_in (P : member * Z → bool) m s z :
  P (m, s) = true →
  (∀ e, P e = false → e.2 ≤ s) →
  List.filter P (zinsert m s z) = zinsert m s (List.filter P z).
Proof.
  intros HP Hlow. induction z as [|[m' s'] z IH]; simpl.
  - by rewrite HP.
  - destruct (s' <=? s) eqn:E; simpl.
    + destruct (P (m', s')) eqn:EP; simpl; rewrite ?E, IH; done.
    + rewrite HP. destruct (P (m', s')) eqn:EP; simpl; [by rewrite E|].
      apply Hlow in EP. simpl in EP. apply Z.leb_gt in E. lia.
Qed.

Lemma history_add_to_transaction_history_ne self card_id transaction ttl card_id' :
  card_id ≠ card_id' →
  history (add_to_transaction_history self card_id transaction ttl).2 card_id'
  = history self card_id'.
Proof.
  intros Hne. unfold add_to_transaction_history.
  destruct (_ ← getitem transaction "timestamp"; _) as [[tx_data timestamp]|]; [|done].
  cbn [snd]. rewrite history_set_history. destruct (decide _); [done|].
  rewrite history_expire_other by (by intros H%history_key_inj).
  rewrite history_set_history. by destruct (decide _).
Qed.

(** The history of the card after an insertion, as a list. *)
Lemma history_add_to_transaction_history self card_id transaction ttl
    amount merchant_id timestamp :
  transaction !! "amount" = Some amount →
  transaction !! "merchant_id" = Some merchant_id →
  transaction !! "timestamp" = Some (PyInt timestamp) →
  is_deep amount = false →
  is_deep merchant_id = false →
  history (add_to_transaction_history self card_id transaction ttl).2 card_id
  = if decide (0 < ttl)
    then zremrangebyscore_from_neg_inf
           (zadd (history self card_id)
                 (json_dumps {[ "amount" := amount; "merchant_id" := merchant_id;
                                "timestamp" := PyInt timestamp ]})
                 timestamp)
           (timestamp - ttl)
    else [].
Proof.
  intros Ha Hm Ht Hda Hdm. destruct (decide (0 < ttl)) as [Httl|Httl].
  - rewrite (add_to_transaction_history_history _ _ _ _ _ _ _ Ha Hm Ht Hda Hdm Httl).
    cbn [snd]. rewrite history_set_history. by destruct (decide _).
  - apply (add_to_transaction_history_deleted _ _ _ _ _ _ _ Ha Hm Ht Hda Hdm). lia.
Qed.

(** Reading depends on the history of the card alone. *)
Lemma get_transaction_history_ext store store' card_id w t :
  history store card_id = history store' card_id →
  get_transaction_history store card_id w t
  = get_transaction_history store' card_id w t.
Proof. intros H. by rewrite !get_transaction_history_cases, H. Qed.



(** Only the three stored fields of a transaction are read. *)
Lemma add_to_transaction_history_ext self card_id tx1 tx2 ttl :
  tx1 !! "amount" = tx2 !! "amount" →
  tx1 !! "merchant_id" = tx2 !! "merchant_id" →
  tx1 !! "timestamp" = tx2 !! "timestamp" →
  add_to_transaction_history self card_id tx1 ttl
  = add_to_transaction_history self card_id tx2 ttl.
Proof.
  intros Ha Hm Ht. unfold add_to_transaction_history, getitem. by rewrite Ha, Hm, Ht.
Qed.

(** Inserting a transaction a second time leaves the history as it
    was. *)
Lemma add_to_transaction_history_again self card_id transaction ttl :
  let once := (add_to_transaction_history self card_id transaction ttl).2 in
  history (add_to_transaction_history once card_id transaction ttl).2 card_id
  = history once card_id.
Proof.
  intros once. unfold once.
  destruct (transaction !! "timestamp") as [vts|] eqn:E1.
  2: { unfold add_to_transaction_history, getitem. by rewrite E1. }
  destruct (transaction !! "amount") as [amount|] eqn:E2.
  2: { unfold add_to_transaction_history, getitem. by rewrite E1, E2. }
  destruct (transaction !! "merchant_id") as [merchant_id|] eqn:E3.
  2: { unfold add_to_transaction_history, getitem. by rewrite E1, E2, E3. }
  destruct (existsb is_deep [amount; merchant_id; vts]) eqn:Ed.
  { unfold add_to_transaction_history, getitem. rewrite E1, E2, E3. run.
    by rewrite Ed. }
  assert ((∃ timestamp, vts = PyInt timestamp) ∨ int_val vts = Raise TypeError)
    as [[timestamp ->]|Hno] by (destruct vts; eauto).
  2: { unfold add_to_transaction_history, getitem. rewrite E1, E2, E3. run.
       rewrite Ed. run. by rewrite Hno. }
  cbn [existsb] in Ed. apply orb_false_elim in Ed as [Hda Ed].
  apply orb_false_elim in Ed as [Hdm _].
  rewrite !(history_add_to_transaction_history _ _ _ _ _ _ _ E2 E3 E1 Hda Hdm).
  destruct (decide (0 < ttl)) as [Hpos|Hneg]; [|done].
  set (d := json_dumps _). set (h := history self card_id).
  unfold zremrangebyscore_from_neg_inf, zadd.
  set (F := λ e : member * Z, negb (bool_decide (e.1 = d))).
  set (T := λ e : member * Z, negb (e.2 <=? timestamp - ttl)).
  rewrite (filter_filter_comm F T).
  rewrite (filter_zinsert_out F) by (unfold F; simpl; by rewrite bool_decide_eq_true_2).
  rewrite filter_filter_id.
  rewrite <- (filter_zinsert_in T).
  - by rewrite filter_filter_id.
  - unfold T. simpl. apply negb_true_iff, Z.leb_gt. lia.
  - intros e He. unfold T in He. apply negb_false_iff, Z.leb_le in He. lia.
Qed.

(** X5: the member of the sorted set is the text of amount, merchant and
    timestamp alone. A second transaction of the same card with the same
    three values, whatever its [transaction_id], is not stored a second
    time: the history, and so every transaction count, stays as it
    was. *)
Theorem equal_transactions_are_stored_once self card_id tx1 tx2 ttl :
  tx1 !! "amount" = tx2 !! "amount" →
  tx1 !! "merchant_id" = tx2 !! "merchant_id" →
  tx1 !! "timestamp" = tx2 !! "timestamp" →
  let once := (add_to_transaction_history self card_id tx1 ttl).2 in
  let twice := (add_to_transaction_history once card_id tx2 ttl).2 in
  history twice card_id = history once card_id
  ∧ ∀ w t, get_transaction_history twice card_id w t
           = get_transaction_history once card_id w t.
Proof.
  intros Ha Hm Ht once twice.
  assert (history twice card_id = history once card_id) as Hh.
  2: { split; [done|]. intros w t. by apply get_transaction_history_ext. }
  unfold twice.
  rewrite <- (add_to_transaction_history_ext once card_id tx1 tx2 ttl Ha Hm Ht).
  apply add_to_transaction_history_again.
Qed.

Lemma equal_transactions_are_stored_once_witness :
  let once :=
    (add_to_transaction_history FeatureStore.empty "C1" Scenario.cold_start 86400).2 in
  let twice := (add_to_transaction_history once "C1" Scenario.resent 86400).2 in
  history twice "C1" = history once "C1"
  ∧ ∀ w t, get_transaction_history twice "C1" w t
           = get_transaction_history once "C1" w t.
Proof.
  apply (equal_transactions_are_stored_once
           FeatureStore.empty "C1" Scenario.cold_start Scenario.resent 86400).
  - unfold Scenario.cold_start, Scenario.resent. by rewrite !event_amount.
  - unfold Scenario.cold_start, Scenario.resent. by rewrite !event_merchant_id.
  - unfold Scenario.cold_start, Scenario.resent. by rewrite !event_timestamp.
Defined.

End HistoryWrites.

(** ** The keys of the store *)

Section Keys.
Import FeatureStore Spec.

(** *** The keys *)

(** X6: the three keys of a card are told apart by their endings, the
    keys of two cards by the card identifier, and the key of the card
    features by its prefix: no two of the keys that the store builds are
    ever the same key. *)
Theorem card_keys_never_collide card_id card_id' :
  (stats_key card_id = stats_key card_id' ↔ card_id = card_id')
  ∧ (history_key card_id = history_key card_id' ↔ card_id = card_id')
  ∧ (merchants_key card_id = merchants_key card_id' ↔ card_id = card_id')
  ∧ stats_key card_id ≠ history_key card_id'
  ∧ stats_key card_id ≠ merchants_key card_id'
  ∧ history_key card_id ≠ merchants_key card_id'
  ∧ card_features_key card_id ∉ [stats_key card_id'; history_key card_id';
                                  merchants_key card_id'].
Proof.
  destruct (card_keys_differ card_id card_id') as (K1 & K2 & K3).
  split; [|split; [|split; [|split; [done|split; [done|split; [done|]]]]]].
  - unfold stats_key. split; [|by intros ->].
    intros H. apply (inj (String.append "card:")) in H. by apply string_app_inv_tail in H.
  - unfold history_key. split; [|by intros ->].
    intros H. apply (inj (String.append "card:")) in H. by apply string_app_inv_tail in H.
  - unfold merchants_key. split; [|by intros ->].
    intros H. apply (inj (String.append "card:")) in H. by apply string_app_inv_tail in H.
  - unfold stats_key, history_key, merchants_key, card_features_key.
    rewrite !elem_of_cons, elem_of_nil. intros [H|[H|[H|[]]]]; discriminate H.
Qed.

End Keys.

(** ** One card at a time *)

Section CardIsolation.
Import FeatureStore Spec.

Lemma same_elsewhere_refl card_id s : same_elsewhere card_id s s.
Proof. by split. Qed.

Lemma same_elsewhere_trans card_id s1 s2 s3 :
  same_elsewhere card_id s1 s2 → same_elsewhere card_id s2 s3 →
  same_elsewhere card_id s1 s3.
Proof.
  intros [H1 H2] [H3 H4]. split; [congruence|]. intros c Hc.
  destruct (H2 c Hc) as (? & ? & ?), (H4 c Hc) as (? & ? & ?).
  repeat split; congruence.
Qed.

Lemma merchants_set_merchants self card_id s card_id' :
  merchants (set_merchants self card_id s) card_id'
  = if decide (card_id = card_id') then s else merchants self card_id'.
Proof.
  unfold merchants, set_merchants; simpl. rewrite lookup_insert.
  by destruct (decide (card_id = card_id')).
Qed.

Lemma hget_stats_set_stats self card_id s card_id' :
  hget_stats (set_stats self card_id s) card_id'
  = if decide (card_id = card_id') then s else hget_stats self card_id'.
Proof.
  unfold hget_stats, set_stats; simpl. rewrite lookup_insert.
  by destruct (decide (card_id = card_id')).
Qed.

(** The history writes leave every merchant set as it was. *)
Lemma merchants_add_to_transaction_history_any self card_id transaction ttl card_id' :
  merchants (add_to_transaction_history self card_id transaction ttl).2 card_id'
  = merchants self card_id'.
Proof.
  unfold add_to_transaction_history.
  destruct (_ ← getitem transaction "timestamp"; _) as [[tx_data timestamp]|]; [|done].
  cbn [snd]. change (merchants (set_history ?s _ _) ?c) with (merchants s c).
  rewrite merchants_expire_other; [done|].
  apply (card_keys_differ card_id card_id').
Qed.

Lemma merchant_features_add_to_transaction_history self card_id transaction ttl :
  merchant_features (add_to_transaction_history self card_id transaction ttl).2
  = merchant_features self.
Proof.
  unfold add_to_transaction_history.
  destruct (_ ← getitem transaction "timestamp"; _) as [[tx_data timestamp]|]; [|done].
  cbn [snd]. change (merchant_features (set_history ?s _ _)) with (merchant_features s).
  by rewrite merchant_features_expire.
Qed.

Lemma add_to_transaction_history_elsewhere self card_id transaction ttl :
  same_elsewhere card_id self (add_to_transaction_history self card_id transaction ttl).2.
Proof.
  split; [apply merchant_features_add_to_transaction_history|].
  intros c Hc. split; [by apply history_add_to_transaction_history_ne|].
  split; [|apply hget_stats_add_to_transaction_history].
  apply merchants_add_to_transaction_history_any.
Qed.

(** The merchant set of the card after [add_merchant_to_set]. *)
Lemma merchants_add_merchant_to_set self card_id merchant_id ttl :
  merchants (add_merchant_to_set self card_id merchant_id ttl).2 card_id
  = if decide (0 < ttl) then {[ merchant_id ]} ∪ merchants self card_id else ∅.
Proof.
  unfold add_merchant_to_set. cbn [snd]. rewrite merchants_expire.
  destruct (decide (0 < ttl)), (decide (_ ∧ _)) as [[]|Hn]; try lia; try done.
  - rewrite merchants_set_merchants. by destruct (decide _).
  - destruct Hn. split; [lia|done].
Qed.

Lemma history_add_merchant_to_set self card_id merchant_id ttl card_id' :
  history (add_merchant_to_set self card_id merchant_id ttl).2 card_id'
  = history self card_id'.
Proof.
  unfold add_merchant_to_set. cbn [snd].
  rewrite history_expire_other; [done|].
  intros H. destruct (card_keys_differ card_id' card_id) as (_ & _ & K). by apply K.
Qed.

Lemma add_merchant_to_set_elsewhere self card_id merchant_id ttl :
  same_elsewhere card_id self (add_merchant_to_set self card_id merchant_id ttl).2.
Proof.
  split.
  - unfold add_merchant_to_set. cbn [snd]. by rewrite merchant_features_expire.
  - intros c Hc. split; [apply history_add_merchant_to_set|].
    split; [|apply hget_stats_add_merchant_to_set].
    unfold add_merchant_to_set. cbn [snd].
    rewrite merchants_expire_other by (by intros H%merchants_key_inj).
    rewrite merchants_set_merchants. by destruct (decide _).
Qed.

Lemma update_rolling_average_elsewhere self card_id amount alpha :
  same_elsewhere card_id self (update_rolling_average self card_id amount alpha).2.
Proof.
  split; [done|]. intros c Hc. split; [done|]. split; [done|].
  unfold update_rolling_average. simpl.
  change (hget_stats (expire ?s _ _) c) with (hget_stats s c).
  rewrite hget_stats_set_stats. by destruct (decide _).
Qed.

Lemma update_last_transaction_timestamp_elsewhere self card_id timestamp :
  same_elsewhere card_id self (update_last_transaction_timestamp self card_id timestamp).2.
Proof.
  split; [done|]. intros c Hc. split; [done|]. split; [done|].
  unfold update_last_transaction_timestamp. simpl.
  change (hget_stats (expire ?s _ _) c) with (hget_stats s c).
  rewrite hget_stats_set_stats. by destruct (decide _).
Qed.

(** The four writes of [update_card_state], one after the other. *)
Lemma update_card_state_steps self store card_id transaction store' :
  FeatureExtractor.update_card_state self store card_id transaction = Return store' →
  ∃ amount merchant_id timestamp s1 s2 s3,
    transaction !! "amount" = Some amount
    ∧ transaction !! "merchant_id" = Some merchant_id
    ∧ transaction !! "timestamp" = Some timestamp
    ∧ s1 = (add_to_transaction_history store card_id transaction 86400).2
    ∧ s2 = match str_val merchant_id with
           | Return m => (add_merchant_to_set s1 card_id m 86400).2
           | Raise _ => s1
           end
    ∧ s3 = match number_val amount with
           | Return a =>
               (update_rolling_average
                  s2 card_id a (FeatureExtractor.rolling_avg_alpha self)).2
           | Raise _ => s2
           end
    ∧ store' = match int_val timestamp with
               | Return ts => (update_last_transaction_timestamp s3 card_id ts).2
               | Raise _ => s3
               end.
Proof.
  unfold FeatureExtractor.update_card_state, getitem.
  destruct (transaction !! "timestamp") as [timestamp|]; [|done].
  destruct (transaction !! "amount") as [amount|]; [|done].
  destruct (transaction !! "merchant_id") as [merchant_id|]; [|done].
  run. intros H.
  exists amount, merchant_id, timestamp. do 3 eexists.
  do 3 (split; [done|]). split; [done|]. split; [done|]. split; [done|].
  revert H.
  destruct (add_to_transaction_history store card_id transaction 86400) as [ok1 s1].
  simpl.
  destruct (str_val merchant_id) as [m|]; simpl;
    destruct (number_val amount) as [a|]; simpl;
    destruct (int_val timestamp) as [ts|]; simpl; by intros [= <-].
Qed.

(** X7: the writes for one card leave every other card as it was: its
    history, its merchant set and its statistics, and the merchant
    features, are unchanged. *)
Theorem update_card_state_touches_one_card self store card_id transaction store' card_id' :
  FeatureExtractor.update_card_state self store card_id transaction = Return store' →
  card_id ≠ card_id' →
  history store' card_id' = history store card_id'
  ∧ merchants store' card_id' = merchants store card_id'
  ∧ get_rolling_average store' card_id' = get_rolling_average store card_id'
  ∧ get_last_transaction_timestamp store' card_id'
    = get_last_transaction_timestamp store card_id'
  ∧ merchant_features store' = merchant_features store.
Proof.
  intros H Hne.
  apply update_card_state_steps in H
    as (amount & merchant_id & timestamp & s1 & s2 & s3 & _ & _ & _ & E1 & E2 & E3 & E4).
  assert (same_elsewhere card_id store s1) as H1
    by (subst s1; apply add_to_transaction_history_elsewhere).
  assert (same_elsewhere card_id s1 s2) as H2.
  { subst s2. destruct (str_val merchant_id);
      [apply add_merchant_to_set_elsewhere|apply same_elsewhere_refl]. }
  assert (same_elsewhere card_id s2 s3) as H3.
  { subst s3. destruct (number_val amount);
      [apply update_rolling_average_elsewhere|apply same_elsewhere_refl]. }
  assert (same_elsewhere card_id s3 store') as H4.
  { subst store'. destruct (int_val timestamp);
      [apply update_last_transaction_timestamp_elsewhere|apply same_elsewhere_refl]. }
  pose proof (same_elsewhere_trans _ _ _ _
                (same_elsewhere_trans _ _ _ _
                   (same_elsewhere_trans _ _ _ _ H1 H2) H3) H4) as [Hm H].
  destruct (H card_id' Hne) as (Hh & Hs & Hst).
  unfold get_rolling_average, get_last_transaction_timestamp. rewrite Hst. done.
Qed.

Lemma update_card_state_touches_one_card_witness :
  history Scenario.warm "C2" = history FeatureStore.empty "C2"
  ∧ merchants Scenario.warm "C2" = merchants FeatureStore.empty "C2"
  ∧ get_rolling_average Scenario.warm "C2"
    = get_rolling_average FeatureStore.empty "C2"
  ∧ get_last_transaction_timestamp Scenario.warm "C2"
    = get_last_transaction_timestamp FeatureStore.empty "C2"
  ∧ merchant_features Scenario.warm = merchant_features FeatureStore.empty.
Proof.
  apply (update_card_state_touches_one_card
           Scenario.extractor FeatureStore.empty "C1" Scenario.ready Scenario.warm "C2").
  - apply update_card_state_ready.
  - discriminate.
Defined.

(** *** The merchant set *)

(** X8: with a positive time to live, the merchant set counts a merchant
    once: adding a merchant that is already there leaves the count as it
    was, adding a new one raises it by one, and in both cases the
    merchant is in the set afterwards. With a time to live that is not
    positive the set is deleted and the count is zero. *)
Theorem add_merchant_to_set_counts_once store card_id merchant_id ttl w :
  let store' := (add_merchant_to_set store card_id merchant_id ttl).2 in
  (0 < ttl →
   merchant_id ∈ merchants store' card_id
   ∧ get_unique_merchant_count store' card_id w
     = get_unique_merchant_count store card_id w
       + (if bool_decide (merchant_id ∈ merchants store card_id) then 0 else 1)
   ∧ get_unique_merchant_count
       (add_merchant_to_set store' card_id merchant_id ttl).2 card_id w
     = get_unique_merchant_count store' card_id w)
  ∧ (ttl ≤ 0 →
     merchants store' card_id = ∅
     ∧ get_unique_merchant_count store' card_id w = 0).
Proof.
  intros store'. unfold get_unique_merchant_count, store'.
  rewrite !merchants_add_merchant_to_set. split.
  - intros Httl. destruct (decide (0 < ttl)); [|done].
    split; [by apply elem_of_union_l, elem_of_singleton|]. split.
    + destruct (bool_decide_reflect (merchant_id ∈ merchants store card_id)) as [Hin|Hout].
      * rewrite (subseteq_union_1_L {[merchant_id]} (merchants store card_id))
          by (by apply singleton_subseteq_l).
        lia.
      * rewrite size_union by (by apply disjoint_singleton_l).
        rewrite size_singleton. lia.
    + by rewrite (assoc_L (∪)), union_idemp_L.
  - intros Httl. destruct (decide (0 < ttl)); [lia|]. by rewrite size_empty.
Qed.

Lemma add_merchant_to_set_counts_once_witness :
  let store' := (add_merchant_to_set FeatureStore.empty "C1" "M1" 86400).2 in
  "M1" ∈ merchants store' "C1"
  ∧ get_unique_merchant_count store' "C1" 86400
    = get_unique_merchant_count FeatureStore.empty "C1" 86400
      + (if bool_decide ("M1" ∈ merchants FeatureStore.empty "C1") then 0 else 1)
  ∧ get_unique_merchant_count
      (add_merchant_to_set store' "C1" "M1" 86400).2 "C1" 86400
    = get_unique_merchant_count store' "C1" 86400.
Proof.
  apply (add_merchant_to_set_counts_once FeatureStore.empty "C1" "M1" 86400 86400).
  reflexivity.
Defined.

End CardIsolation.

(** ** The velocity windows *)

Section VelocityWindows.
Import FeatureStore Spec FeatureExtractor.

Lemma readable_shorter store card_id w1 w2 t :
  w1 ≤ w2 →
  readable store card_id (t - w2) t → readable store card_id (t - w1) t.
Proof. intros Hw H tx_data score Hin Hb. apply (H _ _ Hin). lia. Qed.

Lemma get_transaction_history_sublist store card_id w1 w2 t :
  w1 ≤ w2 →
  readable store card_id (t - w2) t →
  get_transaction_history store card_id w1 t
    `sublist_of` get_transaction_history store card_id w2 t.
Proof.
  intros Hw Hr.
  rewrite (get_transaction_history_omap _ _ w2) by done.
  rewrite (get_transaction_history_omap _ _ w1) by by apply (readable_shorter _ _ w1 w2).
  unfold zrangebyscore. clear Hr.
  induction (history store card_id) as [|[m s] z IH]; simpl; [done|].
  destruct ((t - w1 <=? s) && (s <=? t)) eqn:E1.
  - assert ((t - w2 <=? s) && (s <=? t) = true) as -> by lia.
    rewrite !fmap_cons. simpl. destruct (decoded m); [by apply sublist_skip|done].
  - destruct ((t - w2 <=? s) && (s <=? t)); [|done].
    rewrite fmap_cons. simpl. destruct (decoded m); [by apply sublist_cons|done].
Qed.

Lemma get_transaction_history_unreadable store card_id w t :
  ¬ readable store card_id (t - w) t →
  get_transaction_history store card_id w t = [].
Proof.
  intros H. rewrite get_transaction_history_cases.
  destruct (existsb aborts _) eqn:E; [done|].
  by apply existsb_aborts_false in E.
Qed.

(** What the loop over the configured windows leaves in the features. *)
Lemma velocity_loop_counts store card_id t features :
  velocity_loop store card_id t
    [("10m", 600); ("1h", 3600); ("24h", 86400)] ∅ = Return features →
  features !! "tx_count_10m"
  = Some (PyInt (Z.of_nat (length (get_transaction_history store card_id 600 t))))
  ∧ features !! "tx_count_1h"
    = Some (PyInt (Z.of_nat (length (get_transaction_history store card_id 3600 t))))
  ∧ features !! "tx_count_24h"
    = Some (PyInt (Z.of_nat (length (get_transaction_history store card_id 86400 t)))).
Proof.
  cbn [velocity_loop].
  destruct (py_sum (_ <$> get_transaction_history store card_id 600 t))
    as [total1|]; run; [|done].
  destruct (py_round total1 2) as [r1|]; run; [|done].
  destruct (py_sum (_ <$> get_transaction_history store card_id 3600 t))
    as [total2|]; run; [|done].
  destruct (py_round total2 2) as [r2|]; run; [|done].
  destruct (py_sum (_ <$> get_transaction_history store card_id 86400 t))
    as [total3|]; run; [|done].
  destruct (py_round total3 2) as [r3|]; run; [|done].
  intros [= <-].
  change ("tx_count_" +:+ "10m") with "tx_count_10m".
  change ("tx_count_" +:+ "1h") with "tx_count_1h".
  change ("tx_count_" +:+ "24h") with "tx_count_24h".
  change ("total_amount_" +:+ "10m") with "total_amount_10m".
  change ("total_amount_" +:+ "1h") with "total_amount_1h".
  change ("total_amount_" +:+ "24h") with "total_amount_24h".
  repeat split; by lookup_inserts.
Qed.

(** X9: where no member in the longer window makes [json.loads] raise
    an exception other than [JSONDecodeError], a shorter window returns
    a part of what the longer window returns at the same time, in the
    same order; so, for such a 24-hour window, the three transaction
    counts that the extractor reports never decrease from 10 minutes to
    1 hour to 24 hours. A window with such a member returns nothing. *)
Theorem velocity_counts_grow_with_the_window store card_id t :
  (∀ w1 w2, w1 ≤ w2 →
     readable store card_id (t - w2) t →
     get_transaction_history store card_id w1 t
       `sublist_of` get_transaction_history store card_id w2 t)
  ∧ (readable store card_id (t - 86400) t →
     ∀ features,
       _compute_velocity_features (init Config.FEATURE_CONFIG) store card_id t
       = Return features →
       ∃ n10m n1h n24h,
         features !! "tx_count_10m" = Some (PyInt n10m)
         ∧ features !! "tx_count_1h" = Some (PyInt n1h)
         ∧ features !! "tx_count_24h" = Some (PyInt n24h)
         ∧ 0 ≤ n10m ≤ n1h ∧ n1h ≤ n24h)
  ∧ (∀ w, ¬ readable store card_id (t - w) t →
          get_transaction_history store card_id w t = []).
Proof.
  split; [intros w1 w2; apply get_transaction_history_sublist|].
  split; [|intros w; apply get_transaction_history_unreadable].
  intros Hr features. unfold _compute_velocity_features.
  change (velocity_windows (init Config.FEATURE_CONFIG))
    with [("10m", 600); ("1h", 3600); ("24h", 86400)].
  destruct (velocity_loop _ _ _ _ _) as [f|] eqn:E; run; [|done].
  apply velocity_loop_counts in E as (H1 & H2 & H3).
  cbn [window]. rewrite !bool_decide_eq_false_2 by discriminate.
  rewrite bool_decide_eq_true_2 by done. run.
  intros [= <-]. do 3 eexists.
  rewrite !lookup_insert_ne by discriminate. rewrite H1, H2, H3.
  do 3 (split; [done|]).
  pose proof (sublist_length _ _
    (get_transaction_history_sublist store card_id 600 3600 t ltac:(lia)
       (readable_shorter _ _ 3600 86400 t ltac:(lia) Hr))).
  pose proof (sublist_length _ _
    (get_transaction_history_sublist store card_id 3600 86400 t ltac:(lia) Hr)).
  lia.
Qed.

Lemma velocity_counts_grow_with_the_window_witness :
  get_transaction_history Scenario.day_old "C1" 600 1707580000
    `sublist_of` get_transaction_history Scenario.day_old "C1" 86400 1707580000.
Proof.
  apply (proj1 (velocity_counts_grow_with_the_window Scenario.day_old "C1" 1707580000)).
  - lia.
  - intros tx_data score. unfold Scenario.day_old.
    rewrite history_set_history. destruct (decide ("C1" = "C1")); [|done].
    rewrite list_elem_of_singleton. by intros [= -> ->].
Defined.


Lemma get_last_transaction_timestamp_update self card_id timestamp :
  get_last_transaction_timestamp
    (update_last_transaction_timestamp self card_id timestamp).2 card_id
  = Some timestamp.
Proof.
  unfold get_last_transaction_timestamp, update_last_transaction_timestamp. simpl.
  change (hget_stats (expire ?s _ _) card_id) with (hget_stats s card_id).
  rewrite hget_stats_set_stats. by destruct (decide _).
Qed.



End VelocityWindows.

(** ** The feature vector *)

Section FeatureVector.
Import FeatureStore Spec FeatureExtractor.

(** *** Local time *)

Lemma fromtimestamp_Return py timestamp dt :
  fromtimestamp py timestamp = Return dt →
  dt = timestamp + utcoffset py timestamp
  ∧ -62135510400 ≤ dt ≤ 253402300799.
Proof.
  unfold fromtimestamp.
  destruct (negb _); [done|]. destruct (negb _); [done|].
  destruct ((-62135510400 <=? _) && _) eqn:E; [|done].
  intros [= <-]. split; [done|]. lia.
Qed.

(** In the range of timestamps that the preprocessor accepts the local
    time exists. *)
Lemma fromtimestamp_in_range py timestamp :
  946684800 ≤ timestamp ≤ 4102444800 →
  fromtimestamp py timestamp = Return (timestamp + utcoffset py timestamp).
Proof.
  intros H. pose proof (utcoffset_within_a_day py timestamp) as Ho.
  unfold fromtimestamp.
  assert ((- 2 ^ 63 <=? timestamp) && (timestamp <? 2 ^ 63) = true) as -> by lia.
  assert ((-67768040609740800 <=? timestamp) && (timestamp <? 67768036191676800) = true)
    as -> by lia.
  cbn [negb].
  assert ((-62135510400 <=? timestamp + utcoffset py timestamp)
          && (timestamp + utcoffset py timestamp <=? 253402300799) = true) as -> by lia.
  done.
Qed.

Lemma fromtimestamp_out_of_range py timestamp :
  timestamp + utcoffset py timestamp < -62135510400
  ∨ 253402300799 < timestamp + utcoffset py timestamp →
  returns (fromtimestamp py timestamp) = false.
Proof.
  intros H. unfold fromtimestamp.
  destruct (negb _); [done|]. destruct (negb _); [done|].
  assert ((-62135510400 <=? timestamp + utcoffset py timestamp)
          && (timestamp + utcoffset py timestamp <=? 253402300799) = false) as -> by lia.
  done.
Qed.

(** X11: where [datetime.fromtimestamp] returns, whatever the time zone,
    the hour of the day is between 0 and 23 and the day of the week
    between 0 and 6; the weekend flag is set exactly on days 5 and 6, and
    the night flag exactly for the hours from 22 to 5. It returns for
    every timestamp that the preprocessor accepts, and it raises, so that
    there are no features, when the local time is before the second day
    of the year 1 or after the year 9999. *)
Theorem temporal_features_are_in_range py timestamp :
  (946684800 ≤ timestamp ≤ 4102444800 →
   returns (_compute_temporal_features py timestamp) = true)
  ∧ (∀ features,
       _compute_temporal_features py timestamp = Return features →
       ∃ hour day_of_week,
         features
         = {[ "hour_of_day" := PyInt hour;
              "day_of_week" := PyInt day_of_week;
              "is_weekend" := PyInt (if bool_decide (day_of_week = 5 ∨ day_of_week = 6)
                                     then 1 else 0);
              "is_night" := PyInt (if bool_decide (22 ≤ hour ∨ hour ≤ 5) then 1 else 0) ]}
         ∧ 0 ≤ hour ≤ 23
         ∧ 0 ≤ day_of_week ≤ 6)
  ∧ (timestamp + utcoffset py timestamp < -62135510400
     ∨ 253402300799 < timestamp + utcoffset py timestamp →
     returns (_compute_temporal_features py timestamp) = false).
Proof.
  unfold _compute_temporal_features. split; [|split].
  - intros H. by rewrite (fromtimestamp_in_range py timestamp H).
  - destruct (fromtimestamp py timestamp) as [local|]; run; [|done].
    intros features [= <-].
    set (hour := (local `mod` 86400) `div` 3600).
    set (day_of_week := (local `div` 86400 + 3) `mod` 7).
    assert (0 ≤ hour ≤ 23) as Hh.
    { pose proof (Z.mod_pos_bound local 86400 ltac:(lia)). unfold hour.
      split; [apply Z.div_pos; lia|].
      assert ((local `mod` 86400) `div` 3600 < 24)
        by (apply Z.div_lt_upper_bound; lia).
      lia. }
    assert (0 ≤ day_of_week ≤ 6) as Hd.
    { pose proof (Z.mod_pos_bound (local `div` 86400 + 3) 7 ltac:(lia)).
      unfold day_of_week. lia. }
    exists hour, day_of_week. split; [|done].
    assert ((5 <=? day_of_week) = bool_decide (day_of_week = 5 ∨ day_of_week = 6)) as ->.
    { destruct (bool_decide_reflect (day_of_week = 5 ∨ day_of_week = 6)); lia. }
    assert ((22 <=? hour) || (hour <? 6) = bool_decide (22 ≤ hour ∨ hour ≤ 5)) as ->.
    { destruct (bool_decide_reflect (22 ≤ hour ∨ hour ≤ 5)); lia. }
    done.
  - intros H. apply fromtimestamp_out_of_range in H.
    by destruct (fromtimestamp py timestamp).
Qed.

Lemma temporal_features_are_in_range_witness :
  returns (_compute_temporal_features Scenario.utc 1707580000) = true.
Proof.
  apply (proj1 (temporal_features_are_in_range Scenario.utc 1707580000)). lia.
Defined.

(** *** The keys of the feature vector *)

Lemma dom_update (features d : dict) :
  dom (update features d) = dom d ∪ dom features.
Proof. unfold update. by rewrite dom_union_L. Qed.

Lemma dom__compute_transaction_features py transaction features :
  _compute_transaction_features py transaction = Return features →
  dom features = {[ "amount"; "amount_log"; "merchant_category"; "has_location" ]}.
Proof.
  unfold _compute_transaction_features.
  destruct (getitem transaction "amount") as [amount|]; run; [|done].
  destruct (number_val amount) as [value|]; run; [|done].
  intros [= <-]. rewrite !dom_insert_L, dom_singleton_L.
  apply set_eq. intros k. rewrite !elem_of_union, !elem_of_singleton. tauto.
Qed.

Lemma dom__compute_velocity_features store card_id t features :
  _compute_velocity_features (init Config.FEATURE_CONFIG) store card_id t
  = Return features →
  dom features
  = {[ "tx_count_10m"; "total_amount_10m"; "tx_count_1h"; "total_amount_1h";
       "tx_count_24h"; "total_amount_24h"; "unique_merchants_24h";
       "time_since_last_tx" ]}.
Proof.
  unfold _compute_velocity_features.
  change (velocity_windows (init Config.FEATURE_CONFIG))
    with [("10m", 600); ("1h", 3600); ("24h", 86400)].
  cbn [velocity_loop].
  destruct (py_sum (_ <$> get_transaction_history store card_id 600 t))
    as [total1|]; run; [|done].
  destruct (py_round total1 2) as [r1|]; run; [|done].
  destruct (py_sum (_ <$> get_transaction_history store card_id 3600 t))
    as [total2|]; run; [|done].
  destruct (py_round total2 2) as [r2|]; run; [|done].
  destruct (py_sum (_ <$> get_transaction_history store card_id 86400 t))
    as [total3|]; run; [|done].
  destruct (py_round total3 2) as [r3|]; run; [|done].
  cbn [window]. rewrite !bool_decide_eq_false_2 by discriminate.
  rewrite bool_decide_eq_true_2 by done. run.
  intros [= <-].
  change ("tx_count_" +:+ "10m") with "tx_count_10m".
  change ("tx_count_" +:+ "1h") with "tx_count_1h".
  change ("tx_count_" +:+ "24h") with "tx_count_24h".
  change ("total_amount_" +:+ "10m") with "total_amount_10m".
  change ("total_amount_" +:+ "1h") with "total_amount_1h".
  change ("total_amount_" +:+ "24h") with "total_amount_24h".
  rewrite !dom_insert_L, dom_empty_L.
  apply set_eq. intros k. rewrite !elem_of_union, !elem_of_singleton, elem_of_empty. tauto.
Qed.

Lemma dom__compute_rolling_features self store card_id amount :
  dom (_compute_rolling_features self store card_id amount)
  = {[ "avg_tx_amount_30d"; "amount_deviation"; "amount_vs_avg_ratio" ]}.
Proof.
  unfold _compute_rolling_features. rewrite !dom_insert_L, dom_singleton_L.
  apply set_eq. intros k. rewrite !elem_of_union, !elem_of_singleton. tauto.
Qed.

Lemma dom__compute_temporal_features py timestamp features :
  _compute_temporal_features py timestamp = Return features →
  dom features = {[ "hour_of_day"; "day_of_week"; "is_weekend"; "is_night" ]}.
Proof.
  unfold _compute_temporal_features.
  destruct (fromtimestamp py timestamp) as [dt|]; run; [|done].
  intros [= <-]. rewrite !dom_insert_L, dom_singleton_L.
  apply set_eq. intros k. rewrite !elem_of_union, !elem_of_singleton. tauto.
Qed.

Lemma dom_get_merchant_features store merchant_id :
  dom (get_merchant_features store merchant_id)
  = {[ "risk_score"; "fraud_rate"; "total_transactions" ]}.
Proof.
  unfold get_merchant_features, _get_default_merchant_features.
  destruct (merchant_features store !! merchant_id);
    rewrite !dom_insert_L, dom_singleton_L;
    apply set_eq; intros k; rewrite !elem_of_union, !elem_of_singleton; tauto.
Qed.

(** X12: the feature vector has the same 22 keys for every transaction and
    every state of the store: the merchant features enter under the
    prefix [merchant_] and overwrite none of the others. *)
Theorem extract_features_has_22_keys py store transaction features :
  extract_features py (init Config.FEATURE_CONFIG) store transaction = Return features →
  dom features
  = {[ "amount"; "amount_log"; "merchant_category"; "has_location";
       "tx_count_10m"; "total_amount_10m"; "tx_count_1h"; "total_amount_1h";
       "tx_count_24h"; "total_amount_24h"; "unique_merchants_24h";
       "time_since_last_tx";
       "avg_tx_amount_30d"; "amount_deviation"; "amount_vs_avg_ratio";
       "hour_of_day"; "day_of_week"; "is_weekend"; "is_night";
       "merchant_risk_score"; "merchant_fraud_rate";
       "merchant_total_transactions" ]}
  ∧ size (dom features) = 22%nat.
Proof.
  unfold extract_features.
  destruct (getitem transaction "card_id") as [v1|]; run; [|done].
  destruct (str_val v1) as [card_id|]; run; [|done].
  destruct (getitem transaction "merchant_id") as [v2|]; run; [|done].
  destruct (str_val v2) as [merchant_id|]; run; [|done].
  destruct (getitem transaction "amount") as [v3|]; run; [|done].
  destruct (number_val v3) as [amount|]; run; [|done].
  destruct (getitem transaction "timestamp") as [v4|]; run; [|done].
  destruct (int_val v4) as [timestamp|]; run; [|done].
  destruct (_compute_transaction_features py transaction) as [f1|] eqn:E1; run; [|done].
  destruct (_compute_velocity_features _ _ _ _) as [f2|] eqn:E2; run; [|done].
  destruct (_compute_temporal_features py timestamp) as [f3|] eqn:E3; run; [|done].
  destruct (getitem transaction "transaction_id") as [v5|]; run; [|done].
  intros [= Hf].
  apply dom__compute_transaction_features in E1.
  apply dom__compute_velocity_features in E2.
  apply dom__compute_temporal_features in E3.
  assert (dom features = {[ "amount"; "amount_log"; "merchant_category"; "has_location";
       "tx_count_10m"; "total_amount_10m"; "tx_count_1h"; "total_amount_1h";
       "tx_count_24h"; "total_amount_24h"; "unique_merchants_24h";
       "time_since_last_tx";
       "avg_tx_amount_30d"; "amount_deviation"; "amount_vs_avg_ratio";
       "hour_of_day"; "day_of_week"; "is_weekend"; "is_night";
       "merchant_risk_score"; "merchant_fraud_rate";
       "merchant_total_transactions" ]}) as Hdom.
  { rewrite <- Hf.
    assert (Inj eq eq (λ k : string, "merchant_" +:+ k))
      by (intros x y H; by apply (inj (String.append "merchant_")) in H).
    rewrite !dom_update, dom_kmap_L, dom_get_merchant_features; [|exact H].
    rewrite dom__compute_rolling_features, E1, E2, E3.
    rewrite dom_empty_L, !set_map_union_L, !set_map_singleton_L.
    change ("merchant_" +:+ "risk_score") with "merchant_risk_score".
    change ("merchant_" +:+ "fraud_rate") with "merchant_fraud_rate".
    change ("merchant_" +:+ "total_transactions") with "merchant_total_transactions".
    apply set_eq. intros k.
    rewrite !elem_of_union, !elem_of_singleton, elem_of_empty. tauto. }
  split; [exact Hdom|]. rewrite Hdom. by vm_compute.
Qed.

Lemma extract_features_has_22_keys_witness :
  ∃ features,
    extract_features Scenario.utc (init Config.FEATURE_CONFIG)
      FeatureStore.empty Scenario.ready
    = Return features
    ∧ size (dom features) = 22%nat.
Proof.
  destruct (extract_features Scenario.utc (init Config.FEATURE_CONFIG)
              FeatureStore.empty Scenario.ready) as [features|] eqn:E.
  - exists features. split; [done|].
    apply (extract_features_has_22_keys _ _ _ _ E).
  - assert (returns (extract_features Scenario.utc (init Config.FEATURE_CONFIG)
                       FeatureStore.empty Scenario.ready) = true)
      as Hr by (vm_compute; reflexivity).
    rewrite E in Hr. discriminate Hr.
Defined.

End FeatureVector.

(** ** The writes for a transaction *)

Section CardState.
Import FeatureStore Spec FeatureExtractor.






Lemma update_card_state_typed self store card_id transaction amount merchant_id timestamp :
  transaction !! "amount" = Some (PyFloat amount) →
  transaction !! "merchant_id" = Some (PyStr merchant_id) →
  transaction !! "timestamp" = Some (PyInt timestamp) →
  ∃ store',
    update_card_state self store card_id transaction = Return store'
    ∧ get_last_transaction_timestamp store' card_id = Some timestamp.
Proof.
  intros Ha Hm Ht.
  destruct (update_card_state self store card_id transaction) as [store'|] eqn:E.
  2: { revert E. unfold update_card_state, getitem. rewrite Ha, Hm, Ht. run.
       by destruct (add_to_transaction_history _ _ _ _). }
  exists store'. split; [done|].
  apply update_card_state_steps in E
    as (va & vm & vt & s1 & s2 & s3 & Ha' & Hm' & Ht' & E1 & E2 & E3 & E4).
  rewrite Ht in Ht'. injection Ht' as <-.
  cbn [int_val] in *.
  subst store'. apply get_last_transaction_timestamp_update.
Qed.



End CardState.

(** ** From a message to the store *)

Section Pipeline.
Import FeatureStore Preprocessor Consumer Spec.

(** *** Sums of float amounts *)

Lemma py_sum_floats (values : list py_value) :
  (∀ v, v ∈ values → ∃ a, v = PyFloat a) →
  ∃ total, py_sum values = Return total
           ∧ (total = PyInt 0 ∨ ∃ a, total = PyFloat a).
Proof.
  unfold py_sum.
  assert (∀ acc, (acc = PyInt 0 ∨ ∃ a, acc = PyFloat a) →
            (∀ v, v ∈ values → ∃ a, v = PyFloat a) →
            ∃ total,
              foldl (λ acc v, total ← acc; py_add total v) (Return acc) values
              = Return total
              ∧ (total = PyInt 0 ∨ ∃ a, total = PyFloat a)) as H.
  { induction values as [|v values IH]; intros acc Hacc Hv; simpl.
    - by exists acc.
    - destruct (Hv v) as [a ->]; [by left|].
      assert (∃ b, py_add acc (PyFloat a) = Return (PyFloat b)) as [b Hb].
      { destruct Hacc as [->|[c ->]]; simpl; eauto. }
      run. rewrite Hb. apply IH; [eauto|]. intros w Hw. apply Hv. by right. }
  intros Hv. apply H; [by left|done].
Qed.

Lemma py_round_total total :
  total = PyInt 0 ∨ (∃ a, total = PyFloat a) →
  ∃ rounded, py_round total 2 = Return rounded.
Proof. intros [->|[a ->]]; simpl; eauto. Qed.

Lemma history_amounts store card_id w t :
  amounts_are_floats store →
  ∀ v, v ∈ (λ tx : dict, default (PyInt 0) (tx !! "amount"))
             <$> get_transaction_history store card_id w t →
       ∃ a, v = PyFloat a.
Proof.
  intros Hinv v. rewrite list_elem_of_fmap. intros (tx & -> & Hin).
  apply elem_of_get_transaction_history in Hin as (score & Hin & _).
  destruct (Hinv card_id tx score Hin) as [a ->]. by exists a.
Qed.

Lemma _compute_velocity_features_returns store card_id t :
  amounts_are_floats store →
  ∃ features,
    FeatureExtractor._compute_velocity_features
      (FeatureExtractor.init Config.FEATURE_CONFIG) store card_id t
    = Return features.
Proof.
  intros Hinv. unfold FeatureExtractor._compute_velocity_features.
  change (FeatureExtractor.velocity_windows (FeatureExtractor.init Config.FEATURE_CONFIG))
    with [("10m", 600); ("1h", 3600); ("24h", 86400)].
  cbn [FeatureExtractor.velocity_loop].
  destruct (py_sum_floats _ (history_amounts store card_id 600 t Hinv)) as (t1 & -> & H1).
  run. destruct (py_round_total _ H1) as [r1 ->]. run.
  destruct (py_sum_floats _ (history_amounts store card_id 3600 t Hinv)) as (t2 & -> & H2).
  run. destruct (py_round_total _ H2) as [r2 ->]. run.
  destruct (py_sum_floats _ (history_amounts store card_id 86400 t Hinv)) as (t3 & -> & H3).
  run. destruct (py_round_total _ H3) as [r3 ->]. run.
  cbn [FeatureExtractor.window]. rewrite !bool_decide_eq_false_2 by discriminate.
  rewrite bool_decide_eq_true_2 by done. run. eauto.
Qed.

(** On a history of float amounts the extractor takes every record that
    the preprocessor returns. *)
Lemma extract_features_returns py p store message tx :
  amounts_are_floats store →
  preprocess py (Preprocessor.init p) message = Return tx →
  ∃ features,
    FeatureExtractor.extract_features
      py (FeatureExtractor.init Config.FEATURE_CONFIG) store tx
    = Return features.
Proof.
  intros Hinv Hp.
  apply preprocess_Return in Hp as [Hp _].
  destruct (transaction_id_is_text _ _ Hp) as [tid Htid].
  destruct (card_id_is_text _ _ Hp) as [cid Hcid].
  destruct (merchant_id_is_text _ _ Hp) as [mid Hmid].
  destruct (amount_is_normalized _ _ Hp) as (b & Hb & _).
  destruct (timestamp_in_range _ _ Hp) as (ts & Hts & Hrange).
  unfold FeatureExtractor.extract_features,
    FeatureExtractor._compute_transaction_features,
    FeatureExtractor._compute_temporal_features, getitem.
  rewrite Hcid, Hmid, Hb, Hts, Htid. run. cbn [str_val number_val int_val]. run.
  destruct (_compute_velocity_features_returns store cid ts Hinv) as [f ->]. run.
  rewrite (fromtimestamp_in_range py ts Hrange). run.
  eauto.
Qed.

Lemma amounts_are_floats_empty : amounts_are_floats FeatureStore.empty.
Proof. intros card_id d score H. by apply elem_of_nil in H. Qed.

Lemma update_card_state_keeps_amounts self store card_id transaction amount store' :
  amounts_are_floats store →
  transaction !! "amount" = Some (PyFloat amount) →
  FeatureExtractor.update_card_state self store card_id transaction = Return store' →
  amounts_are_floats store'.
Proof.
  intros Hinv Ha Hu.
  apply update_card_state_steps in Hu
    as (va & vm & vt & s1 & s2 & s3 & Ha' & Hm & Ht & E1 & E2 & E3 & E4).
  rewrite Ha in Ha'. injection Ha' as <-.
  assert (∀ c, history store' c = history s1 c) as Hh.
  { intros c. subst store' s3 s2.
    by destruct (int_val vt), (number_val (PyFloat amount)), (str_val vm). }
  intros c d score. rewrite Hh, E1. intros Hin.
  apply elem_of_history_add_to_transaction_history in Hin
    as [Hin|(-> & a & m & ts & Ha' & _ & _ & Heq)].
  - by apply (Hinv c d score).
  - rewrite Ha in Ha'. injection Ha' as <-.
    unfold json_dumps in Heq. injection Heq as -> ->.
    exists amount. lookup_literal.
Qed.

(** Whether a message is counted as processed, and what it leaves in the
    store. *)
Lemma _process_message_accepted py self message p tx :
  feature_extractor self = FeatureExtractor.init Config.FEATURE_CONFIG →
  preprocessor self = Preprocessor.init p →
  amounts_are_floats (feature_store self) →
  preprocess py (Preprocessor.init p) message = Return tx →
  ∃ store',
    FeatureExtractor.update_card_state
      (FeatureExtractor.init Config.FEATURE_CONFIG) (feature_store self)
      (py_str py (default (PyStr "") (message !! "card_id"))) tx
    = Return store'
    ∧ _process_message py self message
      = (sliceable (default (PyStr "") (message !! "card_id")), with_store self store').
Proof.
  intros He Hpre Hinv Hp.
  destruct (extract_features_returns py p _ _ _ Hinv Hp) as [features Hf].
  pose proof (preprocess_Return _ _ _ _ Hp) as [Hshape _].
  destruct (merchant_id_is_text _ _ Hshape) as [mid Hmid].
  destruct (amount_is_normalized _ _ Hshape) as (b & Hb & _).
  destruct (timestamp_in_range _ _ Hshape) as (ts & Hts & _).
  destruct (update_card_state_typed
              (FeatureExtractor.init Config.FEATURE_CONFIG) (feature_store self)
              (py_str py (default (PyStr "") (message !! "card_id")))
              tx b mid ts Hb Hmid Hts) as (store' & Hu & _).
  exists store'. split; [done|].
  destruct (preprocess_prints_ids _ _ _ _ Hp)
    as (tid & cid & _ & Htid & Dtid & Hcid & Dcid & _).
  unfold _process_message. rewrite Htid, Hcid in *. cbn [from_option id] in *.
  rewrite (str_printable _ _ Dtid), (str_printable _ _ Dcid). run.
  rewrite Hpre, Hp, He, Hf, Hu.
  by destruct (sliceable _).
Qed.

Lemma _process_message_keeps_amounts py self message p :
  feature_extractor self = FeatureExtractor.init Config.FEATURE_CONFIG →
  preprocessor self = Preprocessor.init p →
  amounts_are_floats (feature_store self) →
  amounts_are_floats (feature_store (_process_message py self message).2).
Proof.
  intros He Hpre Hinv.
  destruct (preprocess py (Preprocessor.init p) message) as [tx|e] eqn:Hp.
  - destruct (_process_message_accepted py self message p tx He Hpre Hinv Hp)
      as (store' & Hu & ->). simpl.
    pose proof (preprocess_Return _ _ _ _ Hp) as [Hshape _].
    destruct (amount_is_normalized _ _ Hshape) as (b & Hb & _).
    by apply (update_card_state_keeps_amounts _ _ _ _ b _ Hinv Hb Hu).
  - unfold _process_message. rewrite Hpre, Hp. by destruct (str py _).
Qed.

End Pipeline.

(** ** What the loop counts *)

Section ConsumerCounts.
Import FeatureStore Preprocessor Consumer Spec.

(** X14: on a store whose history holds float amounts, as every store
    that the loop fills does, feature extraction and the writes never
    fail for a record the preprocessor returned. A message is counted as
    processed exactly when [preprocess] accepts it and its [card_id] is a
    text or a list, the two kinds of value that the slice [card_id[:12]]
    of the log line accepts. *)
Theorem message_is_processed_iff py self message p :
  feature_extractor self = FeatureExtractor.init Config.FEATURE_CONFIG →
  preprocessor self = Preprocessor.init p →
  amounts_are_floats (feature_store self) →
  (_process_message py self message).1 = true
  ↔ (∃ tx, preprocess py (preprocessor self) message = Return tx)
    ∧ ∃ s, message !! "card_id" = Some (PyStr s)
           ∨ message !! "card_id" = Some (PyList s).
Proof.
  intros He Hpre Hinv. rewrite Hpre.
  destruct (preprocess py (Preprocessor.init p) message) as [tx|e] eqn:Hp.
  - destruct (_process_message_accepted py self message p tx He Hpre Hinv Hp)
      as (store' & _ & ->). simpl.
    apply preprocess_fields in Hp as (_ & cid & _ & _ & _ & _ & _ & _ & -> & _).
    simpl. split.
    + intros Hs. split; [eauto|]. destruct cid; try done; eauto.
    + intros [_ [s [[= ->]|[= ->]]]]; done.
  - unfold _process_message. rewrite Hpre, Hp.
    split; [by destruct (str py _)|]. by intros [[tx [=]] _].
Qed.

Lemma message_is_processed_iff_witness :
  (_process_message Scenario.utc (Consumer.init FeatureStore.empty) Scenario.cold_start).1
  = true
  ↔ (∃ tx, preprocess Scenario.utc (preprocessor (Consumer.init FeatureStore.empty))
             Scenario.cold_start = Return tx)
    ∧ ∃ s, Scenario.cold_start !! "card_id" = Some (PyStr s)
           ∨ Scenario.cold_start !! "card_id" = Some (PyList s).
Proof.
  exact (message_is_processed_iff
           Scenario.utc (Consumer.init FeatureStore.empty) Scenario.cold_start 99
           eq_refl eq_refl amounts_are_floats_empty).
Defined.

(** X15: a message whose [card_id] is a number passes the preprocessor,
    which works on a copy with the identifier made text, and its state is
    written under that text; but the log line slices the raw identifier,
    the [TypeError] is caught, and the message is counted as failed. *)
Theorem numeric_card_id_is_written_but_counted_failed py self message p n tx :
  feature_extractor self = FeatureExtractor.init Config.FEATURE_CONFIG →
  preprocessor self = Preprocessor.init p →
  amounts_are_floats (feature_store self) →
  message !! "card_id" = Some (PyInt n) →
  preprocess py (preprocessor self) message = Return tx →
  let self' := consume_message py self message in
  messages_failed self' = messages_failed self + 1
  ∧ messages_processed self' = messages_processed self
  ∧ ∃ timestamp,
      tx !! "timestamp" = Some (PyInt timestamp)
      ∧ get_last_transaction_timestamp (feature_store self') (pretty n)
        = Some timestamp.
Proof.
  intros He Hpre Hinv Hc Hp self'. rewrite Hpre in Hp.
  destruct (_process_message_accepted py self message p tx He Hpre Hinv Hp)
    as (store' & Hu & Hm).
  rewrite Hc in Hu, Hm. simpl in Hu, Hm.
  unfold self', consume_message. rewrite Hm. simpl.
  split; [done|]. split; [done|].
  pose proof (preprocess_Return _ _ _ _ Hp) as [Hshape _].
  destruct (merchant_id_is_text _ _ Hshape) as [mid Hmid].
  destruct (amount_is_normalized _ _ Hshape) as (b & Hb & _).
  destruct (timestamp_in_range _ _ Hshape) as (ts & Hts & _).
  exists ts. split; [done|].
  destruct (update_card_state_typed
              (FeatureExtractor.init Config.FEATURE_CONFIG) (feature_store self)
              (pretty n) tx b mid ts Hb Hmid Hts) as (store'' & Hu' & Hlast).
  rewrite Hu in Hu'. by injection Hu' as <-.
Qed.

Lemma numeric_card_id_is_written_but_counted_failed_witness :
  let self := Consumer.init FeatureStore.empty in
  ∃ tx,
    preprocess Scenario.utc (preprocessor self) Scenario.numbered = Return tx
    ∧ let self' := consume_message Scenario.utc self Scenario.numbered in
      messages_failed self' = messages_failed self + 1
      ∧ messages_processed self' = messages_processed self
      ∧ ∃ timestamp,
          tx !! "timestamp" = Some (PyInt timestamp)
          ∧ get_last_transaction_timestamp (feature_store self') (pretty 4242)
            = Some timestamp.
Proof.
  intros self.
  destruct (preprocess Scenario.utc (preprocessor self) Scenario.numbered)
    as [tx|] eqn:E.
  - exists tx. split; [done|].
    apply (numeric_card_id_is_written_but_counted_failed
             Scenario.utc self Scenario.numbered 99 4242 tx
             eq_refl eq_refl amounts_are_floats_empty).
    + unfold Scenario.numbered. apply lookup_insert_eq.
    + exact E.
  - assert (returns (preprocess Scenario.utc (preprocessor self) Scenario.numbered)
            = true) as Hr by (vm_compute; reflexivity).
    rewrite E in Hr. discriminate Hr.
Defined.

Lemma running_consume_message py self message :
  running (consume_message py self message) = running self.
Proof.
  unfold consume_message, _process_message.
  destruct (_ ← str py _; preprocess _ _ _); [|done].
  destruct (FeatureExtractor.extract_features _ _ _ _); [|done].
  destruct (_ ← str py _; FeatureExtractor.update_card_state _ _ _ _); [|done].
  by destruct (sliceable _).
Qed.

Lemma counters_consume_message py self message :
  let self' := consume_message py self message in
  (messages_processed self' = messages_processed self + 1
   ∧ messages_failed self' = messages_failed self)
  ∨ (messages_processed self' = messages_processed self
     ∧ messages_failed self' = messages_failed self + 1).
Proof.
  unfold consume_message.
  destruct (_process_message py self message) as [[] self'] eqn:E; simpl.
  - left. revert E. unfold _process_message.
    destruct (_ ← str py _; preprocess _ _ _); [|done].
    destruct (FeatureExtractor.extract_features _ _ _ _); [|done].
    destruct (_ ← str py _; FeatureExtractor.update_card_state _ _ _ _); [|done].
    destruct (sliceable _); [|done]. by intros [= <-].
  - right. revert E. unfold _process_message.
    destruct (_ ← str py _; preprocess _ _ _); [|by intros [= <-]].
    destruct (FeatureExtractor.extract_features _ _ _ _); [|by intros [= <-]].
    destruct (_ ← str py _; FeatureExtractor.update_card_state _ _ _ _);
      [|by intros [= <-]].
    destruct (sliceable _); [done|]. by intros [= <-].
Qed.

(** X16: while [running] is set the loop counts every message exactly
    once, as processed or as failed, and neither counter ever decreases;
    with [running] cleared it handles no message at all. *)
Theorem consume_counts_every_message py messages self :
  let self' := consume py self messages in
  if running self
  then messages_processed self' + messages_failed self'
       = messages_processed self + messages_failed self + Z.of_nat (length messages)
       ∧ messages_processed self ≤ messages_processed self'
       ∧ messages_failed self ≤ messages_failed self'
  else self' = self.
Proof.
  revert self. induction messages as [|message rest IH]; intros self; simpl.
  - destruct (running self); [lia|done].
  - destruct (running self) eqn:Hr; simpl; [|done].
    specialize (IH (consume_message py self message)). simpl in IH.
    rewrite running_consume_message, Hr in IH.
    pose proof (counters_consume_message py self message) as Hc. simpl in Hc.
    lia.
Qed.

End ConsumerCounts.

(** ** The card features served to the model *)

Section CardFeatures.
Import FeatureStore Spec.

(** X17: the conversions of [get_card_features] stand or fall together:
    when the text of one of the ten fields is not a number of its kind,
    the exception is caught and the defaults are returned for all ten,
    whatever the other fields hold. *)
Theorem get_card_features_one_bad_field_loses_all py int_of_string self card_id key text :
  hgetall self card_id !! key = Some text →
  (key ∈ ["tx_count_10m"; "tx_count_1h"; "tx_count_24h"; "unique_merchants_24h";
          "last_tx_timestamp"; "is_new_card"]
   ∧ int_of_string text = None)
  ∨ (key ∈ ["total_amount_10m"; "total_amount_1h"; "total_amount_24h";
            "avg_tx_amount_30d"]
     ∧ float_of_string py text = None) →
  get_card_features py int_of_string self card_id = _get_default_card_features.
Proof.
  intros Hl Hbad. unfold get_card_features.
  set (features := hgetall self card_id) in *.
  destruct (decide (features = ∅)); [done|].
  destruct (int_field int_of_string features "tx_count_10m" 0) eqn:E1; [|done].
  destruct (int_field int_of_string features "tx_count_1h" 0) eqn:E2; [|done].
  destruct (int_field int_of_string features "tx_count_24h" 0) eqn:E3; [|done].
  destruct (float_field py features "total_amount_10m" 0) eqn:E4; [|done].
  destruct (float_field py features "total_amount_1h" 0) eqn:E5; [|done].
  destruct (float_field py features "total_amount_24h" 0) eqn:E6; [|done].
  destruct (int_field int_of_string features "unique_merchants_24h" 0) eqn:E7; [|done].
  destruct (float_field py features "avg_tx_amount_30d" 75) eqn:E8; [|done].
  destruct (int_field int_of_string features "last_tx_timestamp" 0) eqn:E9; [|done].
  destruct (int_field int_of_string features "is_new_card" 1) eqn:E10; [|done].
  exfalso. unfold int_field, float_field in *.
  destruct Hbad as [[Hk Hn]|[Hk Hn]];
    rewrite !elem_of_cons, elem_of_nil in Hk;
    repeat (destruct Hk as [->|Hk]; [rewrite Hl in *; congruence|]); done.
Qed.

Lemma get_card_features_one_bad_field_loses_all_witness :
  get_card_features Scenario.two_amounts Scenario.three_integers
    Scenario.broken_hash "C1"
  = _get_default_card_features.
Proof.
  apply (get_card_features_one_bad_field_loses_all
           Scenario.two_amounts Scenario.three_integers
           Scenario.broken_hash "C1" "tx_count_1h" "many").
  - vm_compute. reflexivity.
  - left. split; [elem_of_list_literal|reflexivity].
Defined.

Lemma dom_get_card_features py int_of_string self card_id :
  dom (get_card_features py int_of_string self card_id)
  = {[ "tx_count_10m"; "tx_count_1h"; "tx_count_24h"; "total_amount_10m";
       "total_amount_1h"; "total_amount_24h"; "unique_merchants_24h";
       "avg_tx_amount_30d"; "last_tx_timestamp"; "is_new_card" ]}.
Proof.
  assert (dom _get_default_card_features
          = {[ "tx_count_10m"; "tx_count_1h"; "tx_count_24h"; "total_amount_10m";
               "total_amount_1h"; "total_amount_24h"; "unique_merchants_24h";
               "avg_tx_amount_30d"; "last_tx_timestamp"; "is_new_card" ]}) as Hd.
  { unfold _get_default_card_features. rewrite !dom_insert_L, dom_singleton_L.
    apply set_eq. intros k. rewrite !elem_of_union, !elem_of_singleton. tauto. }
  unfold get_card_features.
  set (features := hgetall self card_id) in *.
  destruct (decide (features = ∅)); [done|].
  destruct (int_field int_of_string features "tx_count_10m" 0) eqn:E1; [|done].
  destruct (int_field int_of_string features "tx_count_1h" 0) eqn:E2; [|done].
  destruct (int_field int_of_string features "tx_count_24h" 0) eqn:E3; [|done].
  destruct (float_field py features "total_amount_10m" 0) eqn:E4; [|done].
  destruct (float_field py features "total_amount_1h" 0) eqn:E5; [|done].
  destruct (float_field py features "total_amount_24h" 0) eqn:E6; [|done].
  destruct (int_field int_of_string features "unique_merchants_24h" 0) eqn:E7; [|done].
  destruct (float_field py features "avg_tx_amount_30d" 75) eqn:E8; [|done].
  destruct (int_field int_of_string features "last_tx_timestamp" 0) eqn:E9; [|done].
  destruct (int_field int_of_string features "is_new_card" 1) eqn:E10; [|done].
  cbn [mbind option_bind from_option id].
  rewrite !dom_insert_L, dom_singleton_L.
  apply set_eq. intros k. rewrite !elem_of_union, !elem_of_singleton. tauto.
Qed.

Lemma card_prefix_inj : Inj eq eq (λ k : string, "card_" +:+ k).
Proof. intros x y H. by apply (inj (String.append "card_")) in H. Qed.

Lemma merchant_prefix_inj : Inj eq eq (λ k : string, "merchant_" +:+ k).
Proof. intros x y H. by apply (inj (String.append "merchant_")) in H. Qed.

(** X18: the combined features keep every card feature under the prefix
    [card_] and every merchant feature under the prefix [merchant_]: no
    value overwrites another, and the result always has the same 13
    keys. *)
Theorem get_all_features_keeps_both py int_of_string self hashes card_id merchant_id :
  let all_features :=
    get_all_features py int_of_string self hashes card_id merchant_id in
  (∀ k, all_features !! ("card_" +:+ k)
        = get_card_features py int_of_string hashes card_id !! k)
  ∧ (∀ k, all_features !! ("merchant_" +:+ k)
          = get_merchant_features self merchant_id !! k)
  ∧ dom all_features
    = {[ "card_tx_count_10m"; "card_tx_count_1h"; "card_tx_count_24h";
         "card_total_amount_10m"; "card_total_amount_1h"; "card_total_amount_24h";
         "card_unique_merchants_24h"; "card_avg_tx_amount_30d";
         "card_last_tx_timestamp"; "card_is_new_card";
         "merchant_risk_score"; "merchant_fraud_rate";
         "merchant_total_transactions" ]}.
Proof.
  intros all_features. unfold all_features, get_all_features.
  pose proof card_prefix_inj as Hc. pose proof merchant_prefix_inj as Hm.
  split; [|split].
  - intros k. rewrite lookup_union_r.
    + rewrite lookup_union_l by apply lookup_empty.
      apply (lookup_kmap (λ k : string, "card_" +:+ k)).
    + apply lookup_kmap_None; [done|]. intros j Hj. discriminate Hj.
  - intros k. rewrite lookup_union_l.
    + apply (lookup_kmap (λ k : string, "merchant_" +:+ k)).
    + apply lookup_union_None. split; [|apply lookup_empty].
      apply lookup_kmap_None; [done|]. intros j Hj. discriminate Hj.
  - rewrite !dom_union_L, !dom_kmap_L, dom_empty_L; [|exact Hc|exact Hm].
    rewrite dom_get_card_features, dom_get_merchant_features.
    rewrite !set_map_union_L, !set_map_singleton_L.
    apply set_eq. intros k.
    rewrite !elem_of_union, !elem_of_singleton, elem_of_empty.
    cbn [String.append]. tauto.
Qed.

End CardFeatures.

(** ** Writing and reading card features *)

Section CardFeaturesRoundTrip.
Import FeatureStore Spec.

Lemma int_field_written py int_of_string (features : dict) old key z :
  features !! key = Some (PyInt z) →
  int_of_string (pretty z) = Some z →
  ∀ default_value,
    int_field int_of_string (omap (encode py) features ∪ old) key default_value
    = Some z.
Proof.
  intros Hf Hz d. unfold int_field.
  rewrite (lookup_union_Some_l _ _ _ (pretty z)); [done|].
  rewrite lookup_omap, Hf. done.
Qed.

Lemma float_field_written py (features : dict) old key f :
  features !! key = Some (PyFloat f) →
  float_of_string py (repr_float py f) = Some f →
  ∀ default_value,
    float_field py (omap (encode py) features ∪ old) key default_value = Some f.
Proof.
  intros Hf Hz d. unfold float_field.
  rewrite (lookup_union_Some_l _ _ _ (repr_float py f)); [done|].
  rewrite lookup_omap, Hf. done.
Qed.

(** X19: what [update_card_features] has written with a positive time
    to live, [get_card_features] reads back. When the update returns
    [True] for a mapping whose six counts are integers and whose four
    amounts are floats, numbers whose text the runtime reads back as the
    number, the ten features read afterwards are those of the mapping,
    whatever the hash held before, and the hash expires after [ttl]
    seconds. With a time to live that is not positive the hash is
    deleted, and the defaults are read. *)
Theorem update_then_get_card_features py int_of_string self card_id features ttl :
  (∀ key, key ∈ ["tx_count_10m"; "tx_count_1h"; "tx_count_24h";
                 "unique_merchants_24h"; "last_tx_timestamp"; "is_new_card"] →
     ∃ z, features !! key = Some (PyInt z) ∧ int_of_string (pretty z) = Some z) →
  (∀ key, key ∈ ["total_amount_10m"; "total_amount_1h"; "total_amount_24h";
                 "avg_tx_amount_30d"] →
     ∃ f, features !! key = Some (PyFloat f)
          ∧ float_of_string py (repr_float py f) = Some f) →
  (update_card_features py self card_id features ttl).1 = true →
  let self' := (update_card_features py self card_id features ttl).2 in
  (0 < ttl →
   (∀ key, key ∈ ["tx_count_10m"; "tx_count_1h"; "tx_count_24h";
                  "total_amount_10m"; "total_amount_1h"; "total_amount_24h";
                  "unique_merchants_24h"; "avg_tx_amount_30d";
                  "last_tx_timestamp"; "is_new_card"] →
      get_card_features py int_of_string self' card_id !! key = features !! key)
   ∧ card_features_ttl self' !! card_features_key card_id = Some ttl)
  ∧ (ttl ≤ 0 →
     get_card_features py int_of_string self' card_id = _get_default_card_features
     ∧ card_features_ttl self' !! card_features_key card_id = None).
Proof.
  intros Hint Hfloat. unfold update_card_features.
  destruct (decide (features = ∅)); [done|].
  destruct (decide (map_Forall _ features)); [|done].
  intros _. cbn [snd]. split.
  2: { intros Httl. rewrite (proj2 (Z.leb_le _ _) Httl).
       cbn [card_features_ttl]. split; [|apply lookup_delete_eq].
       unfold get_card_features, hgetall. cbn [card_features].
       rewrite lookup_delete_eq. cbn [from_option id].
       by destruct (decide (∅ = ∅)). }
  intros Httl. rewrite (proj2 (Z.leb_gt _ _) Httl). cbn [card_features_ttl].
  split; [|apply lookup_insert_eq].
  set (old := hgetall self card_id).
  unfold get_card_features.
  assert (hgetall {| card_features :=
                       <[card_id := omap (encode py) features ∪ old]> (card_features self);
                     card_features_ttl :=
                       <[card_features_key card_id := ttl]> (card_features_ttl self) |}
                  card_id
          = omap (encode py) features ∪ old) as ->.
  { unfold hgetall. cbn [card_features]. by rewrite lookup_insert_eq. }
  destruct (Hint "tx_count_10m") as (z1 & F1 & I1); [elem_of_list_literal|].
  destruct (Hint "tx_count_1h") as (z2 & F2 & I2); [elem_of_list_literal|].
  destruct (Hint "tx_count_24h") as (z3 & F3 & I3); [elem_of_list_literal|].
  destruct (Hfloat "total_amount_10m") as (f4 & F4 & I4); [elem_of_list_literal|].
  destruct (Hfloat "total_amount_1h") as (f5 & F5 & I5); [elem_of_list_literal|].
  destruct (Hfloat "total_amount_24h") as (f6 & F6 & I6); [elem_of_list_literal|].
  destruct (Hint "unique_merchants_24h") as (z7 & F7 & I7); [elem_of_list_literal|].
  destruct (Hfloat "avg_tx_amount_30d") as (f8 & F8 & I8); [elem_of_list_literal|].
  destruct (Hint "last_tx_timestamp") as (z9 & F9 & I9); [elem_of_list_literal|].
  destruct (Hint "is_new_card") as (z10 & F10 & I10); [elem_of_list_literal|].
  destruct (decide (omap (encode py) features ∪ old = ∅)) as [Hempty|_].
  { apply (f_equal (λ m : gmap string string, m !! "tx_count_10m")) in Hempty.
    rewrite (lookup_union_Some_l _ _ _ (pretty z1)) in Hempty; [done|].
    by rewrite lookup_omap, F1. }
  rewrite (int_field_written _ _ _ _ _ _ F1 I1), (int_field_written _ _ _ _ _ _ F2 I2),
    (int_field_written _ _ _ _ _ _ F3 I3), (float_field_written _ _ _ _ _ F4 I4),
    (float_field_written _ _ _ _ _ F5 I5), (float_field_written _ _ _ _ _ F6 I6),
    (int_field_written _ _ _ _ _ _ F7 I7), (float_field_written _ _ _ _ _ F8 I8),
    (int_field_written _ _ _ _ _ _ F9 I9), (int_field_written _ _ _ _ _ _ F10 I10).
  cbn [mbind option_bind from_option id].
  intros key Hk. rewrite !elem_of_cons, elem_of_nil in Hk.
  repeat (destruct Hk as [->|Hk]; [by lookup_inserts; first [done|lookup_literal]|]).
  done.
Qed.

Lemma update_then_get_card_features_witness :
  let self' :=
    (update_card_features Scenario.two_amounts no_card_features "C1"
       Scenario.snapshot 2592000).2 in
  (∀ key, key ∈ ["tx_count_10m"; "tx_count_1h"; "tx_count_24h";
                 "total_amount_10m"; "total_amount_1h"; "total_amount_24h";
                 "unique_merchants_24h"; "avg_tx_amount_30d";
                 "last_tx_timestamp"; "is_new_card"] →
     get_card_features Scenario.two_amounts Scenario.three_integers self' "C1" !! key
     = Scenario.snapshot !! key)
  ∧ card_features_ttl self' !! card_features_key "C1" = Some 2592000.
Proof.
  apply (update_then_get_card_features
           Scenario.two_amounts Scenario.three_integers no_card_features "C1"
           Scenario.snapshot 2592000).
  - intros key Hk. rewrite !elem_of_cons, elem_of_nil in Hk.
    repeat (destruct Hk as [->|Hk];
            [eexists; split; [unfold Scenario.snapshot; lookup_literal|reflexivity]|]).
    done.
  - intros key Hk. rewrite !elem_of_cons, elem_of_nil in Hk.
    repeat (destruct Hk as [->|Hk];
            [eexists; split; [unfold Scenario.snapshot; lookup_literal|reflexivity]|]).
    done.
  - vm_compute. reflexivity.
  - reflexivity.
Defined.

End CardFeaturesRoundTrip.

(** ** The validation script *)

Section Validation.
Import FeatureStore Preprocessor Consumer Spec ValidateFeatures.

Lemma history_is_sound_empty : history_is_sound FeatureStore.empty.
Proof. intros card_id m score H. by apply elem_of_nil in H. Qed.

Lemma history_is_sound_amounts store :
  history_is_sound store → amounts_are_floats store.
Proof.
  intros H card_id d score Hin.
  destruct (H card_id _ _ Hin) as (d' & a & [= <-] & Ha & _). eauto.
Qed.

Lemma update_card_state_keeps_sound self store card_id transaction amount store' :
  history_is_sound store →
  transaction !! "amount" = Some (PyFloat amount) →
  (amount <=? 0)%float = false →
  FeatureExtractor.update_card_state self store card_id transaction = Return store' →
  history_is_sound store'.
Proof.
  intros Hinv Ha Hpos Hu.
  apply update_card_state_steps in Hu
    as (va & vm & vt & s1 & s2 & s3 & Ha' & Hm & Ht & E1 & E2 & E3 & E4).
  rewrite Ha in Ha'. injection Ha' as <-.
  assert (∀ c, history store' c = history s1 c) as Hh.
  { intros c. subst store' s3 s2.
    by destruct (int_val vt), (number_val (PyFloat amount)), (str_val vm). }
  intros c m score. rewrite Hh, E1. intros Hin.
  apply elem_of_history_add_to_transaction_history in Hin
    as [Hin|(-> & a & mid & ts & Ha' & _ & _ & Heq)].
  - by apply (Hinv c m score).
  - rewrite Ha in Ha'. injection Ha' as <-.
    injection Heq as -> ->. eexists _, amount. split; [done|].
    split; [lookup_literal|]. split; [done|]. lookup_literal.
Qed.

Lemma configured_init store : configured (Consumer.init store).
Proof. by split. Qed.

Lemma _process_message_keeps_sound py self message :
  configured self →
  history_is_sound (feature_store self) →
  configured (_process_message py self message).2
  ∧ history_is_sound (feature_store (_process_message py self message).2).
Proof.
  intros [He Hpre] Hinv.
  destruct (preprocess py (Preprocessor.init 99) message) as [tx|e] eqn:Hp.
  - destruct (_process_message_accepted py self message 99 tx He Hpre
                (history_is_sound_amounts _ Hinv) Hp) as (store' & Hu & ->). simpl.
    split; [by split|].
    pose proof (preprocess_Return _ _ _ _ Hp) as [Hshape _].
    destruct (amount_is_normalized _ _ Hshape) as (b & Hb & _ & Hpos).
    by apply (update_card_state_keeps_sound _ _ _ _ b _ Hinv Hb Hpos Hu).
  - unfold _process_message. rewrite Hpre, Hp. by destruct (str py _).
Qed.

Lemma consume_keeps_sound py messages : ∀ self,
  configured self →
  history_is_sound (feature_store self) →
  configured (consume py self messages)
  ∧ history_is_sound (feature_store (consume py self messages)).
Proof.
  induction messages as [|message rest IH]; intros self Hc Hinv; simpl; [done|].
  destruct (running self); simpl; [|done].
  pose proof (_process_message_keeps_sound py self message Hc Hinv) as [[H1 H2] H3].
  apply IH; unfold consume_message;
    destruct (_process_message py self message) as [[] self']; done.
Qed.

Lemma check_transaction_sound d amount score :
  d !! "amount" = Some (PyFloat amount) →
  (amount <=? 0)%float = false →
  d !! "timestamp" = Some (PyInt score) →
  check_transaction (Json d) score = Return [].
Proof.
  intros Ha Hpos Ht. unfold check_transaction. rewrite Ha, Ht. simpl.
  rewrite Hpos. run. by rewrite Z.eqb_refl.
Qed.

Lemma sample_sound (sample : list (member * Z)) :
  (∀ m score, (m, score) ∈ sample → check_transaction m score = Return []) →
  foldl (λ acc '(tx_data, score),
           issues ← acc;
           found ← check_transaction tx_data score;
           Return (issues ++ found))
        (Return []) sample
  = Return [].
Proof.
  induction sample as [|[m score] sample IH]; intros H; simpl; [done|].
  rewrite (H m score) by apply list_elem_of_here. run. simpl.
  apply IH. intros m' score' Hin. apply H. by apply list_elem_of_further.
Qed.

(** X20: the histories that the consumer writes pass the validation
    script of the repository. Whatever messages the loop has consumed
    since the empty store, the sample of every history is decodable,
    holds an amount that is not [<= 0] and a timestamp equal to its
    score: the report is valid, counts the whole history and lists no
    issue. *)
Theorem consumed_history_passes_validation py messages card_id :
  let store := feature_store (consume py (Consumer.init FeatureStore.empty) messages) in
  validate_transaction_history store card_id
  = {| valid := true;
       count := Z.of_nat (length (history store card_id));
       issues := [] |}.
Proof.
  intros store.
  destruct (consume_keeps_sound py messages (Consumer.init FeatureStore.empty)
              (configured_init _) history_is_sound_empty) as [_ Hinv].
  fold store in Hinv. unfold validate_transaction_history.
  destruct (Z.of_nat (length (history store card_id)) =? 0) eqn:E.
  { apply Z.eqb_eq in E. by rewrite E. }
  rewrite sample_sound; [done|].
  intros m score Hin. apply elem_of_take in Hin as (i & Hin & _).
  apply list_elem_of_lookup_2 in Hin.
  destruct (Hinv card_id m score Hin) as (d & a & -> & Ha & Hpos & Ht).
  by apply (check_transaction_sound d a).
Qed.

End Validation.

(** ** The second event of a card *)

Section SecondEvent.
Import FeatureStore Preprocessor Spec FeatureExtractor.

Lemma zero_add b : (b <=? 0)%float = false → (0 + b)%float = b.
Proof.
  intros Hb. apply Prim2SF_eq. rewrite add_spec.
  rewrite leb_spec in Hb. change (Prim2SF 0) with (S754_zero false) in *.
  by destruct (Prim2SF b) as [[]| | |].
Qed.

(** The sum and the rounding of a window that holds one amount. *)
Lemma total_of_one_amount p a :
  let b := _normalize_amount (Preprocessor.init p) a in
  (b <=? 0)%float = false →
  py_sum [PyFloat b] = Return (PyFloat b)
  ∧ py_round (PyFloat b) 2 = Return (PyFloat b).
Proof.
  intros b Hb. unfold py_sum. simpl. rewrite zero_add by done.
  split; [done|]. do 2 f_equal.
  destruct (_normalize_amount_cases p a) as [[Hnan Heq]|[Hle|[_ Hc]]].
  - fold b in Heq. rewrite Heq. by apply round_nan.
  - fold b in Hle. congruence.
  - by apply cents_round.
Qed.

(** X21: the second event of a card sees the first. When the state of a
    card with no history is updated with a preprocessed transaction of
    timestamp [ts1], the extraction for that card at any time [ts2] of the
    next ten minutes counts one transaction in each of the three windows,
    totals its amount, unchanged by the sum and the rounding, counts one
    merchant and reports [ts2 - ts1] seconds since the last
    transaction. *)
Theorem second_event_sees_the_first
    py p message transaction store card_id store' ts1 ts2 :
  preprocess py (Preprocessor.init p) message = Return transaction →
  transaction !! "timestamp" = Some (PyInt ts1) →
  history store card_id = [] →
  merchants store card_id = ∅ →
  update_card_state (init Config.FEATURE_CONFIG) store card_id transaction
  = Return store' →
  ts1 ≤ ts2 ≤ ts1 + 600 →
  ∃ features,
    _compute_velocity_features (init Config.FEATURE_CONFIG) store' card_id ts2
    = Return features
    ∧ features !! "tx_count_10m" = Some (PyInt 1)
    ∧ features !! "tx_count_1h" = Some (PyInt 1)
    ∧ features !! "tx_count_24h" = Some (PyInt 1)
    ∧ features !! "total_amount_10m" = transaction !! "amount"
    ∧ features !! "total_amount_1h" = transaction !! "amount"
    ∧ features !! "total_amount_24h" = transaction !! "amount"
    ∧ features !! "unique_merchants_24h" = Some (PyInt 1)
    ∧ features !! "time_since_last_tx" = Some (PyInt (ts2 - ts1)).
Proof.
  intros Hp Hts Hh Hm Hu Hw.
  pose proof (preprocess_Return _ _ _ _ Hp) as [Hshape (va & a & _ & _ & Hb)].
  destruct (merchant_id_is_text _ _ Hshape) as [mid Hmid].
  destruct (amount_is_normalized _ _ Hshape) as (b & Hb' & _ & Hpos).
  rewrite Hb in Hb'. injection Hb' as Hbeq.
  destruct (timestamp_in_range _ _ Hshape) as (ts & Hts' & Hrange).
  rewrite Hts in Hts'. injection Hts' as <-.
  pose proof (total_of_one_amount p a) as Htotal. cbv zeta in Htotal.
  rewrite Hbeq in Htotal. destruct (Htotal Hpos) as [Hsum Hround]. clear Htotal.
  rewrite Hbeq in Hb. clear Hbeq a va.
  apply update_card_state_steps in Hu
    as (va & vm & vt & s1 & s2 & s3 & Ha' & Hm' & Ht' & E1 & E2 & E3 & E4).
  rewrite Hb in Ha'. rewrite Hmid in Hm'. rewrite Hts in Ht'.
  injection Ha' as <-. injection Hm' as <-. injection Ht' as <-.
  cbn [str_val number_val int_val] in *.
  set (entry := {[ "amount" := PyFloat b; "merchant_id" := PyStr mid;
                   "timestamp" := PyInt ts1 ]} : dict).
  assert (history store' card_id = [(json_dumps entry, ts1)]) as Hh'.
  { transitivity (history s1 card_id); [by subst|]. subst s1.
    rewrite (history_add_to_transaction_history _ _ _ _ _ _ _ Hb Hmid Hts eq_refl eq_refl),
      Hh.
    destruct (decide (0 < 86400)); [|lia].
    unfold zadd, zremrangebyscore_from_neg_inf. simpl.
    by rewrite (proj2 (Z.leb_gt ts1 (ts1 - 86400))) by lia. }
  assert (∀ w, 600 ≤ w →
            get_transaction_history store' card_id w ts2 = [entry]) as Hget.
  { intros w Hwin. rewrite get_transaction_history_cases, Hh'.
    unfold zrangebyscore. simpl.
    by rewrite (proj2 (Z.leb_le (ts2 - w) ts1)), (proj2 (Z.leb_le ts1 ts2)) by lia. }
  assert (merchants store' card_id = {[ mid ]}) as Hms.
  { transitivity (merchants (add_merchant_to_set s1 card_id mid 86400).2 card_id);
      [by subst|].
    rewrite merchants_add_merchant_to_set. destruct (decide _); [|lia].
    subst s1. rewrite merchants_add_to_transaction_history_any, Hm.
    by rewrite union_empty_r_L. }
  assert (get_last_transaction_timestamp store' card_id = Some ts1) as Hlast.
  { subst store'. apply get_last_transaction_timestamp_update. }
  unfold _compute_velocity_features.
  change (velocity_windows (init Config.FEATURE_CONFIG))
    with [("10m", 600); ("1h", 3600); ("24h", 86400)].
  cbn [velocity_loop window].
  rewrite !Hget by lia. cbn [fmap list_fmap length].
  assert (default (PyInt 0) (entry !! "amount") = PyFloat b) as ->.
  { unfold entry. by rewrite lookup_insert_eq. }
  rewrite !Hsum. run. rewrite !Hround. run.
  rewrite !bool_decide_eq_false_2 by discriminate.
  rewrite bool_decide_eq_true_2 by done. run.
  eexists. split; [done|].
  change ("tx_count_" +:+ "10m") with "tx_count_10m".
  change ("tx_count_" +:+ "1h") with "tx_count_1h".
  change ("tx_count_" +:+ "24h") with "tx_count_24h".
  change ("total_amount_" +:+ "10m") with "total_amount_10m".
  change ("total_amount_" +:+ "1h") with "total_amount_1h".
  change ("total_amount_" +:+ "24h") with "total_amount_24h".
  rewrite Hb. unfold get_unique_merchant_count. rewrite Hms, size_singleton, Hlast.
  assert (negb (ts1 =? 0) && (0 <? ts1) = true) as -> by lia.
  repeat split; by lookup_inserts.
Qed.

Lemma second_event_sees_the_first_witness :
  ∃ features,
    _compute_velocity_features (init Config.FEATURE_CONFIG) Scenario.warm "C1"
      (1707580000 + 60)
    = Return features
    ∧ features !! "tx_count_10m" = Some (PyInt 1)
    ∧ features !! "tx_count_1h" = Some (PyInt 1)
    ∧ features !! "tx_count_24h" = Some (PyInt 1)
    ∧ features !! "total_amount_10m" = Scenario.ready !! "amount"
    ∧ features !! "total_amount_1h" = Scenario.ready !! "amount"
    ∧ features !! "total_amount_24h" = Scenario.ready !! "amount"
    ∧ features !! "unique_merchants_24h" = Some (PyInt 1)
    ∧ features !! "time_since_last_tx" = Some (PyInt (1707580000 + 60 - 1707580000)).
Proof.
  apply (second_event_sees_the_first
           Scenario.utc 99 Scenario.ready Scenario.ready FeatureStore.empty "C1"
           Scenario.warm 1707580000 (1707580000 + 60)).
  - apply preprocess_ready.
  - apply ready_timestamp.
  - reflexivity.
  - reflexivity.
  - apply update_card_state_ready.
  - lia.
Defined.

End SecondEvent.

(** ** Amounts and averages that are not numbers *)

Section NotANumber.
Import FeatureStore Preprocessor Spec FeatureExtractor.

Lemma mul_nan_r x : (x * nan)%float = nan.
Proof.
  apply Prim2SF_eq. rewrite mul_spec.
  change (Prim2SF nan) with S754_nan. by destruct (Prim2SF x).
Qed.

Lemma mul_nan_l x : (nan * x)%float = nan.
Proof.
  apply Prim2SF_eq. rewrite mul_spec.
  change (Prim2SF nan) with S754_nan. by destruct (Prim2SF x).
Qed.

Lemma add_nan_r x : (x + nan)%float = nan.
Proof.
  apply Prim2SF_eq. rewrite add_spec.
  change (Prim2SF nan) with S754_nan. by destruct (Prim2SF x).
Qed.

Lemma add_nan_l x : (nan + x)%float = nan.
Proof.
  apply Prim2SF_eq. rewrite add_spec.
  change (Prim2SF nan) with S754_nan. by destruct (Prim2SF x).
Qed.

(** X22: a NaN amount is not rejected: [amount <= 0] is false for NaN, so
    a record that the preprocessor has accepted is accepted as well, and
    returned as it is, when its amount is NaN; and the rolling average
    that such an amount updates is NaN, whatever it was. *)
Theorem nan_amount_is_accepted py p transaction out store card_id alpha :
  preprocess py (Preprocessor.init p) transaction = Return out →
  preprocess py (Preprocessor.init p) (<["amount" := PyFloat nan]> out)
  = Return (<["amount" := PyFloat nan]> out)
  ∧ (update_rolling_average store card_id nan alpha).1 = nan.
Proof.
  intros H. split.
  - apply preprocessed_fixed. apply preprocess_Return in H as [H _].
    split.
    + destruct (transaction_id_is_text _ _ H) as [s Hs]. exists s.
      by rewrite lookup_insert_ne by discriminate.
    + destruct (card_id_is_text _ _ H) as [s Hs]. exists s.
      by rewrite lookup_insert_ne by discriminate.
    + destruct (merchant_id_is_text _ _ H) as [s Hs]. exists s.
      by rewrite lookup_insert_ne by discriminate.
    + destruct (merchant_category_is_text _ _ H) as [s Hs]. exists s.
      by rewrite lookup_insert_ne by discriminate.
    + exists nan. by rewrite lookup_insert_eq.
    + destruct (timestamp_in_range _ _ H) as (ts & Hs & Hr). exists ts.
      by rewrite lookup_insert_ne by discriminate.
    + destruct (latitude_in_range _ _ H) as [Hl|(x & Hl & Hx)]; [left|right; exists x];
        by rewrite lookup_insert_ne by discriminate.
    + destruct (longitude_in_range _ _ H) as [Hl|(x & Hl & Hx)]; [left|right; exists x];
        by rewrite lookup_insert_ne by discriminate.
    + pose proof (city_is_filled _ _ H) as Hf. unfold absent in *.
      by rewrite lookup_insert_ne by discriminate.
    + pose proof (state_is_filled _ _ H) as Hf. unfold absent in *.
      by rewrite lookup_insert_ne by discriminate.
    + pose proof (user_id_is_filled _ _ H) as Hf. unfold absent in *.
      by rewrite lookup_insert_ne by discriminate.
  - unfold update_rolling_average. cbn [fst]. by rewrite mul_nan_r, add_nan_l.
Qed.

Lemma nan_amount_is_accepted_witness :
  preprocess Scenario.utc (Preprocessor.init 99)
    (<["amount" := PyFloat nan]> Scenario.ready)
  = Return (<["amount" := PyFloat nan]> Scenario.ready)
  ∧ (update_rolling_average FeatureStore.empty "C1" nan 0.1).1 = nan.
Proof.
  apply (nan_amount_is_accepted
           Scenario.utc 99 Scenario.ready Scenario.ready FeatureStore.empty "C1" 0.1).
  apply preprocess_ready.
Defined.

(** X23: a rolling average that is NaN stays NaN under every later
    update, whatever the amount and the smoothing factor; and while it is
    NaN the extractor reports the fallback values, the integer [0] for
    [amount_deviation] and [1.0] for [amount_vs_avg_ratio]. *)
Theorem nan_average_is_absorbing self store card_id amount alpha :
  get_rolling_average store card_id = Some nan →
  (update_rolling_average store card_id amount alpha).1 = nan
  ∧ get_rolling_average (update_rolling_average store card_id amount alpha).2 card_id
    = Some nan
  ∧ _compute_rolling_features self store card_id amount
    = {[ "avg_tx_amount_30d" := PyFloat nan;
         "amount_deviation" := PyInt 0;
         "amount_vs_avg_ratio" := PyFloat 1.0 ]}.
Proof.
  intros Havg.
  destruct (update_rolling_average_returns store card_id amount alpha) as [H1 H2].
  rewrite Havg in H1, H2. simpl in H1, H2.
  rewrite mul_nan_r, add_nan_r in H1, H2.
  split; [done|]. split; [done|].
  unfold _compute_rolling_features. rewrite Havg. done.
Qed.

Lemma nan_average_is_absorbing_witness :
  (update_rolling_average Scenario.nan_average "C1" 100 0.1).1 = nan
  ∧ get_rolling_average
      (update_rolling_average Scenario.nan_average "C1" 100 0.1).2 "C1"
    = Some nan
  ∧ _compute_rolling_features Scenario.extractor Scenario.nan_average "C1" 100
    = {[ "avg_tx_amount_30d" := PyFloat nan;
         "amount_deviation" := PyInt 0;
         "amount_vs_avg_ratio" := PyFloat 1.0 ]}.
Proof.
  apply (nan_average_is_absorbing
           Scenario.extractor Scenario.nan_average "C1" 100 0.1).
  unfold get_rolling_average, hget_stats, Scenario.nan_average, set_stats.
  cbn [card_stats]. by rewrite lookup_insert_eq.
Defined.

Lemma window_missing windows name :
  (∀ seconds, (name, seconds) ∉ windows) →
  window windows name = Raise (KeyError name).
Proof.
  induction windows as [|[n w] windows IH]; intros H; simpl; [done|].
  rewrite bool_decide_eq_false_2.
  - apply IH. intros s Hs. apply (H s). by right.
  - intros ->. apply (H w). by left.
Qed.

(** X24: the count of unique merchants reads the window named [24h] of
    the configuration; with a configuration that has no such window no
    extraction of velocity features returns. *)
Theorem velocity_features_need_the_24h_window self store card_id t :
  (∀ seconds, ("24h", seconds) ∉ velocity_windows self) →
  returns (_compute_velocity_features self store card_id t) = false.
Proof.
  intros H. unfold _compute_velocity_features.
  destruct (velocity_loop _ _ _ _ _); [|done]. run.
  by rewrite (window_missing _ _ H).
Qed.

Lemma velocity_features_need_the_24h_window_witness :
  returns (_compute_velocity_features
             Scenario.short_sighted FeatureStore.empty "C1" 1707580000)
  = false.
Proof.
  apply (velocity_features_need_the_24h_window
           Scenario.short_sighted FeatureStore.empty "C1" 1707580000).
  intros seconds H. apply list_elem_of_singleton in H. discriminate H.
Defined.

End NotANumber.
